(** * Subnet reconciliation of the node daemon

    A shallow embedding of [subnetReconciler.Reconcile]
    (pkg/daemon/controller/subnet.go) and the properties of one
    reconciliation pass: what is staged in the two route managers, in which
    order the collaborators are called, and when the pass gives up.

    The reconciler talks to the cluster client, to the container-network
    helpers and to two route managers.  None of those lives in subnet.go, so
    they enter as the fields of one interface, [Collaborators]; the pass is
    written once, over any implementation of it.  Every call that leaves the
    function is recorded, with its answer, in the trace of the pass. *)

From Stdlib Require Import String List Bool NArith DecimalString Lia.
Import ListNotations.

Local Open Scope list_scope.
Local Open Scope string_scope.

(** ** Go values *)

(** A Go [error] is kept as its message; [fmt.Errorf] with [%v] appends. *)
Definition error := string.

(** The pair [(v, err)] a Go call returns: [Err] when [err != nil]. *)
Inductive result (A : Type) : Type :=
| Ok (a : A)
| Err (e : error).
Arguments Ok {A} a.
Arguments Err {A} e.

Definition is_err {A : Type} (r : result A) : bool :=
  match r with Ok _ => false | Err _ => true end.

(** ** API objects (networking/v1), as far as the reconciler reads them

    The type declarations of networking/v1 are not among the sources at
    hand: the records below carry the fields subnet.go reads and those
    section 6 of the specification lists. *)

(** [net.IP] and [*net.IPNet] are only handed through. *)
Definition IP := list Byte.byte.
Record IPNet := { ipnet_IP : IP; ipnet_Mask : list Byte.byte }.

(** The numeric segment identifier behind the [NetID] pointers. *)
Definition NetID := N.

(** Modelled from the spec: the declaration of [IPVersion] is not among the
    sources; the specification knows a range "per IP version", IPv4 or
    IPv6. *)
Inductive IPVersion := IPv4 | IPv6.

(** The network types the [switch] of the reconciler knows, and the rest:
    the [switch] has no [default] branch. *)
Inductive NetworkType :=
| NetworkTypeUnderlay
| NetworkTypeOverlay
| NetworkTypeOther (tag : string).

Record AddressRange := {
  Version : IPVersion;
  CIDR : string;
  Gateway : string;
  Start : string;
  End_ : string;
  ExcludeIPs : list string
}.

Record SubnetSpec := {
  Range : AddressRange;
  NetID_ : option NetID;
  Network_ : string;
  AutoNatOutgoing : option bool
}.

Record Subnet := { Name : string; Spec : SubnetSpec }.

Record NetworkSpec := { net_NetID : option NetID; net_Type : string }.
Record NetworkStatus := { NodeList : list string }.
Record Network := {
  net_Name : string;
  net_Spec : NetworkSpec;
  net_Status : NetworkStatus
}.

Record RemoteSubnetSpec := { rs_Range : AddressRange; rs_Type : string }.
Record RemoteSubnet := { rs_Name : string; rs_Spec : RemoteSubnetSpec }.

(** What [parseSubnetSpecRangeMeta] hands back; the reconciler drops the
    sixth component. *)
Record RangeMeta := {
  subnetCidr : IPNet;
  gatewayIP : IP;
  startIP : IP;
  endIP : IP;
  excludeIPs : list IP;
  metaVersion : IPVersion
}.

(** The arguments of one [AddSubnetInfo] call. *)
Record SubnetInfo := {
  si_cidr : IPNet;
  si_gateway : IP;
  si_start : IP;
  si_end : IP;
  si_excludeIPs : list IP;
  forwardNodeIfName : string;
  autoNatOutgoing : bool;
  isOverlay : bool;
  isUnderlayOnHost : bool
}.

(** The arguments of one [AddRemoteSubnetInfo] call. *)
Record RemoteSubnetInfo := {
  rsi_cidr : IPNet;
  rsi_gateway : IP;
  rsi_start : IP;
  rsi_end : IP;
  rsi_excludeIPs : list IP;
  rsi_isOverlay : bool
}.

(** [reconcile.Result] *)
Record Result := { Requeue : bool }.

(** ** The controller hub *)

Record Config := {
  NodeName : string;
  NodeVlanIfName : string;
  NodeVxlanIfName : string
}.

(** The two route managers the hub owns, by field. *)
Inductive ManagerRef := RouteV4 | RouteV6.

Record CtrlHub (RM : Type) := {
  config : Config;
  routeV4Manager : RM;
  routeV6Manager : RM
}.
Arguments config {RM} c.
Arguments routeV4Manager {RM} c.
Arguments routeV6Manager {RM} c.

Definition manager {RM : Type} (m : ManagerRef) (h : CtrlHub RM) : RM :=
  match m with
  | RouteV4 => routeV4Manager h
  | RouteV6 => routeV6Manager h
  end.

Definition set_manager {RM : Type} (m : ManagerRef) (x : RM) (h : CtrlHub RM)
  : CtrlHub RM :=
  match m with
  | RouteV4 => {| config := config h; routeV4Manager := x;
                  routeV6Manager := routeV6Manager h |}
  | RouteV6 => {| config := config h; routeV4Manager := routeV4Manager h;
                  routeV6Manager := x |}
  end.

(** Modelled from the spec: [CtrlHub.getRouterManager] is not part of the
    sources at hand.  Section 3 of the specification: each Subnet "is routed
    to the Route Manager matching its version". *)
Definition getRouterManager (v : IPVersion) : ManagerRef :=
  match v with
  | IPv4 => RouteV4
  | IPv6 => RouteV6
  end.

Definition ManagerRef_eqb (a b : ManagerRef) : bool :=
  match a, b with
  | RouteV4, RouteV4 | RouteV6, RouteV6 => true
  | _, _ => false
  end.

(** ** Collaborators

    [W] is the world outside the process (cluster store, links, kernel
    routes), [RM] the state of one route manager.  A call that touches the
    world threads it.  The range parser and the VXLAN interface naming are
    functions of their arguments (sections 4.1 and 4.2 of the specification:
    "pure function", "pure naming function, no creation"), the helpers of
    networkingv1 read the object they are given, and the feature gate is
    fixed for the life of the process. *)
Class Collaborators (W RM : Type) := {
  (* client.Client *)
  List_Subnets : W -> result (list Subnet) * W;
  Get_Network : string -> W -> result Network * W;
  List_RemoteSubnets : W -> result (list RemoteSubnet) * W;
  (* networkingv1 helpers *)
  GetNetworkType : Network -> NetworkType;
  GetRemoteSubnetType : RemoteSubnet -> NetworkType;
  IsSubnetAutoNatOutgoing : SubnetSpec -> bool;
  (* package controller *)
  parseSubnetSpecRangeMeta : AddressRange -> result RangeMeta;
  (* containernetwork *)
  EnsureVlanIf : string -> option NetID -> W -> result string * W;
  GenerateVxlanNetIfName : string -> option NetID -> result string;
  CheckIPv6GlobalDisabled : W -> result bool * W;
  (* feature *)
  MultiClusterEnabled : bool;
  (* route.Manager *)
  ResetInfos : RM -> RM;
  AddSubnetInfo : SubnetInfo -> RM -> RM;
  AddRemoteSubnetInfo : RemoteSubnetInfo -> RM -> result unit * RM;
  SyncRoutes : RM -> W -> result unit * (RM * W);
  (* CtrlHub *)
  iptablesSyncTrigger : W -> W
}.

(** ** Trace of a pass: each call made, with what it answered *)
Inductive Event :=
| CallList_Subnets (r : result (list Subnet))
| CallResetInfos (m : ManagerRef)
| CallGet_Network (name : string) (r : result Network)
| CallParseRange (rng : AddressRange) (r : result RangeMeta)
| CallEnsureVlanIf (dev : string) (netID : option NetID) (r : result string)
| CallGenerateVxlanNetIfName (dev : string) (netID : option NetID)
                             (r : result string)
| CallAddSubnetInfo (m : ManagerRef) (info : SubnetInfo)
| CallList_RemoteSubnets (r : result (list RemoteSubnet))
| CallAddRemoteSubnetInfo (m : ManagerRef) (info : RemoteSubnetInfo)
                          (r : result unit)
| CallSyncRoutes (m : ManagerRef) (r : result unit)
| CallCheckIPv6GlobalDisabled (r : result bool)
| CallIptablesSyncTrigger.

(** ** The monad of the function body

    State is the hub and the world; a computation either goes on with a
    value or has executed a [return] of the enclosing Go function, and in
    both cases reports the calls it made. *)
Record St (W RM : Type) := { hub : CtrlHub RM; world : W }.
Arguments hub {W RM} s.
Arguments world {W RM} s.

Inductive flow (A : Type) : Type :=
| Next (a : A)
| Return (r : Result) (e : option error).
Arguments Next {A} a.
Arguments Return {A} r e.

Record Run (S A : Type) := {
  res : flow A;
  post : S;
  trace : list Event
}.
Arguments res {S A} r.
Arguments post {S A} r.
Arguments trace {S A} r.

Definition M (S A : Type) := S -> Run S A.

Definition ret {S A : Type} (a : A) : M S A :=
  fun s => {| res := Next a; post := s; trace := [] |}.

Definition return_ {S A : Type} (r : Result) (e : option error) : M S A :=
  fun s => {| res := Return r e; post := s; trace := [] |}.

Definition bind {S A B : Type} (m : M S A) (k : A -> M S B) : M S B :=
  fun s =>
    let r := m s in
    match res r with
    | Next a =>
        let r' := k a (post r) in
        {| res := res r'; post := post r';
           trace := (trace r ++ trace r')%list |}
    | Return x e => {| res := Return x e; post := post r; trace := trace r |}
    end.

Notation "x <- m ;; k" := (bind m (fun x => k))
  (at level 61, m at next level, right associativity).
Notation "m ;;; k" := (bind m (fun _ => k))
  (at level 61, right associativity).

(** [for _, x := range l { body }] *)
Fixpoint forEach {S A : Type} (body : A -> M S unit) (l : list A) : M S unit :=
  match l with
  | [] => ret tt
  | x :: rest => body x ;;; forEach body rest
  end.

(** ** Reading a trace *)

(** A staging call (lines 45-135) that came back with an error. *)
Definition staging_failure (ev : Event) : bool :=
  match ev with
  | CallList_Subnets r => is_err r
  | CallGet_Network _ r => is_err r
  | CallParseRange _ r => is_err r
  | CallEnsureVlanIf _ _ r => is_err r
  | CallGenerateVxlanNetIfName _ _ r => is_err r
  | CallList_RemoteSubnets r => is_err r
  | CallAddRemoteSubnetInfo _ _ r => is_err r
  | _ => false
  end.

(** The calls of lines 137-152. *)
Definition after_staging (ev : Event) : bool :=
  match ev with
  | CallSyncRoutes _ _ | CallCheckIPv6GlobalDisabled _
  | CallIptablesSyncTrigger => true
  | _ => false
  end.

Definition is_ResetInfos (m : ManagerRef) (ev : Event) : bool :=
  match ev with
  | CallResetInfos m' => ManagerRef_eqb m m'
  | _ => false
  end.

Definition is_Add (ev : Event) : bool :=
  match ev with
  | CallAddSubnetInfo _ _ | CallAddRemoteSubnetInfo _ _ _ => true
  | _ => false
  end.

Definition is_EnsureVlanIf (ev : Event) : bool :=
  match ev with
  | CallEnsureVlanIf _ _ _ => true
  | _ => false
  end.

(** The calls of lines 110-135. *)
Definition is_remote (ev : Event) : bool :=
  match ev with
  | CallList_RemoteSubnets _ | CallAddRemoteSubnetInfo _ _ _ => true
  | _ => false
  end.

Definition count (p : Event -> bool) (t : list Event) : nat :=
  length (filter p t).

(** The [AddSubnetInfo] calls of a trace, in order. *)
Fixpoint subnetAdds (t : list Event) : list (ManagerRef * SubnetInfo) :=
  match t with
  | [] => []
  | CallAddSubnetInfo m info :: rest => (m, info) :: subnetAdds rest
  | _ :: rest => subnetAdds rest
  end.

(** The [AddRemoteSubnetInfo] calls of a trace, in order, refused or not. *)
Fixpoint remoteAdds (t : list Event) : list (ManagerRef * RemoteSubnetInfo) :=
  match t with
  | [] => []
  | CallAddRemoteSubnetInfo m info _ :: rest => (m, info) :: remoteAdds rest
  | _ :: rest => remoteAdds rest
  end.

(** A run is settled when it went on without a failed call, or left the
    function asking for a requeue, with an error, after one. *)
Definition settled {S A : Type} (r : Run S A) : Prop :=
  match res r with
  | Next _ => existsb staging_failure (trace r) = false
  | Return x e =>
      Requeue x = true /\ e <> None
      /\ existsb staging_failure (trace r) = true
  end.

(** The events one turn of the loop over the subnets may leave. *)
Definition subnet_event (ev : Event) : bool :=
  match ev with
  | CallGet_Network _ _ | CallParseRange _ _ | CallEnsureVlanIf _ _ _
  | CallGenerateVxlanNetIfName _ _ _ | CallAddSubnetInfo _ _ => true
  | _ => false
  end.

(** The events lines 110-135 may leave. *)
Definition remote_event (ev : Event) : bool :=
  match ev with
  | CallList_RemoteSubnets _ | CallParseRange _ _
  | CallAddRemoteSubnetInfo _ _ _ => true
  | _ => false
  end.

Definition set_isUnderlayOnHost (b : bool) (i : SubnetInfo) : SubnetInfo :=
  {| si_cidr := si_cidr i;
     si_gateway := si_gateway i;
     si_start := si_start i;
     si_end := si_end i;
     si_excludeIPs := si_excludeIPs i;
     forwardNodeIfName := forwardNodeIfName i;
     autoNatOutgoing := autoNatOutgoing i;
     isOverlay := isOverlay i;
     isUnderlayOnHost := b |}.

Definition set_forwardNodeIfName (n : string) (i : SubnetInfo) : SubnetInfo :=
  {| si_cidr := si_cidr i;
     si_gateway := si_gateway i;
     si_start := si_start i;
     si_end := si_end i;
     si_excludeIPs := si_excludeIPs i;
     forwardNodeIfName := n;
     autoNatOutgoing := autoNatOutgoing i;
     isOverlay := isOverlay i;
     isUnderlayOnHost := isUnderlayOnHost i |}.

(** The record line 106 builds from a parsed range and the three locals. *)
Definition subnetInfoOf (meta : RangeMeta) (ifName : string)
           (nat overlay onHost : bool) : SubnetInfo :=
  {| si_cidr := subnetCidr meta;
     si_gateway := gatewayIP meta;
     si_start := startIP meta;
     si_end := endIP meta;
     si_excludeIPs := excludeIPs meta;
     forwardNodeIfName := ifName;
     autoNatOutgoing := nat;
     isOverlay := overlay;
     isUnderlayOnHost := onHost |}.

Definition remoteSubnetInfoOf (meta : RangeMeta) (overlay : bool)
  : RemoteSubnetInfo :=
  {| rsi_cidr := subnetCidr meta;
     rsi_gateway := gatewayIP meta;
     rsi_start := startIP meta;
     rsi_end := endIP meta;
     rsi_excludeIPs := excludeIPs meta;
     rsi_isOverlay := overlay |}.

(** ** The reconciler *)

Section Reconciler.
Context {W RM : Type} `{C : Collaborators W RM}.

Local Abbreviation State := (St W RM).

(** *** Calls, each leaving its event *)

Definition world_call {X : Type} (f : W -> X * W) (ev : X -> Event)
  : M State X :=
  fun s =>
    let xw := f (world s) in
    {| res := Next (fst xw);
       post := {| hub := hub s; world := snd xw |};
       trace := [ev (fst xw)] |}.

Definition pure_call {X : Type} (x : X) (ev : X -> Event) : M State X :=
  fun s => {| res := Next x; post := s; trace := [ev x] |}.

Definition manager_call {X : Type} (m : ManagerRef) (f : RM -> X * RM)
           (ev : X -> Event) : M State X :=
  fun s =>
    let xr := f (manager m (hub s)) in
    {| res := Next (fst xr);
       post := {| hub := set_manager m (snd xr) (hub s); world := world s |};
       trace := [ev (fst xr)] |}.

Definition get_config : M State Config :=
  fun s => {| res := Next (config (hub s)); post := s; trace := [] |}.

Definition call_List_Subnets : M State (result (list Subnet)) :=
  world_call List_Subnets CallList_Subnets.

Definition call_Get_Network (name : string) : M State (result Network) :=
  world_call (Get_Network name) (CallGet_Network name).

Definition call_List_RemoteSubnets : M State (result (list RemoteSubnet)) :=
  world_call List_RemoteSubnets CallList_RemoteSubnets.

Definition call_parseSubnetSpecRangeMeta (rng : AddressRange)
  : M State (result RangeMeta) :=
  pure_call (parseSubnetSpecRangeMeta rng) (CallParseRange rng).

Definition call_EnsureVlanIf (dev : string) (netID : option NetID)
  : M State (result string) :=
  world_call (EnsureVlanIf dev netID) (CallEnsureVlanIf dev netID).

Definition call_GenerateVxlanNetIfName (dev : string) (netID : option NetID)
  : M State (result string) :=
  pure_call (GenerateVxlanNetIfName dev netID)
            (CallGenerateVxlanNetIfName dev netID).

Definition call_CheckIPv6GlobalDisabled : M State (result bool) :=
  world_call CheckIPv6GlobalDisabled CallCheckIPv6GlobalDisabled.

Definition call_ResetInfos (m : ManagerRef) : M State unit :=
  manager_call m (fun rm => (tt, ResetInfos rm)) (fun _ => CallResetInfos m).

Definition call_AddSubnetInfo (m : ManagerRef) (info : SubnetInfo)
  : M State unit :=
  manager_call m (fun rm => (tt, AddSubnetInfo info rm))
               (fun _ => CallAddSubnetInfo m info).

Definition call_AddRemoteSubnetInfo (m : ManagerRef) (info : RemoteSubnetInfo)
  : M State (result unit) :=
  manager_call m (AddRemoteSubnetInfo info) (CallAddRemoteSubnetInfo m info).

Definition call_SyncRoutes (m : ManagerRef) : M State (result unit) :=
  fun s =>
    let x := SyncRoutes (manager m (hub s)) (world s) in
    {| res := Next (fst x);
       post := {| hub := set_manager m (fst (snd x)) (hub s);
                  world := snd (snd x) |};
       trace := [CallSyncRoutes m (fst x)] |}.

Definition call_iptablesSyncTrigger : M State unit :=
  world_call (fun w => (tt, iptablesSyncTrigger w))
             (fun _ => CallIptablesSyncTrigger).

(** *** Lines 59-68: is this node one of the underlay network's nodes *)

(** The scan of [network.Status.NodeList], leaving at the first hit. *)
Fixpoint nodeListHas (nodes : list string) (nodeName : string) : bool :=
  match nodes with
  | [] => false
  | n :: rest => if String.eqb n nodeName then true
                 else nodeListHas rest nodeName
  end.

Definition underlayOnHost (network : Network) (nodeName : string) : bool :=
  match GetNetworkType network with
  | NetworkTypeUnderlay => nodeListHas (NodeList (net_Status network)) nodeName
  | _ => false
  end.

(** *** Lines 72-75: the subnet's own NetID, else the network's *)
Definition resolveNetID (subnet : Subnet) (network : Network) : option NetID :=
  match NetID_ (Spec subnet) with
  | Some n => Some n
  | None => net_NetID (net_Spec network)
  end.

Definition requeue : Result := {| Requeue := true |}.

(** *** Lines 84-102: forwarding interface, NAT flag, overlay flag *)
Definition forwarding (cfg : Config) (subnet : Subnet) (network : Network)
           (netID : option NetID) (onHost : bool)
  : M State (string * bool * bool) :=
  match GetNetworkType network with
  | NetworkTypeUnderlay =>
      if onHost then
        v <- call_EnsureVlanIf (NodeVlanIfName cfg) netID ;;
        match v with
        | Err e =>
            return_ requeue
              (Some ("failed to ensure vlan forward node interface: " ++ e))
        | Ok name => ret (name, false, false)
        end
      else ret ("", false, false)
  | NetworkTypeOverlay =>
      v <- call_GenerateVxlanNetIfName (NodeVxlanIfName cfg) netID ;;
      match v with
      | Err e =>
          return_ requeue
            (Some ("failed to generate vxlan forward node if name: " ++ e))
      | Ok name => ret (name, IsSubnetAutoNatOutgoing (Spec subnet), true)
      end
  | NetworkTypeOther _ => ret ("", false, false)
  end.

(** *** Lines 54-107: the body of the loop over the subnets *)
Definition reconcileSubnet (subnet : Subnet) : M State unit :=
  g <- call_Get_Network (Network_ (Spec subnet)) ;;
  match g with
  | Err _ =>
      return_ requeue
        (Some ("failed to get network for subnet " ++ Name subnet))
  | Ok network =>
      cfg <- get_config ;;
      let onHost := underlayOnHost network (NodeName cfg) in
      let netID := resolveNetID subnet network in
      p <- call_parseSubnetSpecRangeMeta (Range (Spec subnet)) ;;
      match p with
      | Err e =>
          return_ requeue
            (Some ("failed to parse subnet " ++ Name subnet
                   ++ " spec range meta: " ++ e))
      | Ok meta =>
          f <- forwarding cfg subnet network netID onHost ;;
          let '(ifName, nat, overlay) := f in
          call_AddSubnetInfo
            (getRouterManager (Version (Range (Spec subnet))))
            {| si_cidr := subnetCidr meta;
               si_gateway := gatewayIP meta;
               si_start := startIP meta;
               si_end := endIP meta;
               si_excludeIPs := excludeIPs meta;
               forwardNodeIfName := ifName;
               autoNatOutgoing := nat;
               isOverlay := overlay;
               isUnderlayOnHost := onHost |}
      end
  end.

Definition NetworkType_is_overlay (t : NetworkType) : bool :=
  match t with NetworkTypeOverlay => true | _ => false end.

(** *** Lines 118-134: the body of the loop over the remote subnets *)
Definition reconcileRemoteSubnet (remoteSubnet : RemoteSubnet)
  : M State unit :=
  p <- call_parseSubnetSpecRangeMeta (rs_Range (rs_Spec remoteSubnet)) ;;
  match p with
  | Err e =>
      return_ requeue
        (Some ("failed to parse subnet " ++ rs_Name remoteSubnet
               ++ " spec range meta: " ++ e))
  | Ok meta =>
      let overlay :=
        NetworkType_is_overlay (GetRemoteSubnetType remoteSubnet) in
      a <- call_AddRemoteSubnetInfo
             (getRouterManager (Version (rs_Range (rs_Spec remoteSubnet))))
             {| rsi_cidr := subnetCidr meta;
                rsi_gateway := gatewayIP meta;
                rsi_start := startIP meta;
                rsi_end := endIP meta;
                rsi_excludeIPs := excludeIPs meta;
                rsi_isOverlay := overlay |} ;;
      match a with
      | Err e =>
          return_ requeue (Some ("failed to add remote subnet info: " ++ e))
      | Ok _ => ret tt
      end
  end.

(** *** Lines 110-135 *)
Definition reconcileRemoteSubnets : M State unit :=
  if MultiClusterEnabled then
    l <- call_List_RemoteSubnets ;;
    match l with
    | Err e =>
        return_ requeue (Some ("failed to list remote subnet " ++ e))
    | Ok items => forEach reconcileRemoteSubnet items
    end
  else ret tt.

(** *** Lines 137-154 *)
Definition syncAndFinish : M State Empty_set :=
  s4 <- call_SyncRoutes RouteV4 ;;
  match s4 with
  | Err e => return_ requeue (Some ("failed to sync ipv4 routes: " ++ e))
  | Ok _ =>
      g <- call_CheckIPv6GlobalDisabled ;;
      match g with
      | Err e =>
          return_ requeue
            (Some ("failed to check ipv6 global disabled: " ++ e))
      | Ok globalDisabled =>
          (if negb globalDisabled then
             s6 <- call_SyncRoutes RouteV6 ;;
             match s6 with
             | Err e =>
                 return_ requeue
                   (Some ("failed to sync ipv6 routes: " ++ e))
             | Ok _ => ret tt
             end
           else ret tt) ;;;
          call_iptablesSyncTrigger ;;;
          return_ {| Requeue := false |} None
      end
  end.

(** *** Lines 45-135: staging the desired state *)
Definition stage : M State unit :=
  l <- call_List_Subnets ;;
  match l with
  | Err e => return_ requeue (Some ("failed to list subnet " ++ e))
  | Ok items =>
      call_ResetInfos RouteV4 ;;;
      call_ResetInfos RouteV6 ;;;
      forEach reconcileSubnet items ;;;
      reconcileRemoteSubnets
  end.

(** *** Lines 41-155: the function body; it always leaves by a [return] *)
Definition Reconcile_body : M State Empty_set :=
  stage ;;; syncAndFinish.

(** What one pass gives back and leaves behind. *)
Record Pass := {
  result_ : Result;
  err : option error;
  final : State;
  calls : list Event
}.

Definition Reconcile (s : State) : Pass :=
  let r := Reconcile_body s in
  match res r with
  | Next a => match a with end
  | Return x e =>
      {| result_ := x; err := e; final := post r; calls := trace r |}
  end.

(** *** One turn of the loop over the subnets, case by case

    The eight ways through lines 54-107, each with the run it leaves. *)
Inductive SubnetTurn (subnet : Subnet) (s : State) : Run State unit -> Prop :=
| turn_no_network e w1 :
    Get_Network (Network_ (Spec subnet)) (world s) = (Err e, w1) ->
    SubnetTurn subnet s
      {| res := Return requeue
                  (Some ("failed to get network for subnet " ++ Name subnet));
         post := {| hub := hub s; world := w1 |};
         trace := [CallGet_Network (Network_ (Spec subnet)) (Err e)] |}
| turn_bad_range network w1 e :
    Get_Network (Network_ (Spec subnet)) (world s) = (Ok network, w1) ->
    parseSubnetSpecRangeMeta (Range (Spec subnet)) = Err e ->
    SubnetTurn subnet s
      {| res := Return requeue
                  (Some ("failed to parse subnet " ++ Name subnet
                         ++ " spec range meta: " ++ e));
         post := {| hub := hub s; world := w1 |};
         trace := [CallGet_Network (Network_ (Spec subnet)) (Ok network);
                   CallParseRange (Range (Spec subnet)) (Err e)] |}
| turn_vlan_failed network w1 meta e w2 :
    Get_Network (Network_ (Spec subnet)) (world s) = (Ok network, w1) ->
    parseSubnetSpecRangeMeta (Range (Spec subnet)) = Ok meta ->
    GetNetworkType network = NetworkTypeUnderlay ->
    underlayOnHost network (NodeName (config (hub s))) = true ->
    EnsureVlanIf (NodeVlanIfName (config (hub s)))
                 (resolveNetID subnet network) w1 = (Err e, w2) ->
    SubnetTurn subnet s
      {| res := Return requeue
                  (Some ("failed to ensure vlan forward node interface: "
                         ++ e));
         post := {| hub := hub s; world := w2 |};
         trace := [CallGet_Network (Network_ (Spec subnet)) (Ok network);
                   CallParseRange (Range (Spec subnet)) (Ok meta);
                   CallEnsureVlanIf (NodeVlanIfName (config (hub s)))
                                    (resolveNetID subnet network) (Err e)] |}
| turn_underlay_on_host network w1 meta name w2 :
    Get_Network (Network_ (Spec subnet)) (world s) = (Ok network, w1) ->
    parseSubnetSpecRangeMeta (Range (Spec subnet)) = Ok meta ->
    GetNetworkType network = NetworkTypeUnderlay ->
    underlayOnHost network (NodeName (config (hub s))) = true ->
    EnsureVlanIf (NodeVlanIfName (config (hub s)))
                 (resolveNetID subnet network) w1 = (Ok name, w2) ->
    let m := getRouterManager (Version (Range (Spec subnet))) in
    let info := subnetInfoOf meta name false false true in
    SubnetTurn subnet s
      {| res := Next tt;
         post := {| hub := set_manager m
                             (AddSubnetInfo info (manager m (hub s))) (hub s);
                    world := w2 |};
         trace := [CallGet_Network (Network_ (Spec subnet)) (Ok network);
                   CallParseRange (Range (Spec subnet)) (Ok meta);
                   CallEnsureVlanIf (NodeVlanIfName (config (hub s)))
                                    (resolveNetID subnet network) (Ok name);
                   CallAddSubnetInfo m info] |}
| turn_underlay_elsewhere network w1 meta :
    Get_Network (Network_ (Spec subnet)) (world s) = (Ok network, w1) ->
    parseSubnetSpecRangeMeta (Range (Spec subnet)) = Ok meta ->
    GetNetworkType network = NetworkTypeUnderlay ->
    underlayOnHost network (NodeName (config (hub s))) = false ->
    let m := getRouterManager (Version (Range (Spec subnet))) in
    let info := subnetInfoOf meta "" false false false in
    SubnetTurn subnet s
      {| res := Next tt;
         post := {| hub := set_manager m
                             (AddSubnetInfo info (manager m (hub s))) (hub s);
                    world := w1 |};
         trace := [CallGet_Network (Network_ (Spec subnet)) (Ok network);
                   CallParseRange (Range (Spec subnet)) (Ok meta);
                   CallAddSubnetInfo m info] |}
| turn_vxlan_failed network w1 meta e :
    Get_Network (Network_ (Spec subnet)) (world s) = (Ok network, w1) ->
    parseSubnetSpecRangeMeta (Range (Spec subnet)) = Ok meta ->
    GetNetworkType network = NetworkTypeOverlay ->
    GenerateVxlanNetIfName (NodeVxlanIfName (config (hub s)))
                           (resolveNetID subnet network) = Err e ->
    SubnetTurn subnet s
      {| res := Return requeue
                  (Some ("failed to generate vxlan forward node if name: "
                         ++ e));
         post := {| hub := hub s; world := w1 |};
         trace := [CallGet_Network (Network_ (Spec subnet)) (Ok network);
                   CallParseRange (Range (Spec subnet)) (Ok meta);
                   CallGenerateVxlanNetIfName
                     (NodeVxlanIfName (config (hub s)))
                     (resolveNetID subnet network) (Err e)] |}
| turn_overlay network w1 meta name :
    Get_Network (Network_ (Spec subnet)) (world s) = (Ok network, w1) ->
    parseSubnetSpecRangeMeta (Range (Spec subnet)) = Ok meta ->
    GetNetworkType network = NetworkTypeOverlay ->
    GenerateVxlanNetIfName (NodeVxlanIfName (config (hub s)))
                           (resolveNetID subnet network) = Ok name ->
    let m := getRouterManager (Version (Range (Spec subnet))) in
    let info := subnetInfoOf meta name
                  (IsSubnetAutoNatOutgoing (Spec subnet)) true false in
    SubnetTurn subnet s
      {| res := Next tt;
         post := {| hub := set_manager m
                             (AddSubnetInfo info (manager m (hub s))) (hub s);
                    world := w1 |};
         trace := [CallGet_Network (Network_ (Spec subnet)) (Ok network);
                   CallParseRange (Range (Spec subnet)) (Ok meta);
                   CallGenerateVxlanNetIfName
                     (NodeVxlanIfName (config (hub s)))
                     (resolveNetID subnet network) (Ok name);
                   CallAddSubnetInfo m info] |}
| turn_other_type network w1 meta tag :
    Get_Network (Network_ (Spec subnet)) (world s) = (Ok network, w1) ->
    parseSubnetSpecRangeMeta (Range (Spec subnet)) = Ok meta ->
    GetNetworkType network = NetworkTypeOther tag ->
    let m := getRouterManager (Version (Range (Spec subnet))) in
    let info := subnetInfoOf meta "" false false false in
    SubnetTurn subnet s
      {| res := Next tt;
         post := {| hub := set_manager m
                             (AddSubnetInfo info (manager m (hub s))) (hub s);
                    world := w1 |};
         trace := [CallGet_Network (Network_ (Spec subnet)) (Ok network);
                   CallParseRange (Range (Spec subnet)) (Ok meta);
                   CallAddSubnetInfo m info] |}.

(** *** Lines 137-154, case by case *)
Definition synced (m : ManagerRef) (rm : RM) (w : W) (s : State) : State :=
  {| hub := set_manager m rm (hub s); world := w |}.

Inductive SyncRun (s : State) : Run State Empty_set -> Prop :=
| sync_v4_failed e rm4 w1 :
    SyncRoutes (routeV4Manager (hub s)) (world s) = (Err e, (rm4, w1)) ->
    SyncRun s
      {| res := Return requeue (Some ("failed to sync ipv4 routes: " ++ e));
         post := synced RouteV4 rm4 w1 s;
         trace := [CallSyncRoutes RouteV4 (Err e)] |}
| sync_check_failed rm4 w1 e w2 :
    SyncRoutes (routeV4Manager (hub s)) (world s) = (Ok tt, (rm4, w1)) ->
    CheckIPv6GlobalDisabled w1 = (Err e, w2) ->
    SyncRun s
      {| res := Return requeue
                  (Some ("failed to check ipv6 global disabled: " ++ e));
         post := synced RouteV4 rm4 w2 s;
         trace := [CallSyncRoutes RouteV4 (Ok tt);
                   CallCheckIPv6GlobalDisabled (Err e)] |}
| sync_v6_skipped rm4 w1 w2 :
    SyncRoutes (routeV4Manager (hub s)) (world s) = (Ok tt, (rm4, w1)) ->
    CheckIPv6GlobalDisabled w1 = (Ok true, w2) ->
    SyncRun s
      {| res := Return {| Requeue := false |} None;
         post := synced RouteV4 rm4 (iptablesSyncTrigger w2) s;
         trace := [CallSyncRoutes RouteV4 (Ok tt);
                   CallCheckIPv6GlobalDisabled (Ok true);
                   CallIptablesSyncTrigger] |}
| sync_v6_failed rm4 w1 w2 e rm6 w3 :
    SyncRoutes (routeV4Manager (hub s)) (world s) = (Ok tt, (rm4, w1)) ->
    CheckIPv6GlobalDisabled w1 = (Ok false, w2) ->
    SyncRoutes (routeV6Manager (hub s)) w2 = (Err e, (rm6, w3)) ->
    SyncRun s
      {| res := Return requeue (Some ("failed to sync ipv6 routes: " ++ e));
         post := synced RouteV6 rm6 w3 (synced RouteV4 rm4 w2 s);
         trace := [CallSyncRoutes RouteV4 (Ok tt);
                   CallCheckIPv6GlobalDisabled (Ok false);
                   CallSyncRoutes RouteV6 (Err e)] |}
| sync_both rm4 w1 w2 rm6 w3 :
    SyncRoutes (routeV4Manager (hub s)) (world s) = (Ok tt, (rm4, w1)) ->
    CheckIPv6GlobalDisabled w1 = (Ok false, w2) ->
    SyncRoutes (routeV6Manager (hub s)) w2 = (Ok tt, (rm6, w3)) ->
    SyncRun s
      {| res := Return {| Requeue := false |} None;
         post := synced RouteV6 rm6 (iptablesSyncTrigger w3)
                        (synced RouteV4 rm4 w2 s);
         trace := [CallSyncRoutes RouteV4 (Ok tt);
                   CallCheckIPv6GlobalDisabled (Ok false);
                   CallSyncRoutes RouteV6 (Ok tt);
                   CallIptablesSyncTrigger] |}.

(** *** One turn of the loop over the remote subnets, case by case *)
Inductive RemoteTurn (remoteSubnet : RemoteSubnet) (s : State)
  : Run State unit -> Prop :=
| remote_bad_range e :
    parseSubnetSpecRangeMeta (rs_Range (rs_Spec remoteSubnet)) = Err e ->
    RemoteTurn remoteSubnet s
      {| res := Return requeue
                  (Some ("failed to parse subnet " ++ rs_Name remoteSubnet
                         ++ " spec range meta: " ++ e));
         post := s;
         trace := [CallParseRange (rs_Range (rs_Spec remoteSubnet)) (Err e)] |}
| remote_refused meta e rm :
    parseSubnetSpecRangeMeta (rs_Range (rs_Spec remoteSubnet)) = Ok meta ->
    let m := getRouterManager (Version (rs_Range (rs_Spec remoteSubnet))) in
    let info := remoteSubnetInfoOf meta
                  (NetworkType_is_overlay (GetRemoteSubnetType remoteSubnet)) in
    AddRemoteSubnetInfo info (manager m (hub s)) = (Err e, rm) ->
    RemoteTurn remoteSubnet s
      {| res := Return requeue
                  (Some ("failed to add remote subnet info: " ++ e));
         post := {| hub := set_manager m rm (hub s); world := world s |};
         trace := [CallParseRange (rs_Range (rs_Spec remoteSubnet)) (Ok meta);
                   CallAddRemoteSubnetInfo m info (Err e)] |}
| remote_added meta rm :
    parseSubnetSpecRangeMeta (rs_Range (rs_Spec remoteSubnet)) = Ok meta ->
    let m := getRouterManager (Version (rs_Range (rs_Spec remoteSubnet))) in
    let info := remoteSubnetInfoOf meta
                  (NetworkType_is_overlay (GetRemoteSubnetType remoteSubnet)) in
    AddRemoteSubnetInfo info (manager m (hub s)) = (Ok tt, rm) ->
    RemoteTurn remoteSubnet s
      {| res := Next tt;
         post := {| hub := set_manager m rm (hub s); world := world s |};
         trace := [CallParseRange (rs_Range (rs_Spec remoteSubnet)) (Ok meta);
                   CallAddRemoteSubnetInfo m info (Ok tt)] |}.

(** The state lines 50-51 leave, with the world as the listing left it. *)
Definition afterReset (s : State) (w : W) : State :=
  {| hub := set_manager RouteV6
              (ResetInfos (routeV6Manager (hub s)))
              (set_manager RouteV4 (ResetInfos (routeV4Manager (hub s)))
                           (hub s));
     world := w |}.

(** *** What a registered record has to do with the object it is for *)

(** The record of a subnet: built from the parse of the subnet's range, and
    handed to the manager [getRouterManager] selects for the range's
    version. *)
Definition subnet_record (subnet : Subnet) (a : ManagerRef * SubnetInfo)
  : Prop :=
  fst a = getRouterManager (Version (Range (Spec subnet)))
  /\ exists meta ifName nat overlay onHost,
      parseSubnetSpecRangeMeta (Range (Spec subnet)) = Ok meta
      /\ snd a = subnetInfoOf meta ifName nat overlay onHost.

Definition remote_record (remoteSubnet : RemoteSubnet)
           (a : ManagerRef * RemoteSubnetInfo) : Prop :=
  fst a = getRouterManager (Version (rs_Range (rs_Spec remoteSubnet)))
  /\ exists meta,
      parseSubnetSpecRangeMeta (rs_Range (rs_Spec remoteSubnet)) = Ok meta
      /\ snd a = remoteSubnetInfoOf meta
                   (NetworkType_is_overlay (GetRemoteSubnetType remoteSubnet)).

(** Every listed subnet has its record registered, and with federation
    enabled every listed remote subnet has. *)
Definition staged_in_full (s : State) (t : list Event) : Prop :=
  exists items w1,
    List_Subnets (world s) = (Ok items, w1)
    /\ Forall2 subnet_record items (subnetAdds t)
    /\ if MultiClusterEnabled
       then exists ritems,
              In (CallList_RemoteSubnets (Ok ritems)) t
              /\ Forall2 remote_record ritems (remoteAdds t)
       else remoteAdds t = [].

End Reconciler.

(** ** A host to run the reconciler on

    One implementation of [Collaborators], small enough to evaluate: the
    cluster store is a snapshot, the route managers keep two lists, ensuring
    an interface adds its name to the links of the host. *)
Module Sample.

(** Modelled from the spec: the route manager (pkg/daemon/route) is not part
    of the sources at hand.  Section 4.3: a set of SubnetInfo and a set of
    RemoteSubnetInfo; [ResetInfos] clears both, [AddSubnetInfo] appends,
    [AddRemoteSubnetInfo] appends unless the CIDR collides with an entry
    already registered.  A manager serves one address family. *)
Record RouteManager := {
  family : IPVersion;
  subnetInfos : list SubnetInfo;
  remoteSubnetInfos : list RemoteSubnetInfo
}.

Definition masked (ip mask : list Byte.byte) : list N :=
  map (fun xy => N.land (Byte.to_N (fst xy)) (Byte.to_N (snd xy)))
      (combine ip mask).

Fixpoint list_N_eqb (a b : list N) : bool :=
  match a, b with
  | [], [] => true
  | x :: a', y :: b' => N.eqb x y && list_N_eqb a' b'
  | _, _ => false
  end.

(** Two CIDRs of one family collide when they agree under the shorter mask. *)
Definition collides (a b : IPNet) : bool :=
  let common := map (fun xy => match Byte.of_N xy with
                               | Some x => x
                               | None => Byte.x00
                               end)
                    (masked (ipnet_Mask a) (ipnet_Mask b)) in
  Nat.eqb (length (ipnet_IP a)) (length (ipnet_IP b))
  && list_N_eqb (masked (ipnet_IP a) common) (masked (ipnet_IP b) common).

Definition resetInfos (rm : RouteManager) : RouteManager :=
  {| family := family rm; subnetInfos := []; remoteSubnetInfos := [] |}.

Definition addSubnetInfo (i : SubnetInfo) (rm : RouteManager) : RouteManager :=
  {| family := family rm;
     subnetInfos := (subnetInfos rm ++ [i])%list;
     remoteSubnetInfos := remoteSubnetInfos rm |}.

Definition addRemoteSubnetInfo (i : RemoteSubnetInfo) (rm : RouteManager)
  : result unit * RouteManager :=
  if existsb (collides (rsi_cidr i))
             (map si_cidr (subnetInfos rm)
              ++ map rsi_cidr (remoteSubnetInfos rm))%list
  then (Err "RemoteSubnetConflict", rm)
  else (Ok tt, {| family := family rm;
                  subnetInfos := subnetInfos rm;
                  remoteSubnetInfos := (remoteSubnetInfos rm ++ [i])%list |}).

Record World := {
  subnets : result (list Subnet);
  networks : list Network;
  remoteSubnets : result (list RemoteSubnet);
  ipv6GlobalDisabled : result bool;
  links : list string;
  kernelV4 : RouteManager;
  kernelV6 : RouteManager;
  iptablesSyncs : nat
}.

Definition with_links (l : list string) (w : World) : World :=
  {| subnets := subnets w; networks := networks w;
     remoteSubnets := remoteSubnets w;
     ipv6GlobalDisabled := ipv6GlobalDisabled w;
     links := l; kernelV4 := kernelV4 w; kernelV6 := kernelV6 w;
     iptablesSyncs := iptablesSyncs w |}.

Definition getNetwork (name : string) (w : World) : result Network * World :=
  match find (fun n => String.eqb (net_Name n) name) (networks w) with
  | Some n => (Ok n, w)
  | None => (Err "not found", w)
  end.

Definition networkType (tag : string) : NetworkType :=
  if String.eqb tag "Underlay" then NetworkTypeUnderlay
  else if String.eqb tag "Overlay" then NetworkTypeOverlay
  else NetworkTypeOther tag.

Definition ifName (dev : string) (id : NetID) : string :=
  dev ++ "." ++ NilEmpty.string_of_uint (N.to_uint id).

Definition ensureVlanIf (dev : string) (netID : option NetID) (w : World)
  : result string * World :=
  match netID with
  | None => (Err "InterfaceProvisionError", w)
  | Some id =>
      let name := ifName dev id in
      if existsb (String.eqb name) (links w) then (Ok name, w)
      else (Ok name, with_links (links w ++ [name])%list w)
  end.

Definition generateVxlanNetIfName (dev : string) (netID : option NetID)
  : result string :=
  match netID with
  | None => Err "invalid net id"
  | Some id => Ok (ifName dev id)
  end.

(** The kernel converges to what the manager holds. *)
Definition syncRoutes (rm : RouteManager) (w : World) : World :=
  {| subnets := subnets w; networks := networks w;
     remoteSubnets := remoteSubnets w;
     ipv6GlobalDisabled := ipv6GlobalDisabled w;
     links := links w;
     kernelV4 := match family rm with IPv4 => rm | IPv6 => kernelV4 w end;
     kernelV6 := match family rm with IPv4 => kernelV6 w | IPv6 => rm end;
     iptablesSyncs := iptablesSyncs w |}.

(** The range parser answers from a table of the ranges it accepts, keyed
    by CIDR. *)
Definition parseFrom (table : list (string * RangeMeta)) (rng : AddressRange)
  : result RangeMeta :=
  match find (fun e => String.eqb (fst e) (CIDR rng)) table with
  | Some e => Ok (snd e)
  | None => Err "MalformedRange"
  end.

Definition host (multiCluster : bool) (table : list (string * RangeMeta))
  : Collaborators World RouteManager :=
  {| List_Subnets := fun w => (subnets w, w);
     Get_Network := getNetwork;
     List_RemoteSubnets := fun w => (remoteSubnets w, w);
     GetNetworkType := fun n => networkType (net_Type (net_Spec n));
     GetRemoteSubnetType := fun r => networkType (rs_Type (rs_Spec r));
     IsSubnetAutoNatOutgoing := fun s =>
       match AutoNatOutgoing s with Some b => b | None => false end;
     parseSubnetSpecRangeMeta := parseFrom table;
     EnsureVlanIf := ensureVlanIf;
     GenerateVxlanNetIfName := generateVxlanNetIfName;
     CheckIPv6GlobalDisabled := fun w => (ipv6GlobalDisabled w, w);
     MultiClusterEnabled := multiCluster;
     ResetInfos := resetInfos;
     AddSubnetInfo := addSubnetInfo;
     AddRemoteSubnetInfo := addRemoteSubnetInfo;
     SyncRoutes := fun rm w => (Ok tt, (rm, syncRoutes rm w));
     iptablesSyncTrigger := fun w =>
       {| subnets := subnets w; networks := networks w;
          remoteSubnets := remoteSubnets w;
          ipv6GlobalDisabled := ipv6GlobalDisabled w;
          links := links w; kernelV4 := kernelV4 w; kernelV6 := kernelV6 w;
          iptablesSyncs := S (iptablesSyncs w) |} |}.

End Sample.

(** ** The scenarios of section 8 of the specification, as data *)
Module Scenario.
Import Sample.

Definition byte (n : N) : Byte.byte :=
  match Byte.of_N n with Some x => x | None => Byte.x00 end.

Definition ip4 (a b c d : N) : IP := [byte a; byte b; byte c; byte d].

Definition net4 (a b c d : N) (m1 m2 m3 m4 : N) : IPNet :=
  {| ipnet_IP := ip4 a b c d; ipnet_Mask := ip4 m1 m2 m3 m4 |}.

Definition ip6 (hi : N) (lo : N) : IP :=
  [byte hi; byte 0; byte 0; byte 0; byte 0; byte 0; byte 0; byte 0;
   byte 0; byte 0; byte 0; byte 0; byte 0; byte 0; byte 0; byte lo].

Definition mask64 : list Byte.byte :=
  [byte 255; byte 255; byte 255; byte 255; byte 255; byte 255; byte 255;
   byte 255; byte 0; byte 0; byte 0; byte 0; byte 0; byte 0; byte 0; byte 0].

Definition rangeA : AddressRange :=
  {| Version := IPv4; CIDR := "10.0.0.0/24"; Gateway := "10.0.0.1";
     Start := "10.0.0.10"; End_ := "10.0.0.200"; ExcludeIPs := [] |}.

Definition rangeO : AddressRange :=
  {| Version := IPv4; CIDR := "10.1.0.0/16"; Gateway := "10.1.0.1";
     Start := "10.1.0.2"; End_ := "10.1.255.254"; ExcludeIPs := [] |}.

Definition rangeO6 : AddressRange :=
  {| Version := IPv6; CIDR := "fd00::/64"; Gateway := "fd00::1";
     Start := "fd00::2"; End_ := "fd00::ff"; ExcludeIPs := [] |}.

Definition rangeR : AddressRange :=
  {| Version := IPv4; CIDR := "10.0.0.0/16"; Gateway := "10.0.0.1";
     Start := "10.0.0.2"; End_ := "10.0.255.254"; ExcludeIPs := [] |}.

Definition rangeR2 : AddressRange :=
  {| Version := IPv4; CIDR := "192.168.0.0/24"; Gateway := "192.168.0.1";
     Start := "192.168.0.2"; End_ := "192.168.0.254"; ExcludeIPs := [] |}.

Definition rangeBad : AddressRange :=
  {| Version := IPv4; CIDR := "10.0.0.0/33"; Gateway := "10.0.0.1";
     Start := "10.0.0.10"; End_ := "10.0.0.200"; ExcludeIPs := [] |}.

Definition metaA : RangeMeta :=
  {| subnetCidr := net4 10 0 0 0 255 255 255 0; gatewayIP := ip4 10 0 0 1;
     startIP := ip4 10 0 0 10; endIP := ip4 10 0 0 200; excludeIPs := [];
     metaVersion := IPv4 |}.

Definition metaO : RangeMeta :=
  {| subnetCidr := net4 10 1 0 0 255 255 0 0; gatewayIP := ip4 10 1 0 1;
     startIP := ip4 10 1 0 2; endIP := ip4 10 1 255 254; excludeIPs := [];
     metaVersion := IPv4 |}.

Definition metaO6 : RangeMeta :=
  {| subnetCidr := {| ipnet_IP := ip6 253 0; ipnet_Mask := mask64 |};
     gatewayIP := ip6 253 1; startIP := ip6 253 2; endIP := ip6 253 255;
     excludeIPs := []; metaVersion := IPv6 |}.

Definition metaR : RangeMeta :=
  {| subnetCidr := net4 10 0 0 0 255 255 0 0; gatewayIP := ip4 10 0 0 1;
     startIP := ip4 10 0 0 2; endIP := ip4 10 0 255 254; excludeIPs := [];
     metaVersion := IPv4 |}.

Definition metaR2 : RangeMeta :=
  {| subnetCidr := net4 192 168 0 0 255 255 255 0; gatewayIP := ip4 192 168 0 1;
     startIP := ip4 192 168 0 2; endIP := ip4 192 168 0 254; excludeIPs := [];
     metaVersion := IPv4 |}.

Definition table : list (string * RangeMeta) :=
  [("10.0.0.0/24", metaA); ("10.1.0.0/16", metaO); ("fd00::/64", metaO6);
   ("10.0.0.0/16", metaR); ("192.168.0.0/24", metaR2)].

(** Scenario A: an underlay network with [nodeList = ["node-1"]] and
    [netID = 10]. *)
Definition netU : Network :=
  {| net_Name := "net-u";
     net_Spec := {| net_NetID := Some 10%N; net_Type := "Underlay" |};
     net_Status := {| NodeList := ["node-1"] |} |}.

Definition netO : Network :=
  {| net_Name := "net-o";
     net_Spec := {| net_NetID := Some 4%N; net_Type := "Overlay" |};
     net_Status := {| NodeList := [] |} |}.

(** The underlay subnet asks for NAT, which only overlay subnets get. *)
Definition subnetA : Subnet :=
  {| Name := "subnet-a";
     Spec := {| Range := rangeA; NetID_ := None; Network_ := "net-u";
                AutoNatOutgoing := Some true |} |}.

(** Scenario C: an overlay subnet with [autoNatOutgoing = true]; it
    overrides the NetID of its network. *)
Definition subnetO : Subnet :=
  {| Name := "subnet-o";
     Spec := {| Range := rangeO; NetID_ := Some 7%N; Network_ := "net-o";
                AutoNatOutgoing := Some true |} |}.

Definition subnetO6 : Subnet :=
  {| Name := "subnet-o6";
     Spec := {| Range := rangeO6; NetID_ := None; Network_ := "net-o";
                AutoNatOutgoing := Some false |} |}.

Definition subnetBad : Subnet :=
  {| Name := "subnet-bad";
     Spec := {| Range := rangeBad; NetID_ := None; Network_ := "net-u";
                AutoNatOutgoing := None |} |}.

(** Scenario D: a remote subnet over the CIDR of [subnetA]. *)
Definition remoteR : RemoteSubnet :=
  {| rs_Name := "remote-r";
     rs_Spec := {| rs_Range := rangeR; rs_Type := "Overlay" |} |}.

Definition remoteR2 : RemoteSubnet :=
  {| rs_Name := "remote-r2";
     rs_Spec := {| rs_Range := rangeR2; rs_Type := "Underlay" |} |}.

Definition emptyManager (v : IPVersion) : RouteManager :=
  {| family := v; subnetInfos := []; remoteSubnetInfos := [] |}.

(** What an earlier pass left in the IPv4 manager. *)
Definition staleManager : RouteManager :=
  {| family := IPv4;
     subnetInfos := [subnetInfoOf metaR2 "eth0.99" false false true];
     remoteSubnetInfos := [] |}.

Definition cluster (subs : result (list Subnet))
           (remotes : result (list RemoteSubnet)) (v6off : result bool)
  : World :=
  {| subnets := subs; networks := [netU; netO]; remoteSubnets := remotes;
     ipv6GlobalDisabled := v6off; links := [];
     kernelV4 := emptyManager IPv4; kernelV6 := emptyManager IPv6;
     iptablesSyncs := 0 |}.

Definition node (name : string) (w : World) : St World RouteManager :=
  {| hub := {| config := {| NodeName := name; NodeVlanIfName := "eth0";
                            NodeVxlanIfName := "eth0" |};
               routeV4Manager := staleManager;
               routeV6Manager := emptyManager IPv6 |};
     world := w |}.

Definition allSubnets : list Subnet := [subnetA; subnetO; subnetO6].

(** The collaborators of the scenarios, federation enabled. *)
Definition federated : Collaborators World RouteManager := host true table.

(** The same with federation switched off. *)
Definition single : Collaborators World RouteManager := host false table.

(** Three subnets and a remote subnet clear of them; IPv6 available. *)
Definition dualStack : World :=
  cluster (Ok allSubnets) (Ok [remoteR2]) (Ok false).

(** Scenarios A and B: the underlay subnet alone, on a host without IPv6. *)
Definition underlayOnly : World :=
  cluster (Ok [subnetA]) (Ok []) (Ok true).

(** Scenario D: a remote subnet over the CIDR of the local one. *)
Definition overlapping : World :=
  cluster (Ok [subnetA]) (Ok [remoteR]) (Ok false).

(** A subnet whose range does not parse, between two that do. *)
Definition malformed : World :=
  cluster (Ok [subnetA; subnetBad; subnetO]) (Ok []) (Ok false).

(** The store cannot be listed. *)
Definition unreachable : World :=
  cluster (Err "timeout") (Ok [remoteR2]) (Ok false).

(** The records the scenarios register. *)
Definition infoA_member : SubnetInfo :=
  subnetInfoOf metaA "eth0.10" false false true.

Definition infoA_elsewhere : SubnetInfo :=
  subnetInfoOf metaA "" false false false.

Definition infoO : SubnetInfo := subnetInfoOf metaO "eth0.7" true true false.

Definition infoO6 : SubnetInfo := subnetInfoOf metaO6 "eth0.4" false true false.

Definition infoR : RemoteSubnetInfo := remoteSubnetInfoOf metaR true.

End Scenario.

(** ** More on reading a trace *)

(** A call that came back with an error, in staging or after it. *)
Definition failed_call (ev : Event) : bool :=
  match ev with
  | CallSyncRoutes _ r => is_err r
  | CallCheckIPv6GlobalDisabled r => is_err r
  | _ => staging_failure ev
  end.

Definition is_trigger (ev : Event) : bool :=
  match ev with
  | CallIptablesSyncTrigger => true
  | _ => false
  end.

(** A failed call, or the trigger that ends a pass. *)
Definition closing (ev : Event) : bool := failed_call ev || is_trigger ev.

(** A run is orderly when it goes on without a closing call, returns without
    error and without requeue right after the trigger, or returns an error
    and a requeue right after its only failed call. *)
Definition orderly {S A : Type} (r : Run S A) : Prop :=
  match res r with
  | Next _ => existsb closing (trace r) = false
  | Return x None =>
      Requeue x = false
      /\ exists pre,
          trace r = (pre ++ [CallIptablesSyncTrigger])%list
          /\ existsb closing pre = false
  | Return x (Some _) =>
      Requeue x = true
      /\ exists pre ev,
          trace r = (pre ++ [ev])%list
          /\ existsb closing pre = false
          /\ failed_call ev = true
  end.

(** The names the [Get] calls of a trace ask for, in order. *)
Fixpoint networkGets (t : list Event) : list string :=
  match t with
  | [] => []
  | CallGet_Network name _ :: rest => name :: networkGets rest
  | _ :: rest => networkGets rest
  end.

(** The calls only a turn of one of the two loops makes. *)
Definition turn_event (ev : Event) : bool :=
  match ev with
  | CallGet_Network _ _ | CallParseRange _ _ | CallEnsureVlanIf _ _ _
  | CallGenerateVxlanNetIfName _ _ _ | CallAddSubnetInfo _ _
  | CallAddRemoteSubnetInfo _ _ _ => true
  | _ => false
  end.

Definition other_manager (m : ManagerRef) : ManagerRef :=
  match m with
  | RouteV4 => RouteV6
  | RouteV6 => RouteV4
  end.

(** ** Annotation keys (pkg/constants/annotations.go) *)
Module Annotations.

Definition AnnotationIP := "networking.alibaba.com/ip".
Definition AnnotationIPPool := "networking.alibaba.com/ip-pool".
Definition AnnotationIPFamily := "networking.alibaba.com/ip-family".

Definition AnnotationIPRetain := "networking.alibaba.com/ip-retain".

Definition AnnotationSpecifiedNetwork :=
  "networking.alibaba.com/specified-network".
Definition AnnotationSpecifiedSubnet :=
  "networking.alibaba.com/specified-subnet".
Definition AnnotationSpecifiedMAC := "networking.alibaba.com/specified-mac".

Definition AnnotationNetworkType := "networking.alibaba.com/network-type".

Definition AnnotationNodeVtepIP := "networking.alibaba.com/vtep-ip".
Definition AnnotationNodeVtepMac := "networking.alibaba.com/vtep-mac".
Definition AnnotationNodeLocalVxlanIPList :=
  "networking.alibaba.com/local-vxlan-ip-list".

(** The keys of the [const] block, in its order. *)
Definition keys : list string :=
  [AnnotationIP; AnnotationIPPool; AnnotationIPFamily; AnnotationIPRetain;
   AnnotationSpecifiedNetwork; AnnotationSpecifiedSubnet;
   AnnotationSpecifiedMAC; AnnotationNetworkType; AnnotationNodeVtepIP;
   AnnotationNodeVtepMac; AnnotationNodeLocalVxlanIPList].

End Annotations.

(** ** More hosts and objects to run the reconciler on *)
Module Scenario2.
Import Sample Scenario.

(** The sample host with a kernel that refuses the routes of the families
    [refuses] gives an error for. *)
Definition hostRefusing (multiCluster : bool)
           (refuses : IPVersion -> option error)
  : Collaborators World RouteManager :=
  {| List_Subnets := fun w => (subnets w, w);
     Get_Network := getNetwork;
     List_RemoteSubnets := fun w => (remoteSubnets w, w);
     GetNetworkType := fun n => networkType (net_Type (net_Spec n));
     GetRemoteSubnetType := fun r => networkType (rs_Type (rs_Spec r));
     IsSubnetAutoNatOutgoing := fun s =>
       match AutoNatOutgoing s with Some b => b | None => false end;
     parseSubnetSpecRangeMeta := parseFrom table;
     EnsureVlanIf := ensureVlanIf;
     GenerateVxlanNetIfName := generateVxlanNetIfName;
     CheckIPv6GlobalDisabled := fun w => (ipv6GlobalDisabled w, w);
     MultiClusterEnabled := multiCluster;
     ResetInfos := resetInfos;
     AddSubnetInfo := addSubnetInfo;
     AddRemoteSubnetInfo := addRemoteSubnetInfo;
     SyncRoutes := fun rm w =>
       match refuses (family rm) with
       | Some e => (Err e, (rm, w))
       | None => (Ok tt, (rm, syncRoutes rm w))
       end;
     iptablesSyncTrigger := fun w =>
       {| subnets := subnets w; networks := networks w;
          remoteSubnets := remoteSubnets w;
          ipv6GlobalDisabled := ipv6GlobalDisabled w;
          links := links w; kernelV4 := kernelV4 w; kernelV6 := kernelV6 w;
          iptablesSyncs := S (iptablesSyncs w) |} |}.

Definition noV4Routes : Collaborators World RouteManager :=
  hostRefusing false
    (fun v => match v with IPv4 => Some "EPERM" | IPv6 => None end).

Definition noV6Routes : Collaborators World RouteManager :=
  hostRefusing false
    (fun v => match v with IPv4 => None | IPv6 => Some "EPERM" end).

(** A network of a type the reconciler has no branch for. *)
Definition netX : Network :=
  {| net_Name := "net-x";
     net_Spec := {| net_NetID := Some 12%N; net_Type := "GlobalBGP" |};
     net_Status := {| NodeList := ["node-1"] |} |}.

(** An underlay network without NetID: no VLAN interface can be made. *)
Definition netU0 : Network :=
  {| net_Name := "net-u0";
     net_Spec := {| net_NetID := None; net_Type := "Underlay" |};
     net_Status := {| NodeList := ["node-1"] |} |}.

Definition subnetX : Subnet :=
  {| Name := "subnet-x";
     Spec := {| Range := rangeR2; NetID_ := None; Network_ := "net-x";
                AutoNatOutgoing := Some true |} |}.

Definition subnetU0 : Subnet :=
  {| Name := "subnet-u0";
     Spec := {| Range := rangeR2; NetID_ := None; Network_ := "net-u0";
                AutoNatOutgoing := None |} |}.

(** A subnet whose network is not in the store. *)
Definition subnetOrphan : Subnet :=
  {| Name := "subnet-orphan";
     Spec := {| Range := rangeO; NetID_ := None; Network_ := "net-gone";
                AutoNatOutgoing := None |} |}.

Definition clusterOf (subs : list Subnet) : World :=
  {| subnets := Ok subs; networks := [netU; netO; netX; netU0];
     remoteSubnets := Ok [remoteR2]; ipv6GlobalDisabled := Ok false;
     links := []; kernelV4 := staleManager; kernelV6 := emptyManager IPv6;
     iptablesSyncs := 0 |}.

(** Nothing to route: no subnet at all. *)
Definition emptyCluster : World := clusterOf [].

Definition infoX : SubnetInfo := subnetInfoOf metaR2 "" false false false.

Definition infoR2 : RemoteSubnetInfo := remoteSubnetInfoOf metaR2 false.

End Scenario2.

(** ** What the managers hold once staging is over *)

Definition IPVersion_eqb (a b : IPVersion) : bool :=
  match a, b with
  | IPv4, IPv4 | IPv6, IPv6 => true
  | _, _ => false
  end.

Section Placed.
Context {W RM : Type} `{C : Collaborators W RM}.

(** A subnet the pass has got to, with the record made for it, and the
    [AddSubnetInfo] call line 105-106 makes of the two. *)
Definition placedSubnet (xi : Subnet * SubnetInfo)
  : ManagerRef * SubnetInfo :=
  (getRouterManager (Version (Range (Spec (fst xi)))), snd xi).

Definition placedRemote (xi : RemoteSubnet * RemoteSubnetInfo)
  : ManagerRef * RemoteSubnetInfo :=
  (getRouterManager (Version (rs_Range (rs_Spec (fst xi)))), snd xi).

(** Those whose range has IP version [v]. *)
Definition subnetsOf (v : IPVersion) (done : list (Subnet * SubnetInfo))
  : list (Subnet * SubnetInfo) :=
  filter (fun xi => IPVersion_eqb (Version (Range (Spec (fst xi)))) v) done.

Definition remoteSubnetsOf (v : IPVersion)
           (rdone : list (RemoteSubnet * RemoteSubnetInfo))
  : list (RemoteSubnet * RemoteSubnetInfo) :=
  filter (fun xi => IPVersion_eqb (Version (rs_Range (rs_Spec (fst xi)))) v)
         rdone.

(** Those whose call goes to manager [m]. *)
Definition subnetsIn (m : ManagerRef) (done : list (Subnet * SubnetInfo))
  : list (Subnet * SubnetInfo) :=
  filter (fun xi => ManagerRef_eqb (fst (placedSubnet xi)) m) done.

Definition remoteSubnetsIn (m : ManagerRef)
           (rdone : list (RemoteSubnet * RemoteSubnetInfo))
  : list (RemoteSubnet * RemoteSubnetInfo) :=
  filter (fun xi => ManagerRef_eqb (fst (placedRemote xi)) m) rdone.

(** A manager after the [AddSubnetInfo] calls for the records of [done], in
    order; after the [AddRemoteSubnetInfo] calls for those of [rdone]. *)
Definition addSubnetInfos (done : list (Subnet * SubnetInfo)) (rm : RM) : RM :=
  fold_left (fun acc xi => AddSubnetInfo (snd xi) acc) done rm.

Definition addRemoteSubnetInfos
           (rdone : list (RemoteSubnet * RemoteSubnetInfo)) (rm : RM) : RM :=
  fold_left (fun acc xi => snd (AddRemoteSubnetInfo (snd xi) acc)) rdone rm.

(** What a manager that held [rm] holds after a reset, the records of the
    subnets of version [v] and those of the remote subnets of version [v]. *)
Definition stagedContent (v : IPVersion) (done : list (Subnet * SubnetInfo))
           (rdone : list (RemoteSubnet * RemoteSubnetInfo)) (rm : RM) : RM :=
  addRemoteSubnetInfos (remoteSubnetsOf v rdone)
                       (addSubnetInfos (subnetsOf v done) (ResetInfos rm)).

End Placed.

(** * Properties *)

(** ** Sequencing and the trace *)

Section Sequencing.
Context {S : Type}.

Lemma bind_next {A B : Type} (m : M S A) (k : A -> M S B) (s : S) (a : A) :
  res (m s) = Next a ->
  res (bind m k s) = res (k a (post (m s)))
  /\ post (bind m k s) = post (k a (post (m s)))
  /\ trace (bind m k s) = (trace (m s) ++ trace (k a (post (m s))))%list.
Proof.
  intros E. unfold bind. rewrite E. simpl. auto.
Qed.

Lemma bind_return {A B : Type} (m : M S A) (k : A -> M S B) (s : S)
      (x : Result) (e : option error) :
  res (m s) = Return x e ->
  res (bind m k s) = Return x e
  /\ post (bind m k s) = post (m s)
  /\ trace (bind m k s) = trace (m s).
Proof.
  intros E. unfold bind. rewrite E. simpl. auto.
Qed.

(** A property of every event of both halves holds of the whole. *)
Lemma bind_events {A B : Type} (P : Event -> Prop) (m : M S A)
      (k : A -> M S B) (s : S) :
  Forall P (trace (m s)) ->
  (forall a s', Forall P (trace (k a s'))) ->
  Forall P (trace (bind m k s)).
Proof.
  intros Hm Hk. destruct (res (m s)) as [a | x e] eqn:E.
  - destruct (bind_next m k s a E) as (_ & _ & ->).
    apply Forall_app. split; [assumption | apply Hk].
  - destruct (bind_return m k s x e E) as (_ & _ & ->). assumption.
Qed.

Lemma forEach_events {A : Type} (P : Event -> Prop) (body : A -> M S unit) :
  (forall x s, Forall P (trace (body x s))) ->
  forall l s, Forall P (trace (forEach body l s)).
Proof.
  intros Hb l. induction l as [| x rest IH]; intros s; simpl.
  - constructor.
  - apply bind_events; [apply Hb | intros _ s'; apply IH].
Qed.

(** Every event of a loop is an event of one turn of its body. *)
Lemma forEach_event_origin {A : Type} (body : A -> M S unit) (ev : Event) :
  forall l s,
    In ev (trace (forEach body l s)) ->
    exists x s0, In x l /\ In ev (trace (body x s0)).
Proof.
  induction l as [| x rest IH]; intros s H; simpl in H.
  - contradiction.
  - destruct (res (body x s)) as [a | r e] eqn:E.
    + destruct (bind_next (body x) (fun _ => forEach body rest) s a E)
        as (_ & _ & Ht).
      rewrite Ht in H. apply in_app_or in H. destruct H as [H | H].
      * exists x, s. split; [left; reflexivity | assumption].
      * destruct (IH _ H) as (y & s0 & Hy & Hin).
        exists y, s0. split; [right; assumption | assumption].
    + destruct (bind_return (body x) (fun _ => forEach body rest) s r e E)
        as (_ & _ & Ht).
      rewrite Ht in H. exists x, s. split; [left; reflexivity | assumption].
Qed.

(** *** Aborting goes with a failed staging call *)

Lemma bind_settled {A B : Type} (m : M S A) (k : A -> M S B) (s : S) :
  settled (m s) ->
  (forall a s', settled (k a s')) ->
  settled (bind m k s).
Proof.
  unfold settled. intros Hm Hk.
  destruct (res (m s)) as [a | x e] eqn:E.
  - destruct (bind_next m k s a E) as (Hr & _ & Ht).
    rewrite Hr, Ht. specialize (Hk a (post (m s))).
    destruct (res (k a (post (m s)))) as [b | y e'].
    + rewrite existsb_app, Hm, Hk. reflexivity.
    + destruct Hk as (? & ? & Hk). repeat split; try assumption.
      rewrite existsb_app, Hk. apply orb_true_r.
  - destruct (bind_return m k s x e E) as (Hr & _ & Ht).
    rewrite Hr, Ht. assumption.
Qed.

Lemma forEach_settled {A : Type} (body : A -> M S unit) :
  (forall x s, settled (body x s)) ->
  forall l s, settled (forEach body l s).
Proof.
  intros Hb l. induction l as [| x rest IH]; intros s; simpl.
  - reflexivity.
  - apply bind_settled; [apply Hb | intros _ s'; apply IH].
Qed.

End Sequencing.

(** ** The reconciler, case by case *)

Ltac unfold_calls :=
  unfold call_List_Subnets, call_Get_Network, call_List_RemoteSubnets,
    call_parseSubnetSpecRangeMeta, call_EnsureVlanIf,
    call_GenerateVxlanNetIfName, call_CheckIPv6GlobalDisabled,
    call_ResetInfos, call_AddSubnetInfo, call_AddRemoteSubnetInfo,
    call_SyncRoutes, call_iptablesSyncTrigger, get_config,
    world_call, pure_call, manager_call, bind, ret, return_.

Section Cases.
Context {W RM : Type} `{C : Collaborators W RM}.

Lemma nodeListHas_In (nodes : list string) (nodeName : string) :
  nodeListHas nodes nodeName = true <-> In nodeName nodes.
Proof.
  induction nodes as [| n rest IH]; simpl.
  - split; [discriminate | contradiction].
  - destruct (String.eqb n nodeName) eqn:E.
    + apply String.eqb_eq in E. split; auto.
    + apply String.eqb_neq in E. rewrite IH. split; [auto | ].
      intros [H | H]; [contradiction | assumption].
Qed.

Lemma underlayOnHost_other (network : Network) (nodeName : string) :
  GetNetworkType network <> NetworkTypeUnderlay ->
  underlayOnHost network nodeName = false.
Proof.
  unfold underlayOnHost. destruct (GetNetworkType network); congruence.
Qed.

Lemma underlayOnHost_iff (network : Network) (nodeName : string) :
  underlayOnHost network nodeName = true <->
  GetNetworkType network = NetworkTypeUnderlay
  /\ In nodeName (NodeList (net_Status network)).
Proof.
  unfold underlayOnHost.
  destruct (GetNetworkType network) eqn:E; rewrite <- ?nodeListHas_In.
  - tauto.
  - split; [discriminate | intros [H _]; discriminate].
  - split; [discriminate | intros [H _]; discriminate].
Qed.

Lemma reconcileSubnet_turn (subnet : Subnet) (s : St W RM) :
  SubnetTurn subnet s (reconcileSubnet subnet s).
Proof.
  unfold reconcileSubnet, forwarding. unfold_calls.
  destruct (Get_Network (Network_ (Spec subnet)) (world s))
    as [[network | e] w1] eqn:EG; cbn -[String.append underlayOnHost].
  2: { eapply turn_no_network; eassumption. }
  destruct (parseSubnetSpecRangeMeta (Range (Spec subnet)))
    as [meta | e] eqn:EP; cbn -[String.append underlayOnHost].
  2: { eapply turn_bad_range; eassumption. }
  destruct (GetNetworkType network) as [| | tag] eqn:ET.
  - destruct (underlayOnHost network (NodeName (config (hub s)))) eqn:EH;
      cbn -[String.append].
    + destruct (EnsureVlanIf (NodeVlanIfName (config (hub s)))
                             (resolveNetID subnet network) w1)
        as [[name | e] w2] eqn:EV; cbn -[String.append].
      * eapply turn_underlay_on_host; eassumption.
      * eapply turn_vlan_failed; eassumption.
    + eapply turn_underlay_elsewhere; eassumption.
  - rewrite (underlayOnHost_other network) by congruence.
    cbn -[String.append].
    destruct (GenerateVxlanNetIfName (NodeVxlanIfName (config (hub s)))
                                     (resolveNetID subnet network))
      as [name | e] eqn:EX; cbn -[String.append].
    + eapply turn_overlay; eassumption.
    + eapply turn_vxlan_failed; eassumption.
  - rewrite (underlayOnHost_other network) by congruence.
    cbn -[String.append].
    eapply turn_other_type; eassumption.
Qed.

Lemma reconcileRemoteSubnet_turn (remoteSubnet : RemoteSubnet) (s : St W RM) :
  RemoteTurn remoteSubnet s (reconcileRemoteSubnet remoteSubnet s).
Proof.
  unfold reconcileRemoteSubnet. unfold_calls.
  destruct (parseSubnetSpecRangeMeta (rs_Range (rs_Spec remoteSubnet)))
    as [meta | e] eqn:EP; cbn -[String.append].
  2: { eapply remote_bad_range; eassumption. }
  match goal with
  | |- context [AddRemoteSubnetInfo ?i ?rm] =>
      destruct (AddRemoteSubnetInfo i rm) as [[[] | e] rm'] eqn:EA
  end; cbn -[String.append].
  - eapply remote_added; eassumption.
  - eapply remote_refused; eassumption.
Qed.

Lemma syncAndFinish_run (s : St W RM) : SyncRun s (syncAndFinish s).
Proof.
  unfold syncAndFinish. unfold_calls. cbn -[String.append].
  destruct (SyncRoutes (routeV4Manager (hub s)) (world s))
    as [[[] | e] [rm4 w1]] eqn:E4; cbn -[String.append].
  2: { eapply sync_v4_failed; eassumption. }
  destruct (CheckIPv6GlobalDisabled w1) as [[[|] | e] w2] eqn:EC;
    cbn -[String.append].
  - eapply sync_v6_skipped; eassumption.
  - destruct (SyncRoutes (routeV6Manager (hub s)) w2)
      as [[[] | e] [rm6 w3]] eqn:E6; cbn -[String.append].
    + eapply sync_both; eassumption.
    + eapply sync_v6_failed; eassumption.
  - eapply sync_check_failed; eassumption.
Qed.

(** The events and the outcome of the staging steps. *)

Lemma reconcileSubnet_events (subnet : Subnet) (s : St W RM) :
  Forall (fun ev => subnet_event ev = true) (trace (reconcileSubnet subnet s)).
Proof.
  destruct (reconcileSubnet_turn subnet s); simpl; repeat constructor.
Qed.

Lemma reconcileSubnet_settled (subnet : Subnet) (s : St W RM) :
  settled (reconcileSubnet subnet s).
Proof.
  destruct (reconcileSubnet_turn subnet s); unfold settled; simpl;
    repeat split; (reflexivity || discriminate).
Qed.

Lemma reconcileRemoteSubnet_events (r : RemoteSubnet) (s : St W RM) :
  Forall (fun ev => remote_event ev = true)
         (trace (reconcileRemoteSubnet r s)).
Proof.
  destruct (reconcileRemoteSubnet_turn r s); simpl; repeat constructor.
Qed.

Lemma reconcileRemoteSubnet_settled (r : RemoteSubnet) (s : St W RM) :
  settled (reconcileRemoteSubnet r s).
Proof.
  destruct (reconcileRemoteSubnet_turn r s); unfold settled; simpl;
    repeat split; (reflexivity || discriminate).
Qed.

End Cases.

(** ** The pass, from its parts *)

Section Pass.
Context {W RM : Type} `{C : Collaborators W RM}.

Lemma stage_list_failed (s : St W RM) (e : error) (w1 : W) :
  List_Subnets (world s) = (Err e, w1) ->
  stage s =
  {| res := Return requeue (Some ("failed to list subnet " ++ e));
     post := {| hub := hub s; world := w1 |};
     trace := [CallList_Subnets (Err e)] |}.
Proof.
  intros E. unfold stage. unfold_calls. rewrite E. reflexivity.
Qed.

Lemma stage_listed (s : St W RM) (items : list Subnet) (w1 : W) :
  List_Subnets (world s) = (Ok items, w1) ->
  let r1 := forEach reconcileSubnet items (afterReset s w1) in
  stage s =
  match res r1 with
  | Next _ =>
      let r2 := reconcileRemoteSubnets (post r1) in
      {| res := res r2; post := post r2;
         trace := (CallList_Subnets (Ok items) :: CallResetInfos RouteV4
                   :: CallResetInfos RouteV6 :: trace r1 ++ trace r2)%list |}
  | Return x e =>
      {| res := Return x e; post := post r1;
         trace := CallList_Subnets (Ok items) :: CallResetInfos RouteV4
                  :: CallResetInfos RouteV6 :: trace r1 |}
  end.
Proof.
  intros E r1. subst r1. unfold stage, afterReset. unfold_calls. rewrite E.
  cbn -[String.append forEach reconcileRemoteSubnets].
  match goal with
  | |- context [res (forEach reconcileSubnet items ?st)] =>
      destruct (res (forEach reconcileSubnet items st))
  end; reflexivity.
Qed.

Lemma reconcileRemoteSubnets_off (s : St W RM) :
  MultiClusterEnabled = false ->
  reconcileRemoteSubnets s = {| res := Next tt; post := s; trace := [] |}.
Proof.
  intros E. unfold reconcileRemoteSubnets. rewrite E. reflexivity.
Qed.

Lemma reconcileRemoteSubnets_list_failed (s : St W RM) (e : error) (w1 : W) :
  MultiClusterEnabled = true ->
  List_RemoteSubnets (world s) = (Err e, w1) ->
  reconcileRemoteSubnets s =
  {| res := Return requeue (Some ("failed to list remote subnet " ++ e));
     post := {| hub := hub s; world := w1 |};
     trace := [CallList_RemoteSubnets (Err e)] |}.
Proof.
  intros E L. unfold reconcileRemoteSubnets. rewrite E. unfold_calls.
  rewrite L. reflexivity.
Qed.

Lemma reconcileRemoteSubnets_listed (s : St W RM) (items : list RemoteSubnet)
      (w1 : W) :
  MultiClusterEnabled = true ->
  List_RemoteSubnets (world s) = (Ok items, w1) ->
  let r := forEach reconcileRemoteSubnet items
                   {| hub := hub s; world := w1 |} in
  reconcileRemoteSubnets s =
  {| res := res r; post := post r;
     trace := CallList_RemoteSubnets (Ok items) :: trace r |}.
Proof.
  intros E L r. unfold reconcileRemoteSubnets. rewrite E. unfold_calls.
  rewrite L. cbn -[forEach]. fold r. destruct (res r); reflexivity.
Qed.

Lemma Reconcile_aborted (s : St W RM) (x : Result) (e : option error) :
  res (stage s) = Return x e ->
  Reconcile s =
  {| result_ := x; err := e; final := post (stage s);
     calls := trace (stage s) |}.
Proof.
  intros E. unfold Reconcile, Reconcile_body.
  destruct (bind_return stage (fun _ => syncAndFinish) s x e E)
    as (-> & -> & ->).
  reflexivity.
Qed.

Lemma Reconcile_staged (s : St W RM) (u : unit) :
  res (stage s) = Next u ->
  let r := syncAndFinish (post (stage s)) in
  exists x e,
    res r = Return x e
    /\ Reconcile s =
       {| result_ := x; err := e; final := post r;
          calls := (trace (stage s) ++ trace r)%list |}.
Proof.
  intros E r. unfold Reconcile, Reconcile_body.
  destruct (bind_next stage (fun _ => syncAndFinish) s u E)
    as (-> & -> & ->).
  fold r. destruct (res r) as [[] | x e] eqn:Er.
  exists x, e. auto.
Qed.

(** *** Staging leaves staging events only, and is settled *)

Lemma reconcileRemoteSubnets_events (s : St W RM) :
  Forall (fun ev => remote_event ev = true)
         (trace (reconcileRemoteSubnets s)).
Proof.
  destruct MultiClusterEnabled eqn:E.
  - destruct (List_RemoteSubnets (world s)) as [[items | e] w1] eqn:L.
    + rewrite (reconcileRemoteSubnets_listed s items w1 E L). simpl.
      constructor; [reflexivity | ].
      apply forEach_events. apply reconcileRemoteSubnet_events.
    + rewrite (reconcileRemoteSubnets_list_failed s e w1 E L). simpl.
      repeat constructor.
  - rewrite (reconcileRemoteSubnets_off s E). constructor.
Qed.

Lemma reconcileRemoteSubnets_settled (s : St W RM) :
  settled (reconcileRemoteSubnets s).
Proof.
  destruct MultiClusterEnabled eqn:E.
  - destruct (List_RemoteSubnets (world s)) as [[items | e] w1] eqn:L.
    + rewrite (reconcileRemoteSubnets_listed s items w1 E L).
      pose proof (forEach_settled reconcileRemoteSubnet
                    reconcileRemoteSubnet_settled items
                    {| hub := hub s; world := w1 |}) as H.
      unfold settled in *. simpl.
      destruct (res (forEach reconcileRemoteSubnet items _)); assumption.
    + rewrite (reconcileRemoteSubnets_list_failed s e w1 E L).
      unfold settled. simpl. repeat split; (reflexivity || discriminate).
  - rewrite (reconcileRemoteSubnets_off s E). reflexivity.
Qed.

Lemma subnet_event_staging (ev : Event) :
  subnet_event ev = true -> after_staging ev = false.
Proof. destruct ev; simpl; congruence. Qed.

Lemma remote_event_staging (ev : Event) :
  remote_event ev = true -> after_staging ev = false.
Proof. destruct ev; simpl; congruence. Qed.

Lemma stage_events (s : St W RM) :
  Forall (fun ev => after_staging ev = false) (trace (stage s)).
Proof.
  destruct (List_Subnets (world s)) as [[items | e] w1] eqn:L.
  - rewrite (stage_listed s items w1 L).
    pose proof (forEach_events _ reconcileSubnet reconcileSubnet_events
                  items (afterReset s w1)) as H1.
    apply (Forall_impl _ subnet_event_staging) in H1.
    destruct (res (forEach reconcileSubnet items (afterReset s w1)));
      simpl; repeat (constructor; [reflexivity | ]); try assumption.
    apply Forall_app. split; [assumption | ].
    apply (Forall_impl _ remote_event_staging).
    apply reconcileRemoteSubnets_events.
  - rewrite (stage_list_failed s e w1 L). simpl. repeat constructor.
Qed.

Lemma stage_settled (s : St W RM) : settled (stage s).
Proof.
  destruct (List_Subnets (world s)) as [[items | e] w1] eqn:L.
  - rewrite (stage_listed s items w1 L).
    pose proof (forEach_settled reconcileSubnet reconcileSubnet_settled
                  items (afterReset s w1)) as H1.
    unfold settled in H1.
    destruct (res (forEach reconcileSubnet items (afterReset s w1))).
    + pose proof (reconcileRemoteSubnets_settled
                    (post (forEach reconcileSubnet items (afterReset s w1))))
        as H2.
      unfold settled in *. simpl.
      destruct (res (reconcileRemoteSubnets _)).
      * rewrite existsb_app, H1, H2. reflexivity.
      * destruct H2 as (? & ? & H2). repeat split; try assumption.
        rewrite existsb_app, H2. apply orb_true_r.
    + unfold settled. simpl. assumption.
  - rewrite (stage_list_failed s e w1 L). unfold settled. simpl.
    repeat split; (reflexivity || discriminate).
Qed.

Lemma syncAndFinish_events (s : St W RM) :
  Forall (fun ev => after_staging ev = true /\ staging_failure ev = false)
         (trace (syncAndFinish s)).
Proof.
  destruct (syncAndFinish_run s); simpl; repeat constructor.
Qed.

End Pass.

(** ** Loops: what each turn registers *)

Section Loops.
Context {S A X : Type}.
Variable ext : list Event -> list X.
Variable R : A -> X -> Prop.
Variable body : A -> M S unit.

Hypothesis ext_app : forall t1 t2, ext (t1 ++ t2) = (ext t1 ++ ext t2)%list.
Hypothesis ext_nil : ext [] = [].

(** A turn that goes on has registered one record, of its object; a turn
    that leaves the function has registered at most that. *)
Hypothesis body_registers :
  forall x s,
    match res (body x s) with
    | Next _ => exists y, ext (trace (body x s)) = [y] /\ R x y
    | Return _ _ =>
        ext (trace (body x s)) = []
        \/ exists y, ext (trace (body x s)) = [y] /\ R x y
    end.

Lemma forEach_records (l : list A) (s : S) :
  let adds := ext (trace (forEach body l s)) in
  Forall2 R (firstn (length adds) l) adds
  /\ (forall u, res (forEach body l s) = Next u -> length adds = length l).
Proof.
  revert s. induction l as [| x rest IH]; intros s; simpl.
  - rewrite ext_nil. simpl. split; [constructor | reflexivity].
  - pose proof (body_registers x s) as Hb.
    destruct (res (body x s)) as [a | r e] eqn:E.
    + destruct (bind_next (body x) (fun _ => forEach body rest) s a E)
        as (Hr & _ & Ht).
      rewrite Hr, Ht, ext_app.
      destruct Hb as (y & -> & Hy).
      destruct (IH (post (body x s))) as (IH1 & IH2).
      simpl. split.
      * constructor; assumption.
      * intros u Hu. f_equal. apply (IH2 u Hu).
    + destruct (bind_return (body x) (fun _ => forEach body rest) s r e E)
        as (Hr & _ & Ht).
      rewrite Hr, Ht. split; [ | discriminate].
      destruct Hb as [-> | (y & -> & Hy)]; simpl.
      * constructor.
      * constructor; [assumption | constructor].
Qed.

End Loops.

Section Leaving.
Context {S A : Type}.
Variable body : A -> M S unit.
Variable ev : Event.
Variable x0 : Result.
Variable e0 : option error.

(** An event after which the body always leaves the function the same way. *)
Hypothesis body_leaves :
  forall x s, In ev (trace (body x s)) -> res (body x s) = Return x0 e0.

Lemma forEach_leaves (l : list A) (s : S) :
  In ev (trace (forEach body l s)) ->
  res (forEach body l s) = Return x0 e0.
Proof.
  revert s. induction l as [| x rest IH]; intros s H; simpl in *.
  - contradiction.
  - destruct (res (body x s)) as [a | r e] eqn:E.
    + destruct (bind_next (body x) (fun _ => forEach body rest) s a E)
        as (Hr & _ & Ht).
      rewrite Hr. rewrite Ht in H. apply in_app_or in H.
      destruct H as [H | H].
      * apply body_leaves in H. congruence.
      * apply IH. assumption.
    + destruct (bind_return (body x) (fun _ => forEach body rest) s r e E)
        as (Hr & _ & Ht).
      rewrite Hr. rewrite Ht in H. apply body_leaves in H. congruence.
Qed.

End Leaving.

(** ** Registered records *)

Lemma subnetAdds_app (t1 t2 : list Event) :
  subnetAdds (t1 ++ t2) = (subnetAdds t1 ++ subnetAdds t2)%list.
Proof.
  induction t1 as [| ev t1 IH]; simpl; [reflexivity | ].
  destruct ev; simpl; rewrite ?IH; reflexivity.
Qed.

Lemma remoteAdds_app (t1 t2 : list Event) :
  remoteAdds (t1 ++ t2) = (remoteAdds t1 ++ remoteAdds t2)%list.
Proof.
  induction t1 as [| ev t1 IH]; simpl; [reflexivity | ].
  destruct ev; simpl; rewrite ?IH; reflexivity.
Qed.

Lemma subnetAdds_none (t : list Event) :
  Forall (fun ev => match ev with
                    | CallAddSubnetInfo _ _ => False
                    | _ => True
                    end) t ->
  subnetAdds t = [].
Proof.
  induction 1 as [| ev t H _ IH]; simpl; [reflexivity | ].
  destruct ev; simpl; try assumption. contradiction.
Qed.

Lemma remoteAdds_none (t : list Event) :
  Forall (fun ev => match ev with
                    | CallAddRemoteSubnetInfo _ _ _ => False
                    | _ => True
                    end) t ->
  remoteAdds t = [].
Proof.
  induction 1 as [| ev t H _ IH]; simpl; [reflexivity | ].
  destruct ev; simpl; try assumption. contradiction.
Qed.

Lemma subnetAdds_In (t : list Event) (m : ManagerRef) (info : SubnetInfo) :
  In (m, info) (subnetAdds t) <-> In (CallAddSubnetInfo m info) t.
Proof.
  induction t as [| ev t IH]; simpl; [tauto | ].
  destruct ev; simpl; rewrite IH;
    try (split; [auto | intros [H | H]; [discriminate | assumption]]).
  split; intros [H | H]; auto; left; congruence.
Qed.

Section Registered.
Context {W RM : Type} `{C : Collaborators W RM}.

Lemma subnet_loop_records (items : list Subnet) (s : St W RM) :
  let r := forEach reconcileSubnet items s in
  let adds := subnetAdds (trace r) in
  Forall2 subnet_record (firstn (length adds) items) adds
  /\ (forall u, res r = Next u -> length adds = length items).
Proof.
  apply forEach_records.
  - apply subnetAdds_app.
  - reflexivity.
  - intros x s0. destruct (reconcileSubnet_turn x s0); simpl; auto;
      eexists; (split; [reflexivity | ]); (split; [reflexivity | ]);
      do 5 eexists; (split; [eassumption | reflexivity]).
Qed.

Lemma remote_loop_records (items : list RemoteSubnet) (s : St W RM) :
  let r := forEach reconcileRemoteSubnet items s in
  let adds := remoteAdds (trace r) in
  Forall2 remote_record (firstn (length adds) items) adds
  /\ (forall u, res r = Next u -> length adds = length items).
Proof.
  apply forEach_records.
  - apply remoteAdds_app.
  - reflexivity.
  - intros x s0. destruct (reconcileRemoteSubnet_turn x s0); simpl; auto;
      try right; eexists; (split; [reflexivity | ]); (split; [reflexivity | ]);
      eexists; (split; [eassumption | reflexivity]).
Qed.

End Registered.

(** ** The two ways a pass ends *)

Section Outcome.
Context {W RM : Type} `{C : Collaborators W RM}.

Lemma Reconcile_cases (s : St W RM) :
  (exists x e,
      res (stage s) = Return x e
      /\ Reconcile s =
         {| result_ := x; err := e; final := post (stage s);
            calls := trace (stage s) |})
  \/ (res (stage s) = Next tt
      /\ let r := syncAndFinish (post (stage s)) in
         exists x e,
           res r = Return x e
           /\ Reconcile s =
              {| result_ := x; err := e; final := post r;
                 calls := (trace (stage s) ++ trace r)%list |}).
Proof.
  destruct (res (stage s)) as [[] | x e] eqn:E.
  - right. split; [reflexivity | ]. apply (Reconcile_staged s tt E).
  - left. exists x, e. split; [reflexivity | ].
    apply Reconcile_aborted. assumption.
Qed.

Lemma no_failure_after_staging (t : list Event) :
  Forall (fun ev => after_staging ev = true /\ staging_failure ev = false) t ->
  existsb staging_failure t = false.
Proof.
  induction 1 as [| ev t [_ H] _ IH]; simpl; [reflexivity | ].
  rewrite H, IH. reflexivity.
Qed.

Lemma no_sync_in_staging (t : list Event) (m : ManagerRef) (r : result unit) :
  Forall (fun ev => after_staging ev = false) t ->
  ~ In (CallSyncRoutes m r) t.
Proof.
  intros H Hin. rewrite Forall_forall in H. specialize (H _ Hin).
  discriminate.
Qed.

(** A failed staging call: the pass stops where staging stopped. *)
Lemma Reconcile_failure (s : St W RM) :
  existsb staging_failure (calls (Reconcile s)) = true ->
  exists x e,
    res (stage s) = Return x e
    /\ Requeue x = true /\ e <> None
    /\ Reconcile s =
       {| result_ := x; err := e; final := post (stage s);
          calls := trace (stage s) |}.
Proof.
  intros H. pose proof (stage_settled s) as Hs. unfold settled in Hs.
  destruct (Reconcile_cases s) as [(x & e & E & Hp) | (E & x & e & _ & Hp)].
  - rewrite E in Hs. destruct Hs as (? & ? & _).
    exists x, e. auto.
  - rewrite E in Hs. rewrite Hp in H. cbn [calls] in H.
    rewrite existsb_app, Hs in H. cbn [orb] in H.
    pose proof (syncAndFinish_events (post (stage s))) as He.
    apply no_failure_after_staging in He. congruence.
Qed.

(** No failed staging call: staging went through. *)
Lemma Reconcile_no_failure (s : St W RM) :
  existsb staging_failure (calls (Reconcile s)) = false ->
  res (stage s) = Next tt.
Proof.
  intros H. pose proof (stage_settled s) as Hs. unfold settled in Hs.
  destruct (Reconcile_cases s) as [(x & e & E & Hp) | (E & _)];
    [ | assumption].
  rewrite E in Hs. destruct Hs as (_ & _ & Hs).
  rewrite Hp in H. cbn [calls] in H. congruence.
Qed.

Lemma subnetAdds_remote (t : list Event) :
  Forall (fun ev => remote_event ev = true) t -> subnetAdds t = [].
Proof.
  intros H. apply subnetAdds_none. revert H. apply Forall_impl.
  intros ev. destruct ev; simpl; (discriminate || trivial).
Qed.

Lemma remoteAdds_subnet (t : list Event) :
  Forall (fun ev => subnet_event ev = true) t -> remoteAdds t = [].
Proof.
  intros H. apply remoteAdds_none. revert H. apply Forall_impl.
  intros ev. destruct ev; simpl; (discriminate || trivial).
Qed.

Lemma subnetAdds_after_staging (t : list Event) :
  Forall (fun ev => after_staging ev = true /\ staging_failure ev = false) t ->
  subnetAdds t = [].
Proof.
  intros H. apply subnetAdds_none. revert H. apply Forall_impl.
  intros ev [H _]. destruct ev; simpl in *; (discriminate || trivial).
Qed.

Lemma remoteAdds_after_staging (t : list Event) :
  Forall (fun ev => after_staging ev = true /\ staging_failure ev = false) t ->
  remoteAdds t = [].
Proof.
  intros H. apply remoteAdds_none. revert H. apply Forall_impl.
  intros ev [H _]. destruct ev; simpl in *; (discriminate || trivial).
Qed.

Lemma Forall2_firstn_all {A B : Type} (R : A -> B -> Prop) (l : list A)
      (l' : list B) :
  Forall2 R (firstn (length l') l) l' -> length l' = length l ->
  Forall2 R l l'.
Proof.
  intros H E. rewrite E, firstn_all in H. assumption.
Qed.

(** Staging that went through has registered every listed object. *)
Lemma stage_complete (s : St W RM) :
  res (stage s) = Next tt -> staged_in_full s (trace (stage s)).
Proof.
  intros E. unfold staged_in_full.
  destruct (List_Subnets (world s)) as [[items | e] w1] eqn:L.
  2: { rewrite (stage_list_failed s e w1 L) in E. discriminate. }
  exists items, w1. split; [reflexivity | ].
  rewrite (stage_listed s items w1 L) in E |- *.
  set (r1 := forEach reconcileSubnet items (afterReset s w1)) in *.
  destruct (subnet_loop_records items (afterReset s w1)) as (H1 & H2).
  fold r1 in H1, H2.
  pose proof (forEach_events _ reconcileSubnet reconcileSubnet_events
                items (afterReset s w1)) as Hev1.
  fold r1 in Hev1.
  destruct (res r1) as [[] | x e] eqn:E1; [ | discriminate].
  simpl in E |- *.
  pose proof (reconcileRemoteSubnets_events (post r1)) as Hev2.
  rewrite subnetAdds_app, remoteAdds_app.
  rewrite (subnetAdds_remote _ Hev2), (remoteAdds_subnet _ Hev1).
  rewrite app_nil_r. simpl. split.
  - apply Forall2_firstn_all; [assumption | apply (H2 tt); reflexivity].
  - destruct MultiClusterEnabled eqn:EM.
    + destruct (List_RemoteSubnets (world (post r1)))
        as [[ritems | e] w2] eqn:L2.
      * rewrite (reconcileRemoteSubnets_listed _ ritems w2 EM L2) in E |- *.
        simpl in E |- *. exists ritems. split.
        -- right. right. right. apply in_or_app. right. left. reflexivity.
        -- destruct (remote_loop_records ritems
                       {| hub := hub (post r1); world := w2 |}) as (H3 & H4).
           apply Forall2_firstn_all; [assumption | apply (H4 tt); assumption].
      * rewrite (reconcileRemoteSubnets_list_failed _ e w2 EM L2) in E.
        discriminate.
    + rewrite (reconcileRemoteSubnets_off _ EM). reflexivity.
Qed.

End Outcome.

(** ** Where the events of a pass come from *)

Section Origins.
Context {W RM : Type} `{C : Collaborators W RM}.

Lemma remotes_event_origin (s1 : St W RM) (ev : Event) :
  In ev (trace (reconcileRemoteSubnets s1)) ->
  MultiClusterEnabled = true
  /\ exists l w2,
      List_RemoteSubnets (world s1) = (l, w2)
      /\ (ev = CallList_RemoteSubnets l
          \/ exists ritems x s0,
              l = Ok ritems /\ In x ritems
              /\ In ev (trace (reconcileRemoteSubnet x s0))).
Proof.
  intros H. destruct MultiClusterEnabled eqn:EM.
  2: { rewrite (reconcileRemoteSubnets_off s1 EM) in H. contradiction. }
  split; [reflexivity | ].
  destruct (List_RemoteSubnets (world s1)) as [[ritems | e] w2] eqn:L.
  - rewrite (reconcileRemoteSubnets_listed s1 ritems w2 EM L) in H.
    exists (Ok ritems), w2. split; [reflexivity | ].
    simpl in H. destruct H as [H | H]; [left; auto | right].
    apply forEach_event_origin in H. destruct H as (x & s0 & Hx & Hin).
    exists ritems, x, s0. auto.
  - rewrite (reconcileRemoteSubnets_list_failed s1 e w2 EM L) in H.
    exists (Err e), w2. split; [reflexivity | ].
    simpl in H. destruct H as [H | []]. left; auto.
Qed.

(** The events of staging: the listing, the two resets, the turns of the
    loop over the listed subnets, and lines 110-135. *)
Lemma stage_event_origin (s : St W RM) (ev : Event) :
  In ev (trace (stage s)) ->
  exists l w1,
    List_Subnets (world s) = (l, w1)
    /\ (ev = CallList_Subnets l
        \/ exists items,
            l = Ok items
            /\ (ev = CallResetInfos RouteV4 \/ ev = CallResetInfos RouteV6
                \/ (exists x s0,
                       In x items /\ In ev (trace (reconcileSubnet x s0)))
                \/ exists s1, In ev (trace (reconcileRemoteSubnets s1)))).
Proof.
  intros H.
  destruct (List_Subnets (world s)) as [[items | e] w1] eqn:L.
  - exists (Ok items), w1. split; [reflexivity | ].
    rewrite (stage_listed s items w1 L) in H.
    set (r1 := forEach reconcileSubnet items (afterReset s w1)) in *.
    assert (In ev (CallList_Subnets (Ok items) :: CallResetInfos RouteV4
                   :: CallResetInfos RouteV6 :: trace r1)
            \/ In ev (trace (reconcileRemoteSubnets (post r1)))) as H'.
    { destruct (res r1); simpl in H |- *.
      - destruct H as [H | [H | [H | H]]]; auto.
        apply in_app_or in H. destruct H; auto.
      - auto. }
    clear H. destruct H' as [[H | [H | [H | H]]] | H].
    + left. auto.
    + right. exists items. auto.
    + right. exists items. auto.
    + right. exists items. split; [reflexivity | ]. right. right. left.
      apply forEach_event_origin in H. destruct H as (x & s0 & ? & ?).
      exists x, s0. auto.
    + right. exists items. split; [reflexivity | ]. right. right. right.
      exists (post r1). assumption.
  - exists (Err e), w1. split; [reflexivity | ].
    rewrite (stage_list_failed s e w1 L) in H. simpl in H.
    destruct H as [H | []]. left. auto.
Qed.

(** An event of the pass is an event of staging or of lines 137-152. *)
Lemma Reconcile_event (s : St W RM) (ev : Event) :
  In ev (calls (Reconcile s)) ->
  (after_staging ev = false /\ In ev (trace (stage s)))
  \/ (after_staging ev = true
      /\ res (stage s) = Next tt
      /\ let r := syncAndFinish (post (stage s)) in
         In ev (trace r)
         /\ exists x e,
             res r = Return x e
             /\ Reconcile s =
                {| result_ := x; err := e; final := post r;
                   calls := (trace (stage s) ++ trace r)%list |}).
Proof.
  intros H. pose proof (stage_events s) as Hst. rewrite Forall_forall in Hst.
  destruct (Reconcile_cases s) as [(x & e & E & Hp) | (E & x & e & Hr & Hp)].
  - rewrite Hp in H. cbn [calls] in H. left. auto.
  - rewrite Hp in H. cbn [calls] in H. apply in_app_or in H.
    destruct H as [H | H]; [left; auto | right].
    pose proof (syncAndFinish_events (post (stage s))) as Hsy.
    rewrite Forall_forall in Hsy. destruct (Hsy _ H) as [Ha _].
    split; [assumption | ]. split; [assumption | ].
    split; [assumption | ]. exists x, e. auto.
Qed.

Lemma stage_no_remote (s : St W RM) :
  MultiClusterEnabled = false ->
  Forall (fun ev => is_remote ev = false) (trace (stage s)).
Proof.
  intros EM. rewrite Forall_forall. intros ev H.
  apply stage_event_origin in H.
  destruct H as (l & w1 & _ & [-> | (items & _ & [-> | [-> | [H | H]]])]);
    try reflexivity.
  - destruct H as (x & s0 & _ & H).
    pose proof (reconcileSubnet_events x s0) as He.
    rewrite Forall_forall in He. specialize (He _ H).
    destruct ev; simpl in *; congruence.
  - destruct H as (s1 & H). apply remotes_event_origin in H.
    destruct H as [H _]. congruence.
Qed.

(** A refused remote subnet ends staging with the error of line 132. *)
Lemma stage_remote_refused (s : St W RM) (m : ManagerRef)
      (info : RemoteSubnetInfo) (e : error) :
  In (CallAddRemoteSubnetInfo m info (Err e)) (trace (stage s)) ->
  res (stage s) =
  Return requeue (Some ("failed to add remote subnet info: " ++ e)).
Proof.
  intros H.
  assert (forall x s0,
             In (CallAddRemoteSubnetInfo m info (Err e))
                (trace (reconcileRemoteSubnet x s0)) ->
             res (reconcileRemoteSubnet x s0) =
             Return requeue (Some ("failed to add remote subnet info: " ++ e)))
    as Hbody.
  { intros x s0 Hin. destruct (reconcileRemoteSubnet_turn x s0);
      simpl in Hin |- *.
    - destruct Hin as [Hin | []]. discriminate.
    - destruct Hin as [Hin | [Hin | []]]; [discriminate | ].
      injection Hin as _ _ ->. reflexivity.
    - destruct Hin as [Hin | [Hin | []]]; discriminate. }
  assert (forall s1,
             In (CallAddRemoteSubnetInfo m info (Err e))
                (trace (reconcileRemoteSubnets s1)) ->
             res (reconcileRemoteSubnets s1) =
             Return requeue (Some ("failed to add remote subnet info: " ++ e)))
    as Hrem.
  { intros s1 Hin. destruct MultiClusterEnabled eqn:EM.
    2: { rewrite (reconcileRemoteSubnets_off s1 EM) in Hin. contradiction. }
    destruct (List_RemoteSubnets (world s1)) as [[ritems | e'] w2] eqn:L.
    - rewrite (reconcileRemoteSubnets_listed s1 ritems w2 EM L) in Hin |- *.
      simpl in Hin |- *. destruct Hin as [Hin | Hin]; [discriminate | ].
      apply (forEach_leaves reconcileRemoteSubnet _ _ _ Hbody). assumption.
    - rewrite (reconcileRemoteSubnets_list_failed s1 e' w2 EM L) in Hin.
      simpl in Hin. destruct Hin as [Hin | []]. discriminate. }
  destruct (List_Subnets (world s)) as [[items | e'] w1] eqn:L.
  - rewrite (stage_listed s items w1 L) in H |- *.
    set (r1 := forEach reconcileSubnet items (afterReset s w1)) in *.
    pose proof (forEach_events _ reconcileSubnet reconcileSubnet_events
                  items (afterReset s w1)) as Hev.
    fold r1 in Hev. rewrite Forall_forall in Hev.
    destruct (res r1); simpl in H |- *.
    + destruct H as [H | [H | [H | H]]]; try discriminate.
      apply in_app_or in H. destruct H as [H | H].
      * specialize (Hev _ H). discriminate.
      * apply Hrem. assumption.
    + destruct H as [H | [H | [H | H]]]; try discriminate.
      specialize (Hev _ H). discriminate.
  - rewrite (stage_list_failed s e' w1 L) in H. simpl in H.
    destruct H as [H | []]. discriminate.
Qed.

Lemma staged_in_full_app (s : St W RM) (t t' : list Event) :
  staged_in_full s t ->
  Forall (fun ev => after_staging ev = true /\ staging_failure ev = false) t' ->
  staged_in_full s (t ++ t').
Proof.
  intros (items & w1 & L & H1 & H2) Ht'.
  exists items, w1. split; [assumption | ].
  rewrite subnetAdds_app, remoteAdds_app.
  rewrite (subnetAdds_after_staging _ Ht'), (remoteAdds_after_staging _ Ht').
  rewrite !app_nil_r. split; [assumption | ].
  destruct MultiClusterEnabled; [ | assumption].
  destruct H2 as (ritems & Hin & H2). exists ritems.
  split; [apply in_or_app; left; assumption | assumption].
Qed.

End Origins.

(** ** What staging places in the managers *)

Section PlacedLemmas.
Context {W RM : Type} `{C : Collaborators W RM}.

Lemma manager_set_manager (m' m : ManagerRef) (x : RM) (h : CtrlHub RM) :
  manager m' (set_manager m x h)
  = if ManagerRef_eqb m m' then x else manager m' h.
Proof. destruct m, m'; reflexivity. Qed.

Lemma selected_by_version (v' v : IPVersion) :
  ManagerRef_eqb (getRouterManager v') (getRouterManager v)
  = IPVersion_eqb v' v.
Proof. destruct v', v; reflexivity. Qed.

Lemma subnetsIn_version (v : IPVersion) (done : list (Subnet * SubnetInfo)) :
  subnetsIn (getRouterManager v) done = subnetsOf v done.
Proof.
  unfold subnetsIn, subnetsOf. apply filter_ext. intros xi.
  apply selected_by_version.
Qed.

Lemma remoteSubnetsIn_version (v : IPVersion)
      (rdone : list (RemoteSubnet * RemoteSubnetInfo)) :
  remoteSubnetsIn (getRouterManager v) rdone = remoteSubnetsOf v rdone.
Proof.
  unfold remoteSubnetsIn, remoteSubnetsOf. apply filter_ext. intros xi.
  apply selected_by_version.
Qed.

(** One turn over a subnet: the record it registers and the manager it
    lands in, or nothing at all. *)
Lemma reconcileSubnet_places (x : Subnet) (s : St W RM) :
  match res (reconcileSubnet x s) with
  | Next _ =>
      exists info,
        subnetAdds (trace (reconcileSubnet x s)) = [placedSubnet (x, info)]
        /\ subnet_record x (placedSubnet (x, info))
        /\ forall m,
            manager m (hub (post (reconcileSubnet x s)))
            = addSubnetInfos (subnetsIn m [(x, info)]) (manager m (hub s))
  | Return _ _ =>
      subnetAdds (trace (reconcileSubnet x s)) = []
      /\ hub (post (reconcileSubnet x s)) = hub s
  end.
Proof.
  destruct (reconcileSubnet_turn x s); cbn [res trace post hub subnetAdds];
    try (split; reflexivity);
    eexists; (split; [reflexivity | ]);
    (split; [split; [reflexivity | ];
             do 5 eexists; (split; [eassumption | reflexivity]) | ]);
    intros m0; rewrite manager_set_manager;
    unfold subnetsIn, placedSubnet; cbn [filter fst snd];
    destruct (ManagerRef_eqb _ m0) eqn:E; cbn [addSubnetInfos fold_left snd];
    try reflexivity;
    destruct (getRouterManager _), m0; (discriminate || reflexivity).
Qed.

Lemma reconcileRemoteSubnet_places (x : RemoteSubnet) (s : St W RM) :
  (remoteAdds (trace (reconcileRemoteSubnet x s)) = []
   /\ hub (post (reconcileRemoteSubnet x s)) = hub s
   /\ exists r e, res (reconcileRemoteSubnet x s) = Return r e)
  \/ exists info,
      remoteAdds (trace (reconcileRemoteSubnet x s)) = [placedRemote (x, info)]
      /\ remote_record x (placedRemote (x, info))
      /\ forall m,
          manager m (hub (post (reconcileRemoteSubnet x s)))
          = addRemoteSubnetInfos (remoteSubnetsIn m [(x, info)])
                                 (manager m (hub s)).
Proof.
  destruct (reconcileRemoteSubnet_turn x s) as [e P | meta e rm P m info A
                                                | meta rm P m info A];
    cbn [res trace post hub remoteAdds].
  - left. split; [reflexivity | ]. split; [reflexivity | ].
    eexists _, _. reflexivity.
  - right. exists info. split; [reflexivity | ].
    split; [split; [reflexivity | ];
            eexists; split; [eassumption | reflexivity] | ].
    intros m0. rewrite manager_set_manager.
    unfold remoteSubnetsIn, placedRemote. cbn [filter fst snd]. fold m.
    destruct (ManagerRef_eqb m m0) eqn:E;
      cbn [addRemoteSubnetInfos fold_left snd]; [ | reflexivity].
    assert (m0 = m) as -> by (destruct m, m0; (discriminate || reflexivity)).
    rewrite A. reflexivity.
  - right. exists info. split; [reflexivity | ].
    split; [split; [reflexivity | ];
            eexists; split; [eassumption | reflexivity] | ].
    intros m0. rewrite manager_set_manager.
    unfold remoteSubnetsIn, placedRemote. cbn [filter fst snd]. fold m.
    destruct (ManagerRef_eqb m m0) eqn:E;
      cbn [addRemoteSubnetInfos fold_left snd]; [ | reflexivity].
    assert (m0 = m) as -> by (destruct m, m0; (discriminate || reflexivity)).
    rewrite A. reflexivity.
Qed.

Lemma addSubnetInfos_app (a b : list (Subnet * SubnetInfo)) (rm : RM) :
  addSubnetInfos (a ++ b) rm = addSubnetInfos b (addSubnetInfos a rm).
Proof. apply fold_left_app. Qed.

Lemma addRemoteSubnetInfos_app (a b : list (RemoteSubnet * RemoteSubnetInfo))
      (rm : RM) :
  addRemoteSubnetInfos (a ++ b) rm
  = addRemoteSubnetInfos b (addRemoteSubnetInfos a rm).
Proof. apply fold_left_app. Qed.

(** The loop over the subnets: the subnets it got to, with their records,
    and each manager after the records that go to it. *)
Lemma subnet_loop_placed (items : list Subnet) (s : St W RM) :
  let r := forEach reconcileSubnet items s in
  exists done,
    subnetAdds (trace r) = map placedSubnet done
    /\ Forall (fun xi => In (fst xi) items
                         /\ subnet_record (fst xi) (placedSubnet xi)) done
    /\ forall m,
        manager m (hub (post r))
        = addSubnetInfos (subnetsIn m done) (manager m (hub s)).
Proof.
  cbv zeta. revert s. induction items as [| x rest IH]; intros s.
  - exists []. cbn. repeat split. constructor.
  - pose proof (reconcileSubnet_places x s) as Hx. cbn [forEach].
    destruct (res (reconcileSubnet x s)) as [a | r e] eqn:E.
    + destruct (bind_next (reconcileSubnet x)
                          (fun _ => forEach reconcileSubnet rest) s a E)
        as (_ & -> & ->).
      destruct Hx as (info & Hadd & Hrec & Hm).
      destruct (IH (post (reconcileSubnet x s))) as (done & Ha & Hf & Hd).
      exists ((x, info) :: done). rewrite subnetAdds_app, Hadd, Ha.
      split; [reflexivity | ]. split.
      * constructor; [split; [left; reflexivity | assumption] | ].
        revert Hf. apply Forall_impl. intros xi [H1 H2].
        split; [right; assumption | assumption].
      * intros m. rewrite Hd, Hm.
        change ((x, info) :: done) with ([(x, info)] ++ done)%list.
        unfold subnetsIn at 3. rewrite filter_app.
        rewrite addSubnetInfos_app. reflexivity.
    + destruct (bind_return (reconcileSubnet x)
                            (fun _ => forEach reconcileSubnet rest) s r e E)
        as (_ & -> & ->).
      destruct Hx as (Hadd & Hh). exists []. rewrite Hadd, Hh.
      cbn. repeat split. constructor.
Qed.

Lemma remote_loop_placed (items : list RemoteSubnet) (s : St W RM) :
  let r := forEach reconcileRemoteSubnet items s in
  exists rdone,
    remoteAdds (trace r) = map placedRemote rdone
    /\ Forall (fun xi => In (fst xi) items
                         /\ remote_record (fst xi) (placedRemote xi)) rdone
    /\ forall m,
        manager m (hub (post r))
        = addRemoteSubnetInfos (remoteSubnetsIn m rdone) (manager m (hub s)).
Proof.
  cbv zeta. revert s. induction items as [| x rest IH]; intros s.
  - exists []. cbn. repeat split. constructor.
  - pose proof (reconcileRemoteSubnet_places x s) as Hx. cbn [forEach].
    destruct (res (reconcileRemoteSubnet x s)) as [a | r e] eqn:E.
    + destruct (bind_next (reconcileRemoteSubnet x)
                          (fun _ => forEach reconcileRemoteSubnet rest) s a E)
        as (_ & -> & ->).
      destruct Hx as [(_ & _ & r0 & e0 & Hr) | (info & Hadd & Hrec & Hm)];
        [discriminate | ].
      destruct (IH (post (reconcileRemoteSubnet x s)))
        as (rdone & Ha & Hf & Hd).
      exists ((x, info) :: rdone). rewrite remoteAdds_app, Hadd, Ha.
      split; [reflexivity | ]. split.
      * constructor; [split; [left; reflexivity | assumption] | ].
        revert Hf. apply Forall_impl. intros xi [H1 H2].
        split; [right; assumption | assumption].
      * intros m. rewrite Hd, Hm.
        change ((x, info) :: rdone) with ([(x, info)] ++ rdone)%list.
        unfold remoteSubnetsIn at 3. rewrite filter_app.
        rewrite addRemoteSubnetInfos_app. reflexivity.
    + destruct (bind_return (reconcileRemoteSubnet x)
                            (fun _ => forEach reconcileRemoteSubnet rest)
                            s r e E)
        as (_ & -> & ->).
      destruct Hx as [(Hadd & Hh & _) | (info & Hadd & Hrec & Hm)].
      * exists []. rewrite Hadd, Hh. cbn. repeat split. constructor.
      * exists [(x, info)]. rewrite Hadd. split; [reflexivity | ].
        split; [ | assumption].
        constructor; [ | constructor].
        split; [left; reflexivity | assumption].
Qed.

End PlacedLemmas.

Section PlacedByStaging.
Context {W RM : Type} `{C : Collaborators W RM}.

(** Staging after a successful listing: each manager holds what [ResetInfos]
    left, then the records of the subnets that go to it, then those of the
    remote subnets that go to it. *)
Lemma stage_placed (s : St W RM) (items : list Subnet) (w1 : W) :
  List_Subnets (world s) = (Ok items, w1) ->
  exists done rdone,
    subnetAdds (trace (stage s)) = map placedSubnet done
    /\ remoteAdds (trace (stage s)) = map placedRemote rdone
    /\ Forall (fun xi => In (fst xi) items
                         /\ subnet_record (fst xi) (placedSubnet xi)) done
    /\ Forall (fun xi => remote_record (fst xi) (placedRemote xi)) rdone
    /\ forall m,
        manager m (hub (post (stage s)))
        = addRemoteSubnetInfos
            (remoteSubnetsIn m rdone)
            (addSubnetInfos (subnetsIn m done)
                            (ResetInfos (manager m (hub s)))).
Proof.
  intros L. rewrite (stage_listed s items w1 L).
  destruct (subnet_loop_placed items (afterReset s w1))
    as (done & Ha & Hf & Hm).
  pose proof (forEach_events _ reconcileSubnet reconcileSubnet_events
                items (afterReset s w1)) as Hev1.
  set (r1 := forEach reconcileSubnet items (afterReset s w1)) in *.
  assert (forall m, manager m (hub (afterReset s w1))
                    = ResetInfos (manager m (hub s))) as Hreset
      by (intros []; reflexivity).
  assert (forall m, manager m (hub (post r1))
                    = addSubnetInfos (subnetsIn m done)
                                     (ResetInfos (manager m (hub s)))) as Hm'
      by (intros m; rewrite Hm, Hreset; reflexivity).
  exists done.
  destruct (res r1) as [[] | x e] eqn:E1; cbn [trace post].
  2: { exists []. cbn [subnetAdds remoteAdds map remoteSubnetsIn filter
                       addRemoteSubnetInfos fold_left].
       rewrite (remoteAdds_subnet _ Hev1).
       repeat split; try assumption. constructor. }
  set (s1 := post r1) in *.
  pose proof (reconcileRemoteSubnets_events s1) as Hev2.
  assert (subnetAdds (CallList_Subnets (Ok items) :: CallResetInfos RouteV4
                      :: CallResetInfos RouteV6
                      :: trace r1 ++ trace (reconcileRemoteSubnets s1))
          = map placedSubnet done) as Hsub.
  { cbn [subnetAdds].
    rewrite subnetAdds_app, (subnetAdds_remote _ Hev2), app_nil_r.
    assumption. }
  assert (remoteAdds (CallList_Subnets (Ok items) :: CallResetInfos RouteV4
                      :: CallResetInfos RouteV6
                      :: trace r1 ++ trace (reconcileRemoteSubnets s1))
          = remoteAdds (trace (reconcileRemoteSubnets s1))) as Hrem.
  { cbn [remoteAdds].
    rewrite remoteAdds_app, (remoteAdds_subnet _ Hev1). reflexivity. }
  rewrite Hsub, Hrem. clear Hsub Hrem.
  destruct MultiClusterEnabled eqn:EM.
  - destruct (List_RemoteSubnets (world s1)) as [[ritems | e] w2] eqn:L2.
    + rewrite (reconcileRemoteSubnets_listed s1 ritems w2 EM L2).
      cbn [trace post remoteAdds].
      destruct (remote_loop_placed ritems {| hub := hub s1; world := w2 |})
        as (rdone & Hb & Hg & Hn).
      exists rdone. split; [reflexivity | ]. split; [assumption | ].
      split; [assumption | ]. split.
      * revert Hg. apply Forall_impl. tauto.
      * intros m. rewrite Hn. cbn [hub]. rewrite Hm'. reflexivity.
    + rewrite (reconcileRemoteSubnets_list_failed s1 e w2 EM L2).
      cbn [trace post hub remoteAdds]. exists [].
      repeat split; try assumption; try constructor; try apply Hm'.
  - rewrite (reconcileRemoteSubnets_off s1 EM). cbn [trace post remoteAdds].
    exists []. repeat split; try assumption; try constructor; try apply Hm'.
Qed.

(** Lines 137-152 and one manager: it is left alone, or [SyncRoutes] is
    called on it once, logged with its answer, and the manager is what the
    call made of it. *)
Lemma syncAndFinish_manager (s1 : St W RM) (m : ManagerRef) :
  let r := syncAndFinish s1 in
  ((forall a, ~ In (CallSyncRoutes m a) (trace r))
   /\ manager m (hub (post r)) = manager m (hub s1))
  \/ exists w,
      (forall a, In (CallSyncRoutes m a) (trace r) ->
                 a = fst (SyncRoutes (manager m (hub s1)) w))
      /\ In (CallSyncRoutes m (fst (SyncRoutes (manager m (hub s1)) w)))
            (trace r)
      /\ manager m (hub (post r))
         = fst (snd (SyncRoutes (manager m (hub s1)) w)).
Proof.
  cbv zeta.
  destruct (syncAndFinish_run s1) as
      [e rm4 w1 E4 | rm4 w1 e w2 E4 EC | rm4 w1 w2 E4 EC
       | rm4 w1 w2 e rm6 w3 E4 EC E6 | rm4 w1 w2 rm6 w3 E4 EC E6];
    cbn [trace post hub synced]; destruct m; cbn [manager set_manager
                                                  routeV4Manager
                                                  routeV6Manager].
  all: try (right; exists (world s1); rewrite E4; cbn [fst snd];
            split; [intros a Ha; cbn [In] in Ha;
                    repeat (destruct Ha as [Ha | Ha]; try discriminate);
                    try contradiction; injection Ha as <-; reflexivity | ];
            split; [cbn [In]; auto | reflexivity]).
  all: try (right; exists w2; rewrite E6; cbn [fst snd];
            split; [intros a Ha; cbn [In] in Ha;
                    repeat (destruct Ha as [Ha | Ha]; try discriminate);
                    try contradiction; injection Ha as <-; reflexivity | ];
            split; [cbn [In]; auto | reflexivity]).
  all: left; split; [ | reflexivity]; intros a Ha; cbn [In] in Ha;
    repeat (destruct Ha as [Ha | Ha]; try discriminate); contradiction.
Qed.

End PlacedByStaging.

(** * The pass as a whole *)

Section PassClaims.
Context {W RM : Type} `{C : Collaborators W RM}.

(** C1.  If a staging step of a pass fails (listing the subnets, getting a
    subnet's network, parsing a range, ensuring the underlay interface,
    naming the overlay interface, listing the remote subnets, adding a
    remote subnet info), the pass ends with an error and asks for a requeue,
    and [SyncRoutes] is called on neither route manager.  Conversely a pass
    in which [SyncRoutes] is called has had no failed staging step, and by
    then every listed subnet, and with federation enabled every listed
    remote subnet, has its record registered. *)
Theorem failed_staging_never_syncs (s : St W RM) :
  let p := Reconcile s in
  (existsb staging_failure (calls p) = true ->
   Requeue (result_ p) = true /\ err p <> None
   /\ forall m r, ~ In (CallSyncRoutes m r) (calls p))
  /\ (forall m r,
         In (CallSyncRoutes m r) (calls p) ->
         existsb staging_failure (calls p) = false
         /\ staged_in_full s (calls p)).
Proof.
  cbv zeta.
  assert (existsb staging_failure (calls (Reconcile s)) = true ->
          Requeue (result_ (Reconcile s)) = true
          /\ err (Reconcile s) <> None
          /\ forall m r, ~ In (CallSyncRoutes m r) (calls (Reconcile s)))
    as Hfail.
  { intros H. destruct (Reconcile_failure s H) as (x & e & _ & Hx & He & ->).
    cbn [result_ err calls]. repeat split; try assumption.
    intros m r. apply no_sync_in_staging. apply stage_events. }
  split; [assumption | ].
  intros m r Hin.
  destruct (existsb staging_failure (calls (Reconcile s))) eqn:F.
  - destruct (Hfail eq_refl) as (_ & _ & Hno). destruct (Hno m r Hin).
  - split; [reflexivity | ].
    pose proof (Reconcile_no_failure s F) as E.
    destruct (Reconcile_cases s) as [(x & e & E' & _) | (_ & x & e & _ & ->)];
      [congruence | ].
    cbn [calls]. apply staged_in_full_app.
    + apply stage_complete. assumption.
    + apply syncAndFinish_events.
Qed.

(** C4.  A pass whose staging had no failure calls [SyncRoutes] on the IPv4
    manager.  [SyncRoutes] is called on the IPv6 manager only in a pass
    whose check answered that IPv6 is not globally disabled.  When the check
    answers that it is disabled, the IPv6 manager is not synced, the IPv4
    manager has been, and the pass ends without error and without requeue.
    When the check itself fails the pass ends with that error, asking for a
    requeue, the IPv6 manager not synced.  When the check answers that IPv6
    is enabled, [SyncRoutes] is called on the IPv6 manager.

    And the calls are made, not only logged.  With staging through, the
    IPv4 call is [SyncRoutes] applied to the IPv4 manager as staging left it,
    in the world as staging left it: its answer is the one logged, and the
    hub holds the manager it gave back.  The check is made in the world that
    call left; on "enabled" the IPv6 call is [SyncRoutes] applied to the
    staged IPv6 manager in the world the check left, answer logged and
    manager kept; on "disabled", or when an earlier call failed, the IPv6
    manager is the staged one, untouched.  The world the pass leaves is the
    one its last call left, after the trigger when the pass succeeds. *)
Theorem sync_v4_always_v6_when_enabled (s : St W RM) :
  let p := Reconcile s in
  (existsb staging_failure (calls p) = false ->
   exists r, In (CallSyncRoutes RouteV4 r) (calls p))
  /\ (forall r,
         In (CallSyncRoutes RouteV6 r) (calls p) ->
         In (CallCheckIPv6GlobalDisabled (Ok false)) (calls p))
  /\ (In (CallCheckIPv6GlobalDisabled (Ok true)) (calls p) ->
      (forall r, ~ In (CallSyncRoutes RouteV6 r) (calls p))
      /\ In (CallSyncRoutes RouteV4 (Ok tt)) (calls p)
      /\ result_ p = {| Requeue := false |} /\ err p = None)
  /\ (forall e,
         In (CallCheckIPv6GlobalDisabled (Err e)) (calls p) ->
         (forall r, ~ In (CallSyncRoutes RouteV6 r) (calls p))
         /\ result_ p = {| Requeue := true |}
         /\ err p = Some ("failed to check ipv6 global disabled: " ++ e))
  /\ (In (CallCheckIPv6GlobalDisabled (Ok false)) (calls p) ->
      exists r, In (CallSyncRoutes RouteV6 r) (calls p))
  /\ (existsb staging_failure (calls p) = false ->
      let s1 := post (stage s) in
      let v4 := SyncRoutes (routeV4Manager (hub s1)) (world s1) in
      In (CallSyncRoutes RouteV4 (fst v4)) (calls p)
      /\ routeV4Manager (hub (final p)) = fst (snd v4)
      /\ (forall e,
             fst v4 = Err e ->
             routeV6Manager (hub (final p)) = routeV6Manager (hub s1)
             /\ world (final p) = snd (snd v4))
      /\ (fst v4 = Ok tt ->
          let c := CheckIPv6GlobalDisabled (snd (snd v4)) in
          In (CallCheckIPv6GlobalDisabled (fst c)) (calls p)
          /\ (forall e,
                 fst c = Err e ->
                 routeV6Manager (hub (final p)) = routeV6Manager (hub s1)
                 /\ world (final p) = snd c)
          /\ (fst c = Ok true ->
              routeV6Manager (hub (final p)) = routeV6Manager (hub s1)
              /\ world (final p) = iptablesSyncTrigger (snd c))
          /\ (fst c = Ok false ->
              let v6 := SyncRoutes (routeV6Manager (hub s1)) (snd c) in
              In (CallSyncRoutes RouteV6 (fst v6)) (calls p)
              /\ routeV6Manager (hub (final p)) = fst (snd v6)
              /\ (forall e,
                     fst v6 = Err e -> world (final p) = snd (snd v6))
              /\ (fst v6 = Ok tt ->
                  world (final p) = iptablesSyncTrigger (snd (snd v6))
                  /\ result_ p = {| Requeue := false |}
                  /\ err p = None)))).
Proof.
  cbv zeta. pose proof (stage_events s) as Hst.
  split; [ | split; [ | split; [ | split; [ | split]]]].
  - intros F. pose proof (Reconcile_no_failure s F) as E.
    destruct (Reconcile_cases s) as [(x & e & E' & _) | (_ & x & e & _ & ->)];
      [congruence | ].
    cbn [calls].
    destruct (syncAndFinish_run (post (stage s))); cbn [trace];
      eexists; apply in_or_app; right; left; reflexivity.
  - intros r H. apply Reconcile_event in H.
    destruct H as [[H _] | (_ & _ & H & x & e & _ & ->)]; [discriminate | ].
    cbn [calls]. apply in_or_app. right. revert H.
    destruct (syncAndFinish_run (post (stage s))); cbn [trace In];
      intros Hev; repeat (destruct Hev as [Hev | Hev]; try discriminate);
      tauto.
  - intros H. apply Reconcile_event in H.
    destruct H as [[H _] | (_ & _ & H & x & e & Hr & ->)]; [discriminate | ].
    cbn [calls result_ err]. revert H Hr.
    destruct (syncAndFinish_run (post (stage s))); cbn [trace res In];
      intros Hev Hres;
      repeat (destruct Hev as [Hev | Hev]; try discriminate);
      try contradiction.
    injection Hres as <- <-. repeat split.
    + intros r Hin. apply in_app_or in Hin. destruct Hin as [Hin | Hin].
      * revert Hin. apply no_sync_in_staging. assumption.
      * cbn [In] in Hin.
        repeat (destruct Hin as [Hin | Hin]; try discriminate).
        contradiction.
    + apply in_or_app. right. left. reflexivity.
  - intros e0 H. apply Reconcile_event in H.
    destruct H as [[H _] | (_ & _ & H & x & e & Hr & ->)]; [discriminate | ].
    cbn [calls result_ err]. revert H Hr.
    destruct (syncAndFinish_run (post (stage s))); cbn [trace res In];
      intros Hev Hres;
      repeat (destruct Hev as [Hev | Hev]; try discriminate);
      try contradiction.
    injection Hev as <-. injection Hres as <- <-. repeat split.
    intros r Hin. apply in_app_or in Hin. destruct Hin as [Hin | Hin].
    + revert Hin. apply no_sync_in_staging. assumption.
    + cbn [In] in Hin.
      repeat (destruct Hin as [Hin | Hin]; try discriminate).
      contradiction.
  - intros H. apply Reconcile_event in H.
    destruct H as [[H _] | (_ & _ & H & x & e & _ & ->)]; [discriminate | ].
    cbn [calls]. revert H.
    destruct (syncAndFinish_run (post (stage s))); cbn [trace In];
      intros Hev; repeat (destruct Hev as [Hev | Hev]; try discriminate);
      try contradiction;
      eexists; apply in_or_app; right; cbn [In]; right; right; left;
      reflexivity.
  - intros F. pose proof (Reconcile_no_failure s F) as E.
    destruct (Reconcile_cases s) as [(x & e & E' & _) | (_ & x & e & Hr & ->)];
      [congruence | ].
    cbn [calls final result_ err]. revert Hr.
    destruct (syncAndFinish_run (post (stage s))) as
        [e0 rm4 w1 E4 | rm4 w1 e0 w2 E4 EC | rm4 w1 w2 E4 EC
         | rm4 w1 w2 e0 rm6 w3 E4 EC E6 | rm4 w1 w2 rm6 w3 E4 EC E6];
      cbn [trace post res hub world synced set_manager routeV4Manager
           routeV6Manager];
      intros Hr; injection Hr as <- <-; rewrite E4; cbn [fst snd];
      (split; [apply in_or_app; right; left; reflexivity | ]);
      (split; [reflexivity | ]);
      (split; [intros e1 He1; try discriminate He1; auto | ]);
      intros Hok; try discriminate Hok;
      rewrite EC; cbn [fst snd];
      (split; [apply in_or_app; right; right; left; reflexivity | ]);
      (split; [intros e1 He1; try discriminate He1; auto | ]);
      (split; [intros Ht; try discriminate Ht; auto | ]);
      intros Hf; try discriminate Hf;
      rewrite E6; cbn [fst snd];
      (split; [apply in_or_app; right; right; right; left; reflexivity | ]);
      (split; [reflexivity | ]);
      (split; [intros e1 He1; try discriminate He1; auto | ]);
      intros H6; try discriminate H6; auto.
Qed.

(** C5.  Every [AddSubnetInfo] call of a pass carries the record of a listed
    subnet and is made on the manager selected for the IP version of that
    subnet's range; every [AddRemoteSubnetInfo] call carries the record of a
    listed remote subnet and is made on the manager selected for the version
    of its range; and the selection sends different versions to different
    managers.

    And the records are in the managers the hub holds when the pass is over.
    After a successful listing there are the subnets the pass got to, each
    a listed one with its record, and the remote subnets it got to, with
    theirs, such that the [Add] calls of the pass are exactly those of
    these objects, in order, and for each IP version [v] the manager
    selected for [v] holds what [ResetInfos] left of its earlier content,
    then the records of the subnets whose range has version [v], then the
    records of the remote subnets whose range has version [v] - and of no
    other object.  That is the manager in the final hub when the pass did
    not sync it; when it did, [SyncRoutes] was called on exactly that
    content, and the final hub holds what [SyncRoutes] gave back. *)
Theorem records_go_to_the_manager_of_their_version (s : St W RM) :
  let p := Reconcile s in
  (forall m info,
      In (CallAddSubnetInfo m info) (calls p) ->
      exists items w1 subnet,
        List_Subnets (world s) = (Ok items, w1)
        /\ In subnet items
        /\ subnet_record subnet (m, info)
        /\ m = getRouterManager (Version (Range (Spec subnet))))
  /\ (forall m info r,
         In (CallAddRemoteSubnetInfo m info r) (calls p) ->
         exists ritems remoteSubnet,
           In (CallList_RemoteSubnets (Ok ritems)) (calls p)
           /\ In remoteSubnet ritems
           /\ remote_record remoteSubnet (m, info)
           /\ m = getRouterManager
                    (Version (rs_Range (rs_Spec remoteSubnet))))
  /\ (forall v1 v2, getRouterManager v1 = getRouterManager v2 -> v1 = v2)
  /\ (forall items w1,
      List_Subnets (world s) = (Ok items, w1) ->
      exists done rdone,
        subnetAdds (calls p) = map placedSubnet done
        /\ remoteAdds (calls p) = map placedRemote rdone
        /\ Forall (fun xi => In (fst xi) items
                             /\ subnet_record (fst xi) (placedSubnet xi)) done
        /\ Forall (fun xi => remote_record (fst xi) (placedRemote xi)) rdone
        /\ forall v,
            let m := getRouterManager v in
            let content := stagedContent v done rdone (manager m (hub s)) in
            ((forall r, ~ In (CallSyncRoutes m r) (calls p)) ->
             manager m (hub (final p)) = content)
            /\ (forall r,
                   In (CallSyncRoutes m r) (calls p) ->
                   exists w,
                     r = fst (SyncRoutes content w)
                     /\ manager m (hub (final p))
                        = fst (snd (SyncRoutes content w)))).
Proof.
  cbv zeta. split; [ | split; [ | split]].
  - intros m info H. apply Reconcile_event in H.
    destruct H as [[_ H] | (H & _)]; [ | discriminate].
    apply stage_event_origin in H.
    destruct H as (l & w1 & L & [H | (items & -> & [H | [H | [H | H]]])]);
      try discriminate.
    + destruct H as (x & s0 & Hx & H).
      exists items, w1, x. split; [assumption | ]. split; [assumption | ].
      assert (subnet_record x (m, info)) as Hrec.
      { destruct (reconcileSubnet_turn x s0); cbn [trace In] in H;
          repeat (destruct H as [H | H]; try discriminate);
          try contradiction;
          injection H as <- <-; (split; [reflexivity | ]);
          do 5 eexists; (split; [eassumption | reflexivity]). }
      split; [assumption | apply Hrec].
    + destruct H as (s1 & H).
      pose proof (reconcileRemoteSubnets_events s1) as He.
      rewrite Forall_forall in He. specialize (He _ H). discriminate.
  - intros m info r H.
    assert (In (CallAddRemoteSubnetInfo m info r) (trace (stage s))) as Hst.
    { apply Reconcile_event in H.
      destruct H as [[_ H] | (H & _)]; [assumption | discriminate]. }
    assert (forall ev, In ev (trace (stage s)) ->
                       In ev (calls (Reconcile s))) as Hsub.
    { intros ev Hev.
      destruct (Reconcile_cases s)
        as [(x & e & _ & ->) | (_ & x & e & _ & ->)]; cbn [calls].
      - assumption.
      - apply in_or_app. left. assumption. }
    assert (exists s1, In (CallAddRemoteSubnetInfo m info r)
                          (trace (reconcileRemoteSubnets s1))
                       /\ forall ev, In ev (trace (reconcileRemoteSubnets s1))
                                     -> In ev (trace (stage s))) as Hrem.
    { destruct (List_Subnets (world s)) as [[items | e] w1] eqn:L.
      - rewrite (stage_listed s items w1 L) in Hst |- *.
        set (r1 := forEach reconcileSubnet items (afterReset s w1)) in *.
        pose proof (forEach_events _ reconcileSubnet reconcileSubnet_events
                      items (afterReset s w1)) as Hev.
        fold r1 in Hev. rewrite Forall_forall in Hev.
        destruct (res r1); cbn [trace In] in Hst |- *.
        + destruct Hst as [Hst | [Hst | [Hst | Hst]]]; try discriminate.
          apply in_app_or in Hst. destruct Hst as [Hst | Hst].
          * specialize (Hev _ Hst). discriminate.
          * exists (post r1). split; [assumption | ].
            intros ev Hin. right. right. right. apply in_or_app. right.
            assumption.
        + destruct Hst as [Hst | [Hst | [Hst | Hst]]]; try discriminate.
          specialize (Hev _ Hst). discriminate.
      - rewrite (stage_list_failed s e w1 L) in Hst. cbn [trace In] in Hst.
        destruct Hst as [Hst | []]. discriminate. }
    destruct Hrem as (s1 & Hin & Hup).
    destruct MultiClusterEnabled eqn:EM.
    2: { rewrite (reconcileRemoteSubnets_off s1 EM) in Hin. contradiction. }
    destruct (List_RemoteSubnets (world s1)) as [[ritems | e] w2] eqn:L.
    + rewrite (reconcileRemoteSubnets_listed s1 ritems w2 EM L) in Hin, Hup.
      cbn [trace In] in Hin, Hup.
      destruct Hin as [Hin | Hin]; [discriminate | ].
      apply forEach_event_origin in Hin.
      destruct Hin as (x & s0 & Hx & Hin).
      exists ritems, x. split; [apply Hsub, Hup; left; reflexivity | ].
      split; [assumption | ].
      assert (remote_record x (m, info)) as Hrec.
      { destruct (reconcileRemoteSubnet_turn x s0); cbn [trace In] in Hin;
          repeat (destruct Hin as [Hin | Hin]; try discriminate);
          try contradiction;
          injection Hin as <- <- _; (split; [reflexivity | ]);
          eexists; (split; [eassumption | reflexivity]). }
      split; [assumption | apply Hrec].
    + rewrite (reconcileRemoteSubnets_list_failed s1 e w2 EM L) in Hin.
      cbn [trace In] in Hin. destruct Hin as [Hin | []]. discriminate.
  - intros [] []; simpl; congruence.
  - intros items w1 L.
    destruct (stage_placed s items w1 L)
      as (done & rdone & Ha & Hb & Hf & Hg & Hm).
    exists done, rdone.
    assert (forall v,
               manager (getRouterManager v) (hub (post (stage s)))
               = stagedContent v done rdone
                               (manager (getRouterManager v) (hub s)))
      as Hv.
    { intros v. unfold stagedContent.
      rewrite <- subnetsIn_version, <- remoteSubnetsIn_version. apply Hm. }
    pose proof (stage_events s) as Hst.
    destruct (Reconcile_cases s)
      as [(x & e & E & ->) | (E & x & e & _ & ->)]; cbn [calls final].
    + split; [assumption | ]. split; [assumption | ].
      split; [assumption | ]. split; [assumption | ].
      intros v. split; [intros _; apply Hv | ].
      intros r Hin. exfalso. revert Hin.
      apply no_sync_in_staging. assumption.
    + pose proof (syncAndFinish_events (post (stage s))) as Hsy.
      rewrite subnetAdds_app, remoteAdds_app,
        (subnetAdds_after_staging _ Hsy), (remoteAdds_after_staging _ Hsy),
        !app_nil_r.
      split; [assumption | ]. split; [assumption | ].
      split; [assumption | ]. split; [assumption | ].
      intros v. rewrite <- Hv.
      destruct (syncAndFinish_manager (post (stage s)) (getRouterManager v))
        as [(Hno & Heq) | (w & Hall & Hin & Heq)].
      * split; [intros _; exact Heq | ].
        intros r Hin. exfalso. apply in_app_or in Hin.
        destruct Hin as [Hin | Hin].
        -- revert Hin. apply no_sync_in_staging. assumption.
        -- apply (Hno _ Hin).
      * split.
        -- intros Hnone. exfalso. eapply Hnone.
           apply in_or_app. right. exact Hin.
        -- intros r Hr. exists w. split; [ | exact Heq].
           apply Hall. apply in_app_or in Hr. destruct Hr as [Hr | Hr].
           ++ exfalso. revert Hr. apply no_sync_in_staging. assumption.
           ++ assumption.
Qed.

(** C6.  A pass lists or registers remote subnets only with multi-cluster
    federation enabled; and a pass in which [AddRemoteSubnetInfo] refuses a
    remote subnet ends with the error of that refusal, asking for a requeue,
    without any [SyncRoutes] call. *)
Theorem remote_subnets_only_when_enabled_and_refusal_aborts (s : St W RM) :
  let p := Reconcile s in
  (forall ev,
      In ev (calls p) -> is_remote ev = true -> MultiClusterEnabled = true)
  /\ (forall m info e,
         In (CallAddRemoteSubnetInfo m info (Err e)) (calls p) ->
         result_ p = {| Requeue := true |}
         /\ err p = Some ("failed to add remote subnet info: " ++ e)
         /\ forall m' r, ~ In (CallSyncRoutes m' r) (calls p)).
Proof.
  cbv zeta. split.
  - intros ev H Hrem. destruct MultiClusterEnabled eqn:EM; [reflexivity | ].
    apply Reconcile_event in H. destruct H as [[_ H] | (H & _)].
    + pose proof (stage_no_remote s EM) as Hno.
      rewrite Forall_forall in Hno. specialize (Hno _ H). congruence.
    + destruct ev; simpl in *; discriminate.
  - intros m info e H.
    assert (existsb staging_failure (calls (Reconcile s)) = true) as F.
    { apply existsb_exists. eexists. split; [exact H | reflexivity]. }
    destruct (Reconcile_failure s F) as (x & e' & E & _ & _ & Hp).
    rewrite Hp in H |- *. cbn [calls result_ err] in H |- *.
    rewrite (stage_remote_refused s m info e H) in E.
    injection E as <- <-. repeat split.
    intros m' r. apply no_sync_in_staging. apply stage_events.
Qed.

End PassClaims.

Section ResetClaim.
Context {W RM : Type} `{C : Collaborators W RM}.

Lemma no_reset_in (t : list Event) (P : Event -> Prop) :
  Forall P t ->
  (forall ev, P ev ->
              is_ResetInfos RouteV4 ev = false
              /\ is_ResetInfos RouteV6 ev = false) ->
  Forall (fun ev => is_ResetInfos RouteV4 ev = false
                    /\ is_ResetInfos RouteV6 ev = false) t.
Proof.
  intros H HP. revert H. apply Forall_impl. assumption.
Qed.

Lemma count_none (p : Event -> bool) (t : list Event) :
  Forall (fun ev => p ev = false) t -> count p t = 0.
Proof.
  unfold count. induction 1 as [| ev t H _ IH]; simpl; [reflexivity | ].
  rewrite H. assumption.
Qed.

(** After a successful listing the trace starts with the listing and the
    two resets, and has no other reset. *)
Lemma Reconcile_starts_with_resets (s : St W RM) (items : list Subnet)
      (w1 : W) :
  List_Subnets (world s) = (Ok items, w1) ->
  exists rest,
    calls (Reconcile s)
    = CallList_Subnets (Ok items) :: CallResetInfos RouteV4
      :: CallResetInfos RouteV6 :: rest
    /\ Forall (fun ev => is_ResetInfos RouteV4 ev = false
                         /\ is_ResetInfos RouteV6 ev = false) rest.
Proof.
  intros L.
  assert (Forall (fun ev => is_ResetInfos RouteV4 ev = false
                            /\ is_ResetInfos RouteV6 ev = false)
                 (trace (forEach reconcileSubnet items (afterReset s w1))))
    as H1.
  { apply (no_reset_in _ _ (forEach_events _ reconcileSubnet
                              reconcileSubnet_events items
                              (afterReset s w1))).
    intros ev; destruct ev; simpl; intros; try discriminate; auto. }
  assert (forall s1,
             Forall (fun ev => is_ResetInfos RouteV4 ev = false
                               /\ is_ResetInfos RouteV6 ev = false)
                    (trace (reconcileRemoteSubnets s1))) as H2.
  { intros s1. apply (no_reset_in _ _ (reconcileRemoteSubnets_events s1)).
    intros ev; destruct ev; simpl; intros; try discriminate; auto. }
  assert (forall s1,
             Forall (fun ev => is_ResetInfos RouteV4 ev = false
                               /\ is_ResetInfos RouteV6 ev = false)
                    (trace (syncAndFinish s1))) as H3.
  { intros s1. apply (no_reset_in _ _ (syncAndFinish_events s1)).
    intros ev [Hev _]; destruct ev; simpl in *; try discriminate; auto. }
  assert (exists rest0,
             trace (stage s)
             = CallList_Subnets (Ok items) :: CallResetInfos RouteV4
               :: CallResetInfos RouteV6 :: rest0
             /\ Forall (fun ev => is_ResetInfos RouteV4 ev = false
                                  /\ is_ResetInfos RouteV6 ev = false)
                       rest0) as (rest0 & Hst & Hrest0).
  { rewrite (stage_listed s items w1 L).
    destruct (res (forEach reconcileSubnet items (afterReset s w1)));
      cbn [trace]; eexists; (split; [reflexivity | ]).
    - apply Forall_app. split; [exact H1 | apply H2].
    - exact H1. }
  destruct (Reconcile_cases s)
    as [(x & e & E & ->) | (E & x & e & _ & ->)]; cbn [calls];
    rewrite Hst.
  - exists rest0. split; [reflexivity | assumption].
  - exists (rest0 ++ trace (syncAndFinish (post (stage s))))%list.
    split; [reflexivity | ].
    apply Forall_app. split; [assumption | apply H3].
Qed.

(** C9, amended.  In a pass whose listing of the subnets succeeds,
    [ResetInfos] is called exactly once on each of the two managers, right
    after the listing and before every other call of the pass; every
    [AddSubnetInfo] or [AddRemoteSubnetInfo] call has exactly one reset of
    each manager before it; and the pass depends on what the managers held
    before only through [ResetInfos].  In a pass whose
    listing fails, the listing is the only call: [ResetInfos] is not called
    and the hub is left as it was. *)
Theorem ResetInfos_once_after_a_successful_listing (s : St W RM) :
  let p := Reconcile s in
  (forall items w1,
      List_Subnets (world s) = (Ok items, w1) ->
      (exists rest,
          calls p = CallList_Subnets (Ok items) :: CallResetInfos RouteV4
                    :: CallResetInfos RouteV6 :: rest
          /\ Forall (fun ev => is_ResetInfos RouteV4 ev = false
                               /\ is_ResetInfos RouteV6 ev = false) rest)
      /\ count (is_ResetInfos RouteV4) (calls p) = 1
      /\ count (is_ResetInfos RouteV6) (calls p) = 1
      /\ forall s',
          world s' = world s ->
          config (hub s') = config (hub s) ->
          (forall m, ResetInfos (manager m (hub s'))
                     = ResetInfos (manager m (hub s))) ->
          Reconcile s' = Reconcile s)
  /\ (forall items w1 pre ev rest,
         List_Subnets (world s) = (Ok items, w1) ->
         calls p = (pre ++ ev :: rest)%list ->
         is_Add ev = true ->
         count (is_ResetInfos RouteV4) pre = 1
         /\ count (is_ResetInfos RouteV6) pre = 1)
  /\ (forall e w1,
         List_Subnets (world s) = (Err e, w1) ->
         calls p = [CallList_Subnets (Err e)]
         /\ count (is_ResetInfos RouteV4) (calls p) = 0
         /\ count (is_ResetInfos RouteV6) (calls p) = 0
         /\ hub (final p) = hub s).
Proof.
  cbv zeta. pose proof (Reconcile_starts_with_resets s) as Hshape.
  split; [ | split].
  - intros items w1 L. specialize (Hshape items w1 L).
    split; [assumption | ].
    destruct Hshape as (rest & -> & Hrest).
    assert (count (is_ResetInfos RouteV4) rest = 0) as C4.
    { apply count_none. revert Hrest. apply Forall_impl. tauto. }
    assert (count (is_ResetInfos RouteV6) rest = 0) as C6.
    { apply count_none. revert Hrest. apply Forall_impl. tauto. }
    unfold count in *. simpl. rewrite C4, C6.
    split; [reflexivity | ]. split; [reflexivity | ].
    intros s' Hw Hc Hm.
    assert (stage s' = stage s) as Hst.
    { assert (List_Subnets (world s') = (Ok items, w1)) as L'
          by (rewrite Hw; assumption).
      rewrite (stage_listed s items w1 L), (stage_listed s' items w1 L').
      assert (afterReset s' w1 = afterReset s w1) as ->; [ | reflexivity].
      pose proof (Hm RouteV4) as Hm4. pose proof (Hm RouteV6) as Hm6.
      unfold afterReset. cbn [manager set_manager config routeV4Manager
                               routeV6Manager] in *.
      rewrite Hc, Hm4, Hm6. reflexivity. }
    unfold Reconcile, Reconcile_body, bind. rewrite Hst. reflexivity.
  - intros items w1 pre ev post L Hsplit Hadd.
    destruct (Hshape items w1 L) as (rest & Heq & Hrest).
    rewrite Heq in Hsplit.
    destruct pre as [| a [| b [| c pre']]]; cbn [app] in Hsplit;
      injection Hsplit; intros; subst; try discriminate Hadd.
    apply Forall_app in Hrest. destruct Hrest as [Hpre _].
    assert (count (is_ResetInfos RouteV4) pre' = 0) as C4.
    { apply count_none. revert Hpre. apply Forall_impl. tauto. }
    assert (count (is_ResetInfos RouteV6) pre' = 0) as C6.
    { apply count_none. revert Hpre. apply Forall_impl. tauto. }
    unfold count in *. simpl. rewrite C4, C6. split; reflexivity.
  - intros e w1 L.
    destruct (Reconcile_cases s)
      as [(x & e' & E & ->) | (E & x & e' & _ & ->)];
      rewrite (stage_list_failed s e w1 L) in E |- *;
      [ | discriminate].
    cbn. auto.
Qed.

End ResetClaim.

(** * One turn of the loop over the subnets *)

Section TurnClaims.
Context {W RM : Type} `{C : Collaborators W RM}.

(** In the hypotheses of a case, the network is the one the store gave. *)
Ltac same_network G :=
  try match goal with
      | G' : Get_Network _ _ = (_, _) |- _ =>
          tryif constr_eq G' G then fail
          else (rewrite G in G';
                first [discriminate G' | injection G' as <- <-])
      end.

Ltac pick_event H :=
  cbn [trace In] in H;
  repeat (destruct H as [H | H]; try discriminate); try contradiction.

(** C2.  The record a turn registers has [isUnderlayOnHost] set exactly when
    the type of the subnet's network is Underlay and the configured node
    name is in the node list of the network's status; for a network of type
    Overlay it is not set. *)
Theorem isUnderlayOnHost_iff_underlay_and_member
        (subnet : Subnet) (s : St W RM) (network : Network) (w1 : W)
        (m : ManagerRef) (info : SubnetInfo) :
  Get_Network (Network_ (Spec subnet)) (world s) = (Ok network, w1) ->
  In (CallAddSubnetInfo m info) (trace (reconcileSubnet subnet s)) ->
  (isUnderlayOnHost info = true <->
   GetNetworkType network = NetworkTypeUnderlay
   /\ In (NodeName (config (hub s))) (NodeList (net_Status network)))
  /\ (GetNetworkType network = NetworkTypeOverlay ->
      isUnderlayOnHost info = false).
Proof.
  intros G Hin.
  destruct (reconcileSubnet_turn subnet s); pick_event Hin; same_network G;
    injection Hin as <- <-; cbn [isUnderlayOnHost subnetInfoOf];
    rewrite <- underlayOnHost_iff.
  - split; [tauto | congruence].
  - split; [ | reflexivity]. split; [discriminate | congruence].
  - split; [ | reflexivity].
    rewrite (underlayOnHost_other network) by congruence. tauto.
  - split; [ | reflexivity].
    rewrite (underlayOnHost_other network) by congruence. tauto.
Qed.

(** C3.  The NetID a turn hands to the interface helpers is the subnet's own
    whenever that is set, whatever the network's is, and the network's when
    the subnet's is not set. *)
Theorem netID_of_the_subnet_else_of_the_network
        (subnet : Subnet) (s : St W RM) (network : Network) (w1 : W)
        (dev : string) (netID : option NetID) (r : result string) :
  Get_Network (Network_ (Spec subnet)) (world s) = (Ok network, w1) ->
  In (CallEnsureVlanIf dev netID r) (trace (reconcileSubnet subnet s))
  \/ In (CallGenerateVxlanNetIfName dev netID r)
        (trace (reconcileSubnet subnet s)) ->
  netID = resolveNetID subnet network
  /\ (forall n, NetID_ (Spec subnet) = Some n -> netID = Some n)
  /\ (NetID_ (Spec subnet) = None -> netID = net_NetID (net_Spec network)).
Proof.
  intros G Hin.
  assert (netID = resolveNetID subnet network) as ->.
  { destruct (reconcileSubnet_turn subnet s); destruct Hin as [Hin | Hin];
      pick_event Hin; same_network G; injection Hin as _ <- _; reflexivity. }
  split; [reflexivity | ]. unfold resolveNetID.
  split; [intros n -> | intros ->]; reflexivity.
Qed.

(** C7.  For a subnet whose network has type Overlay, the record a turn
    registers has [isOverlay] set, [autoNatOutgoing] equal to the subnet's
    NAT flag, and as forwarding interface the name generated from the
    configured VXLAN device and the resolved NetID; the turn does not call
    [EnsureVlanIf], and leaves the world as getting the network left it. *)
Theorem overlay_record
        (subnet : Subnet) (s : St W RM) (network : Network) (w1 : W)
        (m : ManagerRef) (info : SubnetInfo) :
  Get_Network (Network_ (Spec subnet)) (world s) = (Ok network, w1) ->
  GetNetworkType network = NetworkTypeOverlay ->
  In (CallAddSubnetInfo m info) (trace (reconcileSubnet subnet s)) ->
  isOverlay info = true
  /\ autoNatOutgoing info = IsSubnetAutoNatOutgoing (Spec subnet)
  /\ GenerateVxlanNetIfName (NodeVxlanIfName (config (hub s)))
                            (resolveNetID subnet network)
     = Ok (forwardNodeIfName info)
  /\ (forall ev, In ev (trace (reconcileSubnet subnet s)) ->
                 is_EnsureVlanIf ev = false)
  /\ world (post (reconcileSubnet subnet s)) = w1.
Proof.
  intros G T Hin.
  destruct (reconcileSubnet_turn subnet s); pick_event Hin; same_network G;
    try congruence.
  injection Hin as <- <-. cbn [isOverlay autoNatOutgoing forwardNodeIfName
                               subnetInfoOf post world trace].
  repeat split; try assumption.
  intros ev Hev. cbn [In] in Hev.
  repeat (destruct Hev as [<- | Hev]; try reflexivity). contradiction.
Qed.

(** C10.  For a subnet whose network has type Underlay, the record a turn
    registers has neither [isOverlay] nor [autoNatOutgoing] set, whatever
    the subnet's NAT flag is. *)
Theorem underlay_record_has_no_nat
        (subnet : Subnet) (s : St W RM) (network : Network) (w1 : W)
        (m : ManagerRef) (info : SubnetInfo) :
  Get_Network (Network_ (Spec subnet)) (world s) = (Ok network, w1) ->
  GetNetworkType network = NetworkTypeUnderlay ->
  In (CallAddSubnetInfo m info) (trace (reconcileSubnet subnet s)) ->
  isOverlay info = false /\ autoNatOutgoing info = false.
Proof.
  intros G T Hin.
  destruct (reconcileSubnet_turn subnet s); pick_event Hin; same_network G;
    try congruence; injection Hin as <- <-; split; reflexivity.
Qed.

(** C8, amended.  Take a subnet of an underlay network, a node in the node
    list of the network and a node that is not, on the same world.  If the
    turn on the member node registers a record, the turn on the other node
    goes on as well, registers on the same manager the same record except
    that [isUnderlayOnHost] is not set and the forwarding interface name is
    empty, and does not call [EnsureVlanIf]. *)
Theorem non_member_registers_without_an_interface
        (subnet : Subnet) (s1 s2 : St W RM) (network : Network) (w1 : W)
        (m : ManagerRef) (info1 : SubnetInfo) :
  world s2 = world s1 ->
  Get_Network (Network_ (Spec subnet)) (world s1) = (Ok network, w1) ->
  GetNetworkType network = NetworkTypeUnderlay ->
  In (NodeName (config (hub s1))) (NodeList (net_Status network)) ->
  ~ In (NodeName (config (hub s2))) (NodeList (net_Status network)) ->
  In (CallAddSubnetInfo m info1) (trace (reconcileSubnet subnet s1)) ->
  res (reconcileSubnet subnet s2) = Next tt
  /\ subnetAdds (trace (reconcileSubnet subnet s2))
     = [(m, set_forwardNodeIfName "" (set_isUnderlayOnHost false info1))]
  /\ forall ev, In ev (trace (reconcileSubnet subnet s2)) ->
                is_EnsureVlanIf ev = false.
Proof.
  intros Hw G T Hmem Hnot Hin.
  assert (underlayOnHost network (NodeName (config (hub s1))) = true) as H1
      by (apply underlayOnHost_iff; auto).
  assert (underlayOnHost network (NodeName (config (hub s2))) = false) as H2.
  { destruct (underlayOnHost network (NodeName (config (hub s2)))) eqn:E;
      [ | reflexivity].
    apply underlayOnHost_iff in E. tauto. }
  destruct (reconcileSubnet_turn subnet s1); pick_event Hin; same_network G;
    try congruence.
  injection Hin as <- <-.
  rewrite <- Hw in *.
  destruct (reconcileSubnet_turn subnet s2); same_network G; try congruence.
  match goal with
  | P : parseSubnetSpecRangeMeta _ = Ok ?a,
    P' : parseSubnetSpecRangeMeta _ = Ok ?b |- _ =>
      rewrite P in P'; injection P' as <-
  end.
  cbn [res trace subnetAdds]. repeat split.
  intros ev Hev. cbn [In] in Hev.
  repeat (destruct Hev as [<- | Hev]; try reflexivity). contradiction.
Qed.

End TurnClaims.

(** * The scenarios, run *)

Module Runs.
Import Sample Scenario.

Ltac found := cbn [In]; repeat (first [left; reflexivity | right]).

(** Scenario A, on the member node. *)
Example scenario_A :
  subnetAdds (calls (Reconcile (C := single) (node "node-1" underlayOnly)))
  = [(RouteV4, infoA_member)]
  /\ links (world (final (Reconcile (C := single)
                                    (node "node-1" underlayOnly))))
     = ["eth0.10"].
Proof. vm_compute. split; reflexivity. Qed.

(** Scenario C: the overlay subnet gets its tunnel interface name without
    any link being made on the host. *)
Example scenario_C :
  subnetAdds (trace (reconcileSubnet (C := federated) subnetO
                                     (node "node-1" dualStack)))
  = [(RouteV4, infoO)]
  /\ links (world (post (reconcileSubnet (C := federated) subnetO
                                          (node "node-1" dualStack))))
     = [].
Proof. vm_compute. split; reflexivity. Qed.

(** Scenario E: with IPv6 globally disabled the kernel gets the IPv4 state
    and the pass succeeds. *)
Example scenario_E :
  let p := Reconcile (C := single) (node "node-1" underlayOnly) in
  result_ p = {| Requeue := false |} /\ err p = None
  /\ subnetInfos (kernelV4 (world (final p))) = [infoA_member]
  /\ iptablesSyncs (world (final p)) = 1.
Proof. vm_compute. repeat split; reflexivity. Qed.

(** C8 as stated fails: on the node outside the node list the record differs
    from the member's in the forwarding interface name as well, not only in
    [isUnderlayOnHost]. *)
Lemma non_member_record_differs_in_interface_name :
  subnetAdds (trace (reconcileSubnet (C := single) subnetA
                                     (node "node-1" underlayOnly)))
  = [(RouteV4, infoA_member)]
  /\ subnetAdds (trace (reconcileSubnet (C := single) subnetA
                                        (node "node-2" underlayOnly)))
     = [(RouteV4, infoA_elsewhere)]
  /\ infoA_elsewhere <> set_isUnderlayOnHost false infoA_member.
Proof.
  split; [vm_compute; reflexivity | ].
  split; [vm_compute; reflexivity | ].
  vm_compute. discriminate.
Qed.

(** C9 as stated fails: when the subnets cannot be listed the pass calls
    [ResetInfos] on neither manager, and what the earlier pass staged is
    still there. *)
Lemma listing_failure_skips_ResetInfos :
  let p := Reconcile (C := federated) (node "node-1" unreachable) in
  count (is_ResetInfos RouteV4) (calls p) <> 1
  /\ count (is_ResetInfos RouteV6) (calls p) <> 1
  /\ routeV4Manager (hub (final p)) = staleManager
  /\ subnetInfos staleManager <> [].
Proof.
  vm_compute. repeat split; discriminate.
Qed.

Lemma failed_staging_never_syncs_witness :
  let p := Reconcile (C := federated) (node "node-1" malformed) in
  existsb staging_failure (calls p) = true
  /\ Requeue (result_ p) = true /\ err p <> None
  /\ forall m r, ~ In (CallSyncRoutes m r) (calls p).
Proof.
  cbv zeta. split; [vm_compute; reflexivity | ].
  apply (proj1 (failed_staging_never_syncs (C := federated)
                  (node "node-1" malformed))).
  vm_compute. reflexivity.
Defined.

Lemma sync_v4_always_v6_when_enabled_witness :
  (let p := Reconcile (C := single) (node "node-1" underlayOnly) in
   In (CallCheckIPv6GlobalDisabled (Ok true)) (calls p)
   /\ (forall r, ~ In (CallSyncRoutes RouteV6 r) (calls p))
   /\ In (CallSyncRoutes RouteV4 (Ok tt)) (calls p)
   /\ result_ p = {| Requeue := false |} /\ err p = None)
  /\ (let p := Reconcile (C := federated) (node "node-1" dualStack) in
      existsb staging_failure (calls p) = false
      /\ In (CallSyncRoutes RouteV4 (Ok tt)) (calls p)
      /\ In (CallCheckIPv6GlobalDisabled (Ok false)) (calls p)
      /\ In (CallSyncRoutes RouteV6 (Ok tt)) (calls p)
      /\ routeV4Manager (hub (final p))
         = {| family := IPv4; subnetInfos := [infoA_member; infoO];
              remoteSubnetInfos := [Scenario2.infoR2] |}
      /\ routeV6Manager (hub (final p))
         = {| family := IPv6; subnetInfos := [infoO6];
              remoteSubnetInfos := [] |}
      /\ kernelV4 (world (final p)) = routeV4Manager (hub (final p))
      /\ kernelV6 (world (final p)) = routeV6Manager (hub (final p))
      /\ iptablesSyncs (world (final p)) = 1
      /\ result_ p = {| Requeue := false |} /\ err p = None).
Proof.
  cbv zeta. split.
  - assert (In (CallCheckIPv6GlobalDisabled (Ok true))
               (calls (Reconcile (C := single) (node "node-1" underlayOnly))))
      as H by (vm_compute; found).
    split; [exact H | ].
    exact (proj1 (proj2 (proj2 (sync_v4_always_v6_when_enabled
                                  (C := single) (node "node-1" underlayOnly))))
                 H).
  - assert (existsb staging_failure
                    (calls (Reconcile (C := federated)
                                      (node "node-1" dualStack))) = false)
      as H by (vm_compute; reflexivity).
    split; [exact H | ].
    destruct (proj2 (proj2 (proj2 (proj2 (proj2
               (sync_v4_always_v6_when_enabled
                  (C := federated) (node "node-1" dualStack)))))) H)
      as (Hv4 & Hm4 & _ & Hok).
    destruct (Hok eq_refl) as (Hc & _ & _ & Hon).
    destruct (Hon eq_refl) as (Hv6 & Hm6 & _ & Hend).
    destruct (Hend eq_refl) as (Hw & Hr & He).
    split; [exact Hv4 | ].
    split; [exact Hc | ].
    split; [exact Hv6 | ].
    split; [rewrite Hm4; vm_compute; reflexivity | ].
    split; [rewrite Hm6; vm_compute; reflexivity | ].
    rewrite Hm4, Hm6, Hw.
    split; [vm_compute; reflexivity | ].
    split; [vm_compute; reflexivity | ].
    split; [vm_compute; reflexivity | ].
    split; [exact Hr | exact He].
Defined.

Lemma records_go_to_the_manager_of_their_version_witness :
  (let p := Reconcile (C := federated) (node "node-1" dualStack) in
   In (CallAddSubnetInfo RouteV6 infoO6) (calls p)
   /\ exists items w1 subnet,
       List_Subnets (Collaborators := federated)
                    (world (node "node-1" dualStack)) = (Ok items, w1)
       /\ In subnet items
       /\ subnet_record (C := federated) subnet (RouteV6, infoO6)
       /\ RouteV6 = getRouterManager (Version (Range (Spec subnet))))
  /\ (let p := Reconcile (C := federated) (node "node-1" dualStack) in
      List_Subnets (Collaborators := federated)
                   (world (node "node-1" dualStack))
      = (Ok allSubnets, dualStack)
      /\ In (CallSyncRoutes RouteV4 (Ok tt)) (calls p)
      /\ In (CallSyncRoutes RouteV6 (Ok tt)) (calls p)
      /\ manager RouteV4 (hub (final p))
         = {| family := IPv4; subnetInfos := [infoA_member; infoO];
              remoteSubnetInfos := [Scenario2.infoR2] |}
      /\ manager RouteV6 (hub (final p))
         = {| family := IPv6; subnetInfos := [infoO6];
              remoteSubnetInfos := [] |}).
Proof.
  cbv zeta. split.
  - assert (In (CallAddSubnetInfo RouteV6 infoO6)
               (calls (Reconcile (C := federated) (node "node-1" dualStack))))
      as H by (vm_compute; found).
    split; [exact H | ].
    exact (proj1 (records_go_to_the_manager_of_their_version
                    (C := federated) (node "node-1" dualStack))
                 RouteV6 infoO6 H).
  - assert (List_Subnets (Collaborators := federated)
                         (world (node "node-1" dualStack))
            = (Ok allSubnets, dualStack)) as HL by reflexivity.
    assert (In (CallSyncRoutes RouteV4 (Ok tt))
               (calls (Reconcile (C := federated) (node "node-1" dualStack))))
      as H4 by (vm_compute; found).
    assert (In (CallSyncRoutes RouteV6 (Ok tt))
               (calls (Reconcile (C := federated) (node "node-1" dualStack))))
      as H6 by (vm_compute; found).
    split; [exact HL | ].
    split; [exact H4 | ].
    split; [exact H6 | ].
    destruct (proj2 (proj2 (proj2
               (records_go_to_the_manager_of_their_version
                  (C := federated) (node "node-1" dualStack))))
               allSubnets dualStack HL)
      as (done & rdone & Hs & Hr & _ & _ & Hv).
    assert (subnetAdds (calls (Reconcile (C := federated)
                                         (node "node-1" dualStack)))
            = [(RouteV4, infoA_member); (RouteV4, infoO); (RouteV6, infoO6)])
      as HA by (vm_compute; reflexivity).
    assert (remoteAdds (calls (Reconcile (C := federated)
                                         (node "node-1" dualStack)))
            = [(RouteV4, Scenario2.infoR2)])
      as HB by (vm_compute; reflexivity).
    rewrite HA in Hs. rewrite HB in Hr.
    destruct done as [|[x1 i1] [|[x2 i2] [|[x3 i3] [|? ?]]]];
      try discriminate Hs.
    destruct rdone as [|[y1 j1] [|? ?]]; try discriminate Hr.
    cbn [map] in Hs, Hr. unfold placedSubnet, placedRemote in Hs, Hr.
    cbn [fst snd] in Hs, Hr.
    injection Hs as E1 <- E2 <- E3 <-. injection Hr as F1 <-.
    destruct (Version (Range (Spec x1))) eqn:V1; [ | discriminate E1].
    destruct (Version (Range (Spec x2))) eqn:V2; [ | discriminate E2].
    destruct (Version (Range (Spec x3))) eqn:V3; [discriminate E3 | ].
    destruct (Version (rs_Range (rs_Spec y1))) eqn:U1; [ | discriminate F1].
    split.
    + destruct (proj2 (Hv IPv4) _ H4) as (w & _ & Hm).
      etransitivity; [exact Hm | ].
      unfold stagedContent, subnetsOf, remoteSubnetsOf.
      cbn [filter fst snd]. rewrite V1, V2, V3, U1.
      vm_compute. reflexivity.
    + destruct (proj2 (Hv IPv6) _ H6) as (w & _ & Hm).
      etransitivity; [exact Hm | ].
      unfold stagedContent, subnetsOf, remoteSubnetsOf.
      cbn [filter fst snd]. rewrite V1, V2, V3, U1.
      vm_compute. reflexivity.
Defined.

Lemma remote_subnets_only_when_enabled_and_refusal_aborts_witness :
  let p := Reconcile (C := federated) (node "node-1" overlapping) in
  In (CallAddRemoteSubnetInfo RouteV4 infoR (Err "RemoteSubnetConflict"))
     (calls p)
  /\ result_ p = {| Requeue := true |}
  /\ err p = Some ("failed to add remote subnet info: "
                   ++ "RemoteSubnetConflict")
  /\ forall m' r, ~ In (CallSyncRoutes m' r) (calls p).
Proof.
  cbv zeta.
  assert (In (CallAddRemoteSubnetInfo RouteV4 infoR
                                      (Err "RemoteSubnetConflict"))
             (calls (Reconcile (C := federated) (node "node-1" overlapping))))
    as H by (vm_compute; found).
  split; [exact H | ].
  exact (proj2 (remote_subnets_only_when_enabled_and_refusal_aborts
                  (C := federated) (node "node-1" overlapping))
               RouteV4 infoR "RemoteSubnetConflict" H).
Defined.

Lemma ResetInfos_once_after_a_successful_listing_witness :
  let p := Reconcile (C := federated) (node "node-1" dualStack) in
  List_Subnets (Collaborators := federated) (world (node "node-1" dualStack))
  = (Ok allSubnets, dualStack)
  /\ count (is_ResetInfos RouteV4) (calls p) = 1
  /\ count (is_ResetInfos RouteV6) (calls p) = 1.
Proof.
  cbv zeta. split; [reflexivity | ].
  destruct (proj1 (ResetInfos_once_after_a_successful_listing
                     (C := federated) (node "node-1" dualStack))
                  allSubnets dualStack eq_refl) as (_ & H4 & H6 & _).
  split; assumption.
Defined.

Lemma isUnderlayOnHost_iff_underlay_and_member_witness :
  Get_Network (Collaborators := single) (Network_ (Spec subnetA))
              (world (node "node-1" underlayOnly))
  = (Ok netU, underlayOnly)
  /\ In (CallAddSubnetInfo RouteV4 infoA_member)
        (trace (reconcileSubnet (C := single) subnetA
                                (node "node-1" underlayOnly)))
  /\ (isUnderlayOnHost infoA_member = true <->
      GetNetworkType (Collaborators := single) netU = NetworkTypeUnderlay
      /\ In "node-1" (NodeList (net_Status netU))).
Proof.
  assert (In (CallAddSubnetInfo RouteV4 infoA_member)
             (trace (reconcileSubnet (C := single) subnetA
                                     (node "node-1" underlayOnly))))
    as H by (vm_compute; found).
  split; [reflexivity | ]. split; [exact H | ].
  exact (proj1 (isUnderlayOnHost_iff_underlay_and_member
                  (C := single) subnetA (node "node-1" underlayOnly)
                  netU underlayOnly RouteV4 infoA_member eq_refl H)).
Defined.

Lemma netID_of_the_subnet_else_of_the_network_witness :
  Get_Network (Collaborators := federated) (Network_ (Spec subnetO))
              (world (node "node-1" dualStack))
  = (Ok netO, dualStack)
  /\ In (CallGenerateVxlanNetIfName "eth0" (Some 7%N) (Ok "eth0.7"))
        (trace (reconcileSubnet (C := federated) subnetO
                                (node "node-1" dualStack)))
  /\ NetID_ (Spec subnetO) = Some 7%N
  /\ net_NetID (net_Spec netO) = Some 4%N
  /\ Some 7%N = resolveNetID subnetO netO.
Proof.
  assert (In (CallGenerateVxlanNetIfName "eth0" (Some 7%N) (Ok "eth0.7"))
             (trace (reconcileSubnet (C := federated) subnetO
                                     (node "node-1" dualStack))))
    as H by (vm_compute; found).
  split; [reflexivity | ]. split; [exact H | ].
  split; [reflexivity | ]. split; [reflexivity | ].
  exact (proj1 (netID_of_the_subnet_else_of_the_network
                  (C := federated) subnetO (node "node-1" dualStack)
                  netO dualStack "eth0" (Some 7%N) (Ok "eth0.7") eq_refl
                  (or_intror H))).
Defined.

Lemma overlay_record_witness :
  Get_Network (Collaborators := federated) (Network_ (Spec subnetO))
              (world (node "node-1" dualStack))
  = (Ok netO, dualStack)
  /\ GetNetworkType (Collaborators := federated) netO = NetworkTypeOverlay
  /\ In (CallAddSubnetInfo RouteV4 infoO)
        (trace (reconcileSubnet (C := federated) subnetO
                                (node "node-1" dualStack)))
  /\ isOverlay infoO = true
  /\ autoNatOutgoing infoO
     = IsSubnetAutoNatOutgoing (Collaborators := federated) (Spec subnetO).
Proof.
  assert (In (CallAddSubnetInfo RouteV4 infoO)
             (trace (reconcileSubnet (C := federated) subnetO
                                     (node "node-1" dualStack))))
    as H by (vm_compute; found).
  split; [reflexivity | ]. split; [reflexivity | ]. split; [exact H | ].
  destruct (overlay_record (C := federated) subnetO (node "node-1" dualStack)
                           netO dualStack RouteV4 infoO eq_refl eq_refl H)
    as (H1 & H2 & _).
  split; assumption.
Defined.

Lemma underlay_record_has_no_nat_witness :
  Get_Network (Collaborators := single) (Network_ (Spec subnetA))
              (world (node "node-1" underlayOnly))
  = (Ok netU, underlayOnly)
  /\ GetNetworkType (Collaborators := single) netU = NetworkTypeUnderlay
  /\ IsSubnetAutoNatOutgoing (Collaborators := single) (Spec subnetA) = true
  /\ In (CallAddSubnetInfo RouteV4 infoA_member)
        (trace (reconcileSubnet (C := single) subnetA
                                (node "node-1" underlayOnly)))
  /\ isOverlay infoA_member = false /\ autoNatOutgoing infoA_member = false.
Proof.
  assert (In (CallAddSubnetInfo RouteV4 infoA_member)
             (trace (reconcileSubnet (C := single) subnetA
                                     (node "node-1" underlayOnly))))
    as H by (vm_compute; found).
  split; [reflexivity | ]. split; [reflexivity | ].
  split; [reflexivity | ]. split; [exact H | ].
  exact (underlay_record_has_no_nat
           (C := single) subnetA (node "node-1" underlayOnly)
           netU underlayOnly RouteV4 infoA_member eq_refl eq_refl H).
Defined.

Lemma non_member_registers_without_an_interface_witness :
  In (CallAddSubnetInfo RouteV4 infoA_member)
     (trace (reconcileSubnet (C := single) subnetA
                             (node "node-1" underlayOnly)))
  /\ ~ In "node-2" (NodeList (net_Status netU))
  /\ subnetAdds (trace (reconcileSubnet (C := single) subnetA
                                        (node "node-2" underlayOnly)))
     = [(RouteV4,
         set_forwardNodeIfName "" (set_isUnderlayOnHost false infoA_member))].
Proof.
  assert (In (CallAddSubnetInfo RouteV4 infoA_member)
             (trace (reconcileSubnet (C := single) subnetA
                                     (node "node-1" underlayOnly))))
    as H by (vm_compute; found).
  assert (~ In "node-2" (NodeList (net_Status netU))) as Hn.
  { cbn. intros [E | []]. discriminate E. }
  split; [exact H | ]. split; [exact Hn | ].
  refine (proj1 (proj2 (non_member_registers_without_an_interface
                          (C := single) subnetA
                          (node "node-1" underlayOnly)
                          (node "node-2" underlayOnly)
                          netU underlayOnly RouteV4 infoA_member
                          eq_refl eq_refl eq_refl _ Hn H))).
  cbn. left. reflexivity.
Defined.

End Runs.

(** * Further properties of the pass *)

(** ** Orderly runs *)

Section Orderly.
Context {S : Type}.

Lemma closing_failed (ev : Event) :
  closing ev = false -> failed_call ev = false.
Proof. unfold closing. intros H. apply orb_false_elim in H. tauto. Qed.

Lemma bind_orderly {A B : Type} (m : M S A) (k : A -> M S B) (s : S) :
  orderly (m s) ->
  (forall a s', orderly (k a s')) ->
  orderly (bind m k s).
Proof.
  unfold orderly. intros Hm Hk.
  destruct (res (m s)) as [a | x e] eqn:E.
  - destruct (bind_next m k s a E) as (Hr & _ & Ht).
    rewrite Hr, Ht. specialize (Hk a (post (m s))).
    destruct (res (k a (post (m s)))) as [b | y [msg | ]].
    + rewrite existsb_app, Hm, Hk. reflexivity.
    + destruct Hk as (Hq & pre & ev & Hk & Hpre & Hev).
      split; [assumption | ].
      exists (trace (m s) ++ pre)%list, ev. rewrite Hk, app_assoc.
      split; [reflexivity | ]. split; [ | assumption].
      rewrite existsb_app, Hm, Hpre. reflexivity.
    + destruct Hk as (Hq & pre & Hk & Hpre).
      split; [assumption | ].
      exists (trace (m s) ++ pre)%list. rewrite Hk, app_assoc.
      split; [reflexivity | ].
      rewrite existsb_app, Hm, Hpre. reflexivity.
  - destruct (bind_return m k s x e E) as (Hr & _ & Ht).
    rewrite Hr, Ht. assumption.
Qed.

Lemma forEach_orderly {A : Type} (body : A -> M S unit) :
  (forall x s, orderly (body x s)) ->
  forall l s, orderly (forEach body l s).
Proof.
  intros Hb l. induction l as [| x rest IH]; intros s; simpl.
  - reflexivity.
  - apply bind_orderly; [apply Hb | intros _ s'; apply IH].
Qed.

(** A loop that leaves the function does so in one of its turns, whose
    calls end the calls of the loop. *)
Lemma forEach_return_origin {A : Type} (body : A -> M S unit) :
  forall l s x e,
    res (forEach body l s) = Return x e ->
    exists y s0 pre,
      In y l
      /\ res (body y s0) = Return x e
      /\ trace (forEach body l s) = (pre ++ trace (body y s0))%list.
Proof.
  induction l as [| y rest IH]; intros s x e H; simpl in H.
  - discriminate.
  - destruct (res (body y s)) as [a | r e'] eqn:E.
    + destruct (bind_next (body y) (fun _ => forEach body rest) s a E)
        as (Hr & _ & Ht).
      rewrite Hr in H.
      destruct (IH _ _ _ H) as (z & s0 & pre & Hz & Hres & Htr).
      exists z, s0, (trace (body y s) ++ pre)%list.
      split; [right; assumption | ]. split; [assumption | ].
      simpl. rewrite Ht, Htr, app_assoc. reflexivity.
    + destruct (bind_return (body y) (fun _ => forEach body rest) s r e' E)
        as (Hr & _ & Ht).
      rewrite Hr in H. injection H as -> ->.
      exists y, s, []. split; [left; reflexivity | ].
      split; [assumption | ]. simpl. rewrite Ht. reflexivity.
Qed.

(** The events of a loop, with an invariant of the state carried along and
    the calls of the turn found among those of the loop. *)
Lemma forEach_event_origin_inv {A : Type} (Inv : S -> Prop)
      (body : A -> M S unit) (ev : Event) :
  (forall x s, Inv s -> Inv (post (body x s))) ->
  forall l s,
    Inv s ->
    In ev (trace (forEach body l s)) ->
    exists x s0,
      In x l /\ Inv s0 /\ In ev (trace (body x s0))
      /\ forall ev', In ev' (trace (body x s0)) ->
                     In ev' (trace (forEach body l s)).
Proof.
  intros Hinv. induction l as [| x rest IH]; intros s Hs H; simpl in H.
  - contradiction.
  - destruct (res (body x s)) as [a | r e] eqn:E.
    + destruct (bind_next (body x) (fun _ => forEach body rest) s a E)
        as (_ & _ & Ht).
      simpl. rewrite Ht in H |- *. apply in_app_or in H.
      destruct H as [H | H].
      * exists x, s. split; [left; reflexivity | ]. split; [assumption | ].
        split; [assumption | ]. intros ev' H'. apply in_or_app. auto.
      * destruct (IH _ (Hinv x s Hs) H) as (y & s0 & Hy & Hi & Hin & Hsub).
        exists y, s0. split; [right; assumption | ]. split; [assumption | ].
        split; [assumption | ]. intros ev' H'. apply in_or_app. auto.
    + destruct (bind_return (body x) (fun _ => forEach body rest) s r e E)
        as (_ & _ & Ht).
      simpl. rewrite Ht in H |- *. exists x, s.
      split; [left; reflexivity | ]. auto.
Qed.

Lemma forEach_keeps {A : Type} (Inv : S -> Prop) (body : A -> M S unit) :
  (forall x s, Inv s -> Inv (post (body x s))) ->
  forall l s, Inv s -> Inv (post (forEach body l s)).
Proof.
  intros Hinv. induction l as [| x rest IH]; intros s Hs; simpl.
  - assumption.
  - destruct (res (body x s)) as [a | r e] eqn:E.
    + destruct (bind_next (body x) (fun _ => forEach body rest) s a E)
        as (_ & -> & _). apply IH, Hinv, Hs.
    + destruct (bind_return (body x) (fun _ => forEach body rest) s r e E)
        as (_ & -> & _). apply Hinv, Hs.
Qed.

End Orderly.

(** ** Lists of calls *)

Lemma last_closing_unique (P : Event -> bool) :
  forall pre ev rest pre' ev',
    (pre ++ ev :: rest)%list = (pre' ++ [ev'])%list ->
    existsb P pre' = false ->
    P ev = true ->
    rest = [] /\ pre = pre' /\ ev = ev'.
Proof.
  induction pre as [| b pre IH]; intros ev rest pre' ev' H Hpre Hev.
  - destruct pre' as [| a pre']; simpl in H.
    + injection H as -> ->. auto.
    + injection H as -> _. simpl in Hpre. rewrite Hev in Hpre. discriminate.
  - destruct pre' as [| a pre']; simpl in H.
    + injection H as _ H. destruct pre; discriminate.
    + injection H as -> H. simpl in Hpre.
      apply orb_false_elim in Hpre. destruct Hpre as [_ Hpre].
      destruct (IH _ _ _ _ H Hpre Hev) as (-> & -> & ->). auto.
Qed.

Lemma split_behind (P : Event -> bool) :
  forall front back pre ev rest,
    (front ++ back)%list = (pre ++ ev :: rest)%list ->
    existsb P front = false ->
    P ev = true ->
    exists pre', pre = (front ++ pre')%list
                 /\ back = (pre' ++ ev :: rest)%list.
Proof.
  induction front as [| a front IH]; intros back pre ev rest H Hf Hev.
  - exists pre. auto.
  - simpl in Hf. apply orb_false_elim in Hf. destruct Hf as [Ha Hf].
    destruct pre as [| b pre]; simpl in H.
    + injection H as -> _. congruence.
    + injection H as -> H.
      destruct (IH _ _ _ _ H Hf Hev) as (pre' & -> & ->).
      exists pre'. auto.
Qed.

Lemma existsb_false_Forall (P : Event -> bool) (t : list Event) :
  existsb P t = false <-> Forall (fun ev => P ev = false) t.
Proof.
  induction t as [| ev t IH]; simpl.
  - split; [constructor | reflexivity].
  - split.
    + intros H. apply orb_false_elim in H. destruct H.
      constructor; [assumption | apply IH; assumption].
    + intros H. inversion H; subst. apply orb_false_intro; [ | apply IH];
        assumption.
Qed.

(** ** The pass is orderly *)

Ltac ends_with_last :=
  first [ eexists nil, _; split; [reflexivity | ]
        | eexists (_ :: nil), _; split; [reflexivity | ]
        | eexists (_ :: _ :: nil), _; split; [reflexivity | ]
        | eexists (_ :: _ :: _ :: nil), _; split; [reflexivity | ] ].

Section OrderlyPass.
Context {W RM : Type} `{C : Collaborators W RM}.

Lemma orderly_app {A : Type} (t : list Event) (r : Run (St W RM) A) :
  existsb closing t = false ->
  orderly r ->
  orderly {| res := res r; post := post r; trace := (t ++ trace r)%list |}.
Proof.
  unfold orderly. cbn [res trace]. intros Ht Hr.
  destruct (res r) as [a | x [msg | ]].
  - rewrite existsb_app, Ht, Hr. reflexivity.
  - destruct Hr as (Hq & pre & ev & -> & Hpre & Hev).
    split; [assumption | ]. exists (t ++ pre)%list, ev.
    rewrite app_assoc. split; [reflexivity | ]. split; [ | assumption].
    rewrite existsb_app, Ht, Hpre. reflexivity.
  - destruct Hr as (Hq & pre & -> & Hpre).
    split; [assumption | ]. exists (t ++ pre)%list.
    rewrite app_assoc. split; [reflexivity | ].
    rewrite existsb_app, Ht, Hpre. reflexivity.
Qed.

Lemma reconcileSubnet_orderly (subnet : Subnet) (s : St W RM) :
  orderly (reconcileSubnet subnet s).
Proof.
  destruct (reconcileSubnet_turn subnet s); unfold orderly; cbn [res trace];
    try reflexivity;
    (split; [reflexivity | ]); ends_with_last; split; reflexivity.
Qed.

Lemma reconcileRemoteSubnet_orderly (r : RemoteSubnet) (s : St W RM) :
  orderly (reconcileRemoteSubnet r s).
Proof.
  destruct (reconcileRemoteSubnet_turn r s); unfold orderly; cbn [res trace];
    try reflexivity;
    (split; [reflexivity | ]); ends_with_last; split; reflexivity.
Qed.

Lemma reconcileRemoteSubnets_orderly (s : St W RM) :
  orderly (reconcileRemoteSubnets s).
Proof.
  destruct MultiClusterEnabled eqn:E.
  - destruct (List_RemoteSubnets (world s)) as [[items | e] w1] eqn:L.
    + rewrite (reconcileRemoteSubnets_listed s items w1 E L).
      apply (orderly_app [CallList_RemoteSubnets (Ok items)]);
        [reflexivity | ].
      apply forEach_orderly. apply reconcileRemoteSubnet_orderly.
    + rewrite (reconcileRemoteSubnets_list_failed s e w1 E L).
      unfold orderly. cbn [res trace]. split; [reflexivity | ].
      ends_with_last. split; reflexivity.
  - rewrite (reconcileRemoteSubnets_off s E). reflexivity.
Qed.

Lemma stage_orderly (s : St W RM) : orderly (stage s).
Proof.
  destruct (List_Subnets (world s)) as [[items | e] w1] eqn:L.
  - rewrite (stage_listed s items w1 L).
    pose proof (forEach_orderly reconcileSubnet reconcileSubnet_orderly
                  items (afterReset s w1)) as H1.
    set (r1 := forEach reconcileSubnet items (afterReset s w1)) in *.
    destruct (res r1) as [a | x e] eqn:E1.
    + unfold orderly in H1. rewrite E1 in H1.
      apply (orderly_app (CallList_Subnets (Ok items) :: CallResetInfos RouteV4
                          :: CallResetInfos RouteV6 :: trace r1)).
      * simpl. assumption.
      * apply reconcileRemoteSubnets_orderly.
    + assert (orderly {| res := res r1; post := post r1;
                         trace := ([CallList_Subnets (Ok items);
                                    CallResetInfos RouteV4;
                                    CallResetInfos RouteV6]
                                   ++ trace r1)%list |})
        as H by (apply orderly_app; [reflexivity | assumption]).
      rewrite E1 in H. exact H.
  - rewrite (stage_list_failed s e w1 L).
    unfold orderly. cbn [res trace]. split; [reflexivity | ].
    ends_with_last. split; reflexivity.
Qed.

Lemma syncAndFinish_orderly (s : St W RM) : orderly (syncAndFinish s).
Proof.
  destruct (syncAndFinish_run s); unfold orderly; cbn [res trace];
    (split; [reflexivity | ]).
  - ends_with_last. split; reflexivity.
  - ends_with_last. split; reflexivity.
  - exists [CallSyncRoutes RouteV4 (Ok tt);
            CallCheckIPv6GlobalDisabled (Ok true)].
    split; reflexivity.
  - ends_with_last. split; reflexivity.
  - exists [CallSyncRoutes RouteV4 (Ok tt);
            CallCheckIPv6GlobalDisabled (Ok false);
            CallSyncRoutes RouteV6 (Ok tt)].
    split; reflexivity.
Qed.

(** What a pass gives back is what its body returned. *)
Lemma Reconcile_run (s : St W RM) :
  exists x e,
    res (Reconcile_body s) = Return x e
    /\ Reconcile s =
       {| result_ := x; err := e; final := post (Reconcile_body s);
          calls := trace (Reconcile_body s) |}.
Proof.
  unfold Reconcile. destruct (res (Reconcile_body s)) as [[] | x e].
  exists x, e. auto.
Qed.

(** The shape of the calls of a pass, by its error. *)
Lemma Reconcile_orderly (s : St W RM) :
  match err (Reconcile s) with
  | None =>
      Requeue (result_ (Reconcile s)) = false
      /\ exists pre,
          calls (Reconcile s) = (pre ++ [CallIptablesSyncTrigger])%list
          /\ existsb closing pre = false
  | Some _ =>
      Requeue (result_ (Reconcile s)) = true
      /\ exists pre ev,
          calls (Reconcile s) = (pre ++ [ev])%list
          /\ existsb closing pre = false
          /\ failed_call ev = true
  end.
Proof.
  assert (orderly (Reconcile_body s)) as H.
  { unfold Reconcile_body. apply bind_orderly; [apply stage_orderly | ].
    intros _ s'. apply syncAndFinish_orderly. }
  destruct (Reconcile_run s) as (x & e & E & ->).
  unfold orderly in H. rewrite E in H. cbn [err result_ calls].
  destruct e; assumption.
Qed.

End OrderlyPass.

(** ** How a pass ends *)

Lemma closing_none (t : list Event) :
  existsb closing t = false ->
  existsb failed_call t = false /\ ~ In CallIptablesSyncTrigger t.
Proof.
  induction t as [| ev t IH]; simpl; intros H.
  - split; [reflexivity | tauto].
  - apply orb_false_elim in H. destruct H as [Hev Ht].
    destruct (IH Ht) as [IH1 IH2]. unfold closing in Hev.
    apply orb_false_elim in Hev. destruct Hev as [Hf Htr].
    rewrite Hf, IH1. split; [reflexivity | ].
    intros [E | E]; [subst ev; discriminate | contradiction].
Qed.

Lemma failed_not_trigger (ev : Event) :
  failed_call ev = true -> ev <> CallIptablesSyncTrigger.
Proof. intros H E. subst ev. discriminate. Qed.

Section Endings.
Context {W RM : Type} `{C : Collaborators W RM}.

(** X1.  A pass asks for a requeue exactly when it returns an error; it
    returns no error exactly when no call of it failed, and exactly when it
    has pulled the iptables trigger, which is then its last call and pulled
    once. *)
Theorem requeue_iff_error_trigger_iff_success (s : St W RM) :
  let p := Reconcile s in
  (Requeue (result_ p) = true <-> err p <> None)
  /\ (err p = None <-> existsb failed_call (calls p) = false)
  /\ (err p = None <-> In CallIptablesSyncTrigger (calls p))
  /\ (err p = None ->
      exists pre,
        calls p = (pre ++ [CallIptablesSyncTrigger])%list
        /\ ~ In CallIptablesSyncTrigger pre).
Proof.
  cbv zeta. pose proof (Reconcile_orderly s) as H.
  destruct (err (Reconcile s)) as [msg | ].
  - destruct H as (Hq & pre & ev & Hc & Hpre & Hev).
    destruct (closing_none _ Hpre) as [Hf Ht].
    rewrite Hq, Hc. split; [split; [discriminate | reflexivity] | ].
    split; [ | split].
    + split; [discriminate | ]. rewrite existsb_app. simpl.
      rewrite Hf, Hev. discriminate.
    + split; [discriminate | ]. intros Hin. apply in_app_or in Hin.
      destruct Hin as [Hin | [Hin | []]]; [contradiction | ].
      apply failed_not_trigger in Hev. congruence.
    + discriminate.
  - destruct H as (Hq & pre & Hc & Hpre).
    destruct (closing_none _ Hpre) as [Hf Ht].
    rewrite Hq, Hc. split; [split; [discriminate | congruence] | ].
    split; [ | split].
    + split; [ | reflexivity]. intros _. rewrite existsb_app, Hf.
      reflexivity.
    + split; [ | reflexivity]. intros _. apply in_or_app. right. left.
      reflexivity.
    + intros _. exists pre. auto.
Qed.

(** X2.  A failed call is the last call of its pass: nothing is called after
    it, no call before it failed, and the pass returns an error and asks for
    a requeue.  Conversely a pass that returns an error ends on a failed
    call. *)
Theorem a_failed_call_ends_the_pass (s : St W RM) :
  let p := Reconcile s in
  (forall pre ev rest,
      calls p = (pre ++ ev :: rest)%list ->
      failed_call ev = true ->
      rest = [] /\ existsb failed_call pre = false
      /\ Requeue (result_ p) = true /\ err p <> None)
  /\ (err p <> None ->
      exists pre ev,
        calls p = (pre ++ [ev])%list /\ failed_call ev = true).
Proof.
  cbv zeta. pose proof (Reconcile_orderly s) as H.
  destruct (err (Reconcile s)) as [msg | ].
  - destruct H as (Hq & pre' & ev' & Hc & Hpre & Hev).
    split.
    + intros pre ev rest Hs Hf. rewrite Hc in Hs.
      assert (closing ev = true) as Hcl
          by (unfold closing; rewrite Hf; reflexivity).
      destruct (last_closing_unique closing _ _ _ _ _ (eq_sym Hs) Hpre Hcl)
        as (-> & -> & ->).
      destruct (closing_none _ Hpre) as [Hnone _].
      repeat split; try assumption. discriminate.
    + intros _. exists pre', ev'. auto.
  - destruct H as (Hq & pre' & Hc & Hpre).
    split; [ | congruence].
    intros pre ev rest Hs Hf. exfalso. rewrite Hc in Hs.
    assert (closing ev = true) as Hcl
        by (unfold closing; rewrite Hf; reflexivity).
    destruct (last_closing_unique closing _ _ _ _ _ (eq_sym Hs) Hpre Hcl)
      as (_ & _ & ->).
    discriminate.
Qed.

Lemma not_in_staging (s : St W RM) (ev : Event) :
  after_staging ev = true -> ~ In ev (trace (stage s)).
Proof.
  intros H Hin. pose proof (stage_events s) as Hst.
  rewrite Forall_forall in Hst. specialize (Hst _ Hin). congruence.
Qed.

(** X3.  When [SyncRoutes] fails on the IPv4 manager the pass returns the
    error of line 138 and asks for a requeue, without checking for IPv6,
    syncing the IPv6 manager or pulling the trigger.  When it fails on the
    IPv6 manager the pass returns the error of line 148 and asks for a
    requeue without pulling the trigger, the IPv4 manager having been synced
    and the check having answered that IPv6 is enabled. *)
Theorem a_failed_sync_is_reported (s : St W RM) :
  let p := Reconcile s in
  (forall e,
      In (CallSyncRoutes RouteV4 (Err e)) (calls p) ->
      result_ p = {| Requeue := true |}
      /\ err p = Some ("failed to sync ipv4 routes: " ++ e)
      /\ (forall r, ~ In (CallCheckIPv6GlobalDisabled r) (calls p))
      /\ (forall r, ~ In (CallSyncRoutes RouteV6 r) (calls p))
      /\ ~ In CallIptablesSyncTrigger (calls p))
  /\ (forall e,
         In (CallSyncRoutes RouteV6 (Err e)) (calls p) ->
         result_ p = {| Requeue := true |}
         /\ err p = Some ("failed to sync ipv6 routes: " ++ e)
         /\ In (CallSyncRoutes RouteV4 (Ok tt)) (calls p)
         /\ In (CallCheckIPv6GlobalDisabled (Ok false)) (calls p)
         /\ ~ In CallIptablesSyncTrigger (calls p)).
Proof.
  cbv zeta. split.
  - intros e0 H. apply Reconcile_event in H.
    destruct H as [[H _] | (_ & _ & H & x & e & Hr & ->)]; [discriminate | ].
    cbn [calls result_ err]. revert H Hr.
    destruct (syncAndFinish_run (post (stage s))); cbn [trace res In];
      intros Hev Hres;
      repeat (destruct Hev as [Hev | Hev]; try discriminate);
      try contradiction.
    injection Hev as <-. injection Hres as <- <-.
    split; [reflexivity | ]. split; [reflexivity | ].
    repeat split; intros; intros Hin; apply in_app_or in Hin;
      destruct Hin as [Hin | Hin];
      try (revert Hin; apply not_in_staging; reflexivity);
      cbn [In] in Hin;
      repeat (destruct Hin as [Hin | Hin]; try discriminate);
      contradiction.
  - intros e0 H. apply Reconcile_event in H.
    destruct H as [[H _] | (_ & _ & H & x & e & Hr & ->)]; [discriminate | ].
    cbn [calls result_ err]. revert H Hr.
    destruct (syncAndFinish_run (post (stage s))); cbn [trace res In];
      intros Hev Hres;
      repeat (destruct Hev as [Hev | Hev]; try discriminate);
      try contradiction.
    injection Hev as <-. injection Hres as <- <-.
    split; [reflexivity | ]. split; [reflexivity | ].
    split; [apply in_or_app; right; left; reflexivity | ].
    split; [apply in_or_app; right; right; left; reflexivity | ].
    intros Hin; apply in_app_or in Hin; destruct Hin as [Hin | Hin].
    + revert Hin. apply not_in_staging. reflexivity.
    + cbn [In] in Hin.
      repeat (destruct Hin as [Hin | Hin]; try discriminate). contradiction.
Qed.

End Endings.

(** ** The error of a pass names the call that failed *)

Section LeavingAt.
Context {S A : Type}.
Variable body : A -> M S unit.
Variable ev : Event.
Variable Q : A -> Result -> option error -> Prop.

(** An event after which the body leaves the function. *)
Hypothesis body_leaves_at :
  forall x s,
    In ev (trace (body x s)) ->
    exists r e, res (body x s) = Return r e /\ Q x r e.

Lemma forEach_leaves_at (l : list A) (s : S) :
  In ev (trace (forEach body l s)) ->
  exists x r e,
    In x l /\ res (forEach body l s) = Return r e /\ Q x r e.
Proof.
  revert s. induction l as [| x rest IH]; intros s H; simpl in *.
  - contradiction.
  - destruct (res (body x s)) as [a | r e] eqn:E.
    + destruct (bind_next (body x) (fun _ => forEach body rest) s a E)
        as (Hr & _ & Ht).
      rewrite Hr. rewrite Ht in H. apply in_app_or in H.
      destruct H as [H | H].
      * apply body_leaves_at in H. destruct H as (r & e & H & _).
        congruence.
      * destruct (IH _ H) as (y & r & e & Hy & Hres & Hq).
        exists y, r, e. auto.
    + destruct (bind_return (body x) (fun _ => forEach body rest) s r e E)
        as (Hr & _ & Ht).
      rewrite Hr. rewrite Ht in H. apply body_leaves_at in H.
      destruct H as (r' & e' & H & Hq).
      exists x, r', e'. split; [left; reflexivity | ].
      split; [congruence | assumption].
Qed.

End LeavingAt.

Section Blame.
Context {W RM : Type} `{C : Collaborators W RM}.

(** A pass with a failed staging call returns what staging returned. *)
Lemma Reconcile_returns_staging (s : St W RM) (ev : Event) :
  In ev (calls (Reconcile s)) ->
  staging_failure ev = true ->
  In ev (trace (stage s))
  /\ exists x e,
      res (stage s) = Return x e
      /\ result_ (Reconcile s) = x /\ err (Reconcile s) = e
      /\ calls (Reconcile s) = trace (stage s).
Proof.
  intros H F.
  assert (existsb staging_failure (calls (Reconcile s)) = true) as Hf.
  { apply existsb_exists. exists ev. auto. }
  destruct (Reconcile_failure s Hf) as (x & e & E & _ & _ & Hp).
  rewrite Hp in H |- *. cbn [calls result_ err] in H |- *.
  split; [assumption | ]. exists x, e. auto.
Qed.

(** The calls of lines 110-135 are made once the loop over the subnets is
    through, and staging then returns what those lines return. *)
Lemma stage_remote_part (s : St W RM) (ev : Event) :
  remote_event ev = true ->
  subnet_event ev = false ->
  In ev (trace (stage s)) ->
  exists items w1,
    List_Subnets (world s) = (Ok items, w1)
    /\ let r1 := forEach reconcileSubnet items (afterReset s w1) in
       res r1 = Next tt
       /\ In ev (trace (reconcileRemoteSubnets (post r1)))
       /\ res (stage s) = res (reconcileRemoteSubnets (post r1))
       /\ trace (stage s)
          = (CallList_Subnets (Ok items) :: CallResetInfos RouteV4
             :: CallResetInfos RouteV6 :: trace r1
             ++ trace (reconcileRemoteSubnets (post r1)))%list.
Proof.
  intros Hrem Hsub H.
  destruct (List_Subnets (world s)) as [[items | e] w1] eqn:L.
  - exists items, w1. split; [reflexivity | ].
    rewrite (stage_listed s items w1 L) in H |- *.
    set (r1 := forEach reconcileSubnet items (afterReset s w1)) in *.
    pose proof (forEach_events _ reconcileSubnet reconcileSubnet_events
                  items (afterReset s w1)) as Hev.
    fold r1 in Hev. rewrite Forall_forall in Hev. cbv zeta.
    destruct (res r1) as [[] | x e] eqn:E1; cbn [trace res In] in H |- *.
    + destruct H as [H | [H | [H | H]]];
        try (subst ev; discriminate).
      apply in_app_or in H. destruct H as [H | H].
      * specialize (Hev _ H). congruence.
      * auto.
    + destruct H as [H | [H | [H | H]]];
        try (subst ev; discriminate).
      specialize (Hev _ H). congruence.
  - rewrite (stage_list_failed s e w1 L) in H. cbn [trace In] in H.
    destruct H as [H | []]. subst ev. discriminate.
Qed.

(** A call of a turn after which the turn leaves the function: staging
    returns what that turn returned, the turn being that of a listed
    object. *)
Lemma stage_leaves_at (s : St W RM) (ev : Event)
      (Qs : Subnet -> Result -> option error -> Prop)
      (Qr : RemoteSubnet -> Result -> option error -> Prop) :
  (forall x s0,
      In ev (trace (reconcileSubnet x s0)) ->
      exists r e, res (reconcileSubnet x s0) = Return r e /\ Qs x r e) ->
  (forall x s0,
      In ev (trace (reconcileRemoteSubnet x s0)) ->
      exists r e, res (reconcileRemoteSubnet x s0) = Return r e /\ Qr x r e) ->
  turn_event ev = true ->
  In ev (trace (stage s)) ->
  exists r e,
    res (stage s) = Return r e
    /\ ((exists items w1 x,
            List_Subnets (world s) = (Ok items, w1)
            /\ In x items /\ Qs x r e)
        \/ (exists ritems x,
               In (CallList_RemoteSubnets (Ok ritems)) (trace (stage s))
               /\ In x ritems /\ Qr x r e)).
Proof.
  intros Hs Hr Hturn H.
  destruct (List_Subnets (world s)) as [[items | e0] w1] eqn:L.
  2: { rewrite (stage_list_failed s e0 w1 L) in H. cbn [trace In] in H.
       destruct H as [H | []]. subst ev. discriminate. }
  rewrite (stage_listed s items w1 L) in H |- *.
  set (r1 := forEach reconcileSubnet items (afterReset s w1)) in *.
  assert (In ev (trace r1) ->
          exists x r e, In x items /\ res r1 = Return r e /\ Qs x r e)
    as Hloop by (apply forEach_leaves_at; assumption).
  destruct (res r1) as [[] | x e] eqn:E1; cbn [trace res In] in H |- *.
  - destruct H as [H | [H | [H | H]]]; try (subst ev; discriminate).
    apply in_app_or in H. destruct H as [H | H].
    + destruct (Hloop H) as (y & r & e & _ & Hres & _). discriminate.
    + set (s1 := post r1) in *.
      destruct MultiClusterEnabled eqn:EM.
      2: { rewrite (reconcileRemoteSubnets_off s1 EM) in H.
           contradiction. }
      destruct (List_RemoteSubnets (world s1)) as [[ritems | e] w2] eqn:L2.
      * rewrite (reconcileRemoteSubnets_listed s1 ritems w2 EM L2) in H |- *.
        cbn [trace res In] in H |- *.
        destruct H as [H | H]; [subst ev; discriminate | ].
        apply (forEach_leaves_at reconcileRemoteSubnet ev Qr Hr) in H.
        destruct H as (y & r & e & Hy & Hres & Hq).
        exists r, e. split; [assumption | ]. right.
        exists ritems, y. split; [ | auto].
        right. right. right. apply in_or_app. right. left. reflexivity.
      * rewrite (reconcileRemoteSubnets_list_failed s1 e w2 EM L2) in H.
        cbn [trace In] in H. destruct H as [H | []].
        subst ev. discriminate.
  - destruct H as [H | [H | [H | H]]]; try (subst ev; discriminate).
    destruct (Hloop H) as (y & r & e' & Hy & Hres & Hq).
    injection Hres as <- <-.
    exists x, e. split; [reflexivity | ]. left.
    exists items, w1, y. auto.
Qed.

Ltac turn_blame Hin :=
  cbn [trace res In] in Hin |- *;
  repeat (destruct Hin as [Hin | Hin]; try discriminate);
  try contradiction.

(** X4.  When listing the subnets fails the pass returns the error of line
    47 around the client's, having called nothing else; when listing the
    remote subnets fails it returns the error of line 115 around the
    client's.  Both ask for a requeue. *)
Theorem a_failed_listing_is_reported (s : St W RM) :
  let p := Reconcile s in
  (forall e,
      In (CallList_Subnets (Err e)) (calls p) ->
      result_ p = {| Requeue := true |}
      /\ err p = Some ("failed to list subnet " ++ e)
      /\ calls p = [CallList_Subnets (Err e)])
  /\ (forall e,
         In (CallList_RemoteSubnets (Err e)) (calls p) ->
         result_ p = {| Requeue := true |}
         /\ err p = Some ("failed to list remote subnet " ++ e)).
Proof.
  cbv zeta. split.
  - intros e H.
    destruct (Reconcile_returns_staging s _ H eq_refl)
      as (Hst & x & e' & Hres & -> & -> & ->).
    destruct (List_Subnets (world s)) as [[items | e0] w1] eqn:L.
    + exfalso. apply stage_event_origin in Hst.
      destruct Hst
        as (l & w' & L' & [Hl | (its & _ & [Hl | [Hl | [Hl | Hl]]])]).
      * rewrite L in L'. injection L' as <- _. discriminate.
      * discriminate.
      * discriminate.
      * destruct Hl as (y & s0 & _ & Hl).
        pose proof (reconcileSubnet_events y s0) as He.
        rewrite Forall_forall in He. specialize (He _ Hl). discriminate.
      * destruct Hl as (s1 & Hl).
        pose proof (reconcileRemoteSubnets_events s1) as He.
        rewrite Forall_forall in He. specialize (He _ Hl). discriminate.
    + rewrite (stage_list_failed s e0 w1 L) in Hst, Hres |- *.
      cbn [trace res In] in Hst, Hres |- *.
      destruct Hst as [Hst | []]. injection Hst as ->.
      injection Hres as <- <-. auto.
  - intros e H.
    destruct (Reconcile_returns_staging s _ H eq_refl)
      as (Hst & x & e' & Hres & -> & -> & _).
    destruct (stage_remote_part s (CallList_RemoteSubnets (Err e)) eq_refl
                                eq_refl Hst)
      as (items & w1 & _ & _ & Hin & Hr & _).
    rewrite Hr in Hres. clear Hr.
    set (s1 := post (forEach reconcileSubnet items (afterReset s w1))) in *.
    destruct MultiClusterEnabled eqn:EM.
    2: { rewrite (reconcileRemoteSubnets_off s1 EM) in Hin. contradiction. }
    destruct (List_RemoteSubnets (world s1)) as [[ritems | e0] w2] eqn:L2.
    + exfalso.
      rewrite (reconcileRemoteSubnets_listed s1 ritems w2 EM L2) in Hin.
      cbn [trace In] in Hin. destruct Hin as [Hin | Hin]; [discriminate | ].
      apply forEach_event_origin in Hin.
      destruct Hin as (y & s0 & _ & Hin).
      destruct (reconcileRemoteSubnet_turn y s0); turn_blame Hin.
    + rewrite (reconcileRemoteSubnets_list_failed s1 e0 w2 EM L2) in Hin, Hres.
      cbn [trace res In] in Hin, Hres.
      destruct Hin as [Hin | []]. injection Hin as ->.
      injection Hres as <- <-. auto.
Qed.

End Blame.

Section TurnBlame.
Context {W RM : Type} `{C : Collaborators W RM}.

Ltac blame_turn Hin :=
  cbn [trace res In] in Hin |- *;
  repeat (destruct Hin as [Hin | Hin]; try discriminate);
  try contradiction.

(** X5.  When the network of a subnet cannot be fetched, the pass asks for
    a requeue and returns the error of line 56, which names a listed subnet
    that refers to that network and leaves out the client's error. *)
Theorem a_missing_network_is_reported (s : St W RM) (name : string)
        (e : error) :
  let p := Reconcile s in
  In (CallGet_Network name (Err e)) (calls p) ->
  exists items w1 subnet,
    List_Subnets (world s) = (Ok items, w1)
    /\ In subnet items
    /\ Network_ (Spec subnet) = name
    /\ result_ p = {| Requeue := true |}
    /\ err p = Some ("failed to get network for subnet " ++ Name subnet).
Proof.
  cbv zeta. intros H.
  destruct (Reconcile_returns_staging s _ H eq_refl)
    as (Hst & x & e' & Hres & -> & -> & _).
  destruct (stage_leaves_at s (CallGet_Network name (Err e))
              (fun y r m =>
                 r = {| Requeue := true |}
                 /\ m = Some ("failed to get network for subnet " ++ Name y)
                 /\ Network_ (Spec y) = name)
              (fun _ _ _ => False))
    as (r & m & Hr & [(items & w1 & y & L & Hy & -> & -> & Hn)
                     | (_ & _ & _ & _ & [])]).
  - intros y s0 Hin. destruct (reconcileSubnet_turn y s0); blame_turn Hin.
    injection Hin as <- _. eexists _, _. split; [reflexivity | auto].
  - intros y s0 Hin.
    destruct (reconcileRemoteSubnet_turn y s0); blame_turn Hin.
  - reflexivity.
  - assumption.
  - rewrite Hr in Hres. injection Hres as <- <-.
    exists items, w1, y. auto.
Qed.

(** X6.  When a range does not parse, the pass asks for a requeue and
    returns one and the same message for a subnet and for a remote subnet
    (lines 81 and 123): it names a listed object with that range and carries
    the parser's error. *)
Theorem a_malformed_range_is_reported (s : St W RM) (rng : AddressRange)
        (e : error) :
  let p := Reconcile s in
  In (CallParseRange rng (Err e)) (calls p) ->
  result_ p = {| Requeue := true |}
  /\ ((exists items w1 subnet,
          List_Subnets (world s) = (Ok items, w1)
          /\ In subnet items
          /\ Range (Spec subnet) = rng
          /\ err p = Some ("failed to parse subnet " ++ Name subnet
                           ++ " spec range meta: " ++ e))
      \/ (exists ritems remoteSubnet,
             In (CallList_RemoteSubnets (Ok ritems)) (calls p)
             /\ In remoteSubnet ritems
             /\ rs_Range (rs_Spec remoteSubnet) = rng
             /\ err p = Some ("failed to parse subnet "
                              ++ rs_Name remoteSubnet
                              ++ " spec range meta: " ++ e))).
Proof.
  cbv zeta. intros H.
  destruct (Reconcile_returns_staging s _ H eq_refl)
    as (Hst & x & e' & Hres & -> & -> & ->).
  destruct (stage_leaves_at s (CallParseRange rng (Err e))
              (fun y r m =>
                 r = {| Requeue := true |}
                 /\ m = Some ("failed to parse subnet " ++ Name y
                              ++ " spec range meta: " ++ e)
                 /\ Range (Spec y) = rng)
              (fun y r m =>
                 r = {| Requeue := true |}
                 /\ m = Some ("failed to parse subnet " ++ rs_Name y
                              ++ " spec range meta: " ++ e)
                 /\ rs_Range (rs_Spec y) = rng))
    as (r & m & Hr & [(items & w1 & y & L & Hy & -> & -> & Hn)
                     | (ritems & y & Hl & Hy & -> & -> & Hn)]).
  - intros y s0 Hin. destruct (reconcileSubnet_turn y s0); blame_turn Hin.
    injection Hin as <- <-. eexists _, _. split; [reflexivity | auto].
  - intros y s0 Hin.
    destruct (reconcileRemoteSubnet_turn y s0); blame_turn Hin.
    injection Hin as <- <-. eexists _, _. split; [reflexivity | auto].
  - reflexivity.
  - assumption.
  - rewrite Hr in Hres. injection Hres as <- <-.
    split; [reflexivity | ]. left. exists items, w1, y. auto.
  - rewrite Hr in Hres. injection Hres as <- <-.
    split; [reflexivity | ]. right. exists ritems, y. auto.
Qed.

(** X7.  When ensuring the VLAN interface fails the pass asks for a requeue
    and returns the error of line 92 around the helper's; when naming the
    VXLAN interface fails it returns the error of line 98 around the
    helper's. *)
Theorem a_failed_interface_is_reported (s : St W RM) :
  let p := Reconcile s in
  (forall dev netID e,
      In (CallEnsureVlanIf dev netID (Err e)) (calls p) ->
      result_ p = {| Requeue := true |}
      /\ err p = Some ("failed to ensure vlan forward node interface: "
                       ++ e))
  /\ (forall dev netID e,
         In (CallGenerateVxlanNetIfName dev netID (Err e)) (calls p) ->
         result_ p = {| Requeue := true |}
         /\ err p = Some ("failed to generate vxlan forward node if name: "
                          ++ e)).
Proof.
  cbv zeta. split; intros dev netID e H;
    destruct (Reconcile_returns_staging s _ H eq_refl)
      as (Hst & x & e' & Hres & -> & -> & _).
  - destruct (stage_leaves_at s (CallEnsureVlanIf dev netID (Err e))
                (fun _ r m =>
                   r = {| Requeue := true |}
                   /\ m = Some ("failed to ensure vlan forward node interface: "
                                ++ e))
                (fun _ _ _ => False))
      as (r & m & Hr & [(_ & _ & _ & _ & _ & -> & ->)
                       | (_ & _ & _ & _ & [])]).
    + intros y s0 Hin. destruct (reconcileSubnet_turn y s0); blame_turn Hin.
      injection Hin as _ _ <-. eexists _, _. split; [reflexivity | auto].
    + intros y s0 Hin.
      destruct (reconcileRemoteSubnet_turn y s0); blame_turn Hin.
    + reflexivity.
    + assumption.
    + rewrite Hr in Hres. injection Hres as <- <-. auto.
  - destruct (stage_leaves_at s (CallGenerateVxlanNetIfName dev netID (Err e))
                (fun _ r m =>
                   r = {| Requeue := true |}
                   /\ m = Some
                          ("failed to generate vxlan forward node if name: "
                                ++ e))
                (fun _ _ _ => False))
      as (r & m & Hr & [(_ & _ & _ & _ & _ & -> & ->)
                       | (_ & _ & _ & _ & [])]).
    + intros y s0 Hin. destruct (reconcileSubnet_turn y s0); blame_turn Hin.
      injection Hin as _ _ <-. eexists _, _. split; [reflexivity | auto].
    + intros y s0 Hin.
      destruct (reconcileRemoteSubnet_turn y s0); blame_turn Hin.
    + reflexivity.
    + assumption.
    + rewrite Hr in Hres. injection Hres as <- <-. auto.
Qed.

End TurnBlame.

(** ** What the pass calls, for what, and in which order *)

Lemma networkGets_app (t1 t2 : list Event) :
  networkGets (t1 ++ t2) = (networkGets t1 ++ networkGets t2)%list.
Proof.
  induction t1 as [| ev t1 IH]; simpl; [reflexivity | ].
  destruct ev; simpl; rewrite ?IH; reflexivity.
Qed.

Lemma networkGets_none (t : list Event) :
  Forall (fun ev => match ev with
                    | CallGet_Network _ _ => False
                    | _ => True
                    end) t ->
  networkGets t = [].
Proof.
  induction 1 as [| ev t H _ IH]; simpl; [reflexivity | ].
  destruct ev; simpl; try assumption. contradiction.
Qed.

Lemma Forall2_eq_map {A B : Type} (f : A -> B) (l : list A) (l' : list B) :
  Forall2 (fun x y => y = f x) l l' -> l' = map f l.
Proof.
  induction 1 as [| x y l l' H _ IH]; simpl; [reflexivity | ].
  rewrite H, IH. reflexivity.
Qed.

Lemma Forall_suffix {A : Type} (P : A -> Prop) (pre : list A) (x : A)
      (rest : list A) :
  Forall P (pre ++ x :: rest) -> Forall P pre /\ P x /\ Forall P rest.
Proof.
  intros H. apply Forall_app in H. destruct H as [H1 H2].
  inversion H2; subst. auto.
Qed.

Section Order.
Context {W RM : Type} `{C : Collaborators W RM}.

Lemma set_manager_config (m : ManagerRef) (x : RM) (h : CtrlHub RM) :
  config (set_manager m x h) = config h.
Proof. destruct m; reflexivity. Qed.

Lemma reconcileSubnet_keeps_config (x : Subnet) (s : St W RM) :
  config (hub (post (reconcileSubnet x s))) = config (hub s).
Proof.
  destruct (reconcileSubnet_turn x s); cbn [post hub];
    rewrite ?set_manager_config; reflexivity.
Qed.

Lemma stage_calls_in_pass (s : St W RM) (ev : Event) :
  In ev (trace (stage s)) -> In ev (calls (Reconcile s)).
Proof.
  intros H.
  destruct (Reconcile_cases s) as [(x & e & _ & ->) | (_ & x & e & _ & ->)];
    cbn [calls]; [assumption | apply in_or_app; left; assumption].
Qed.

(** A call only a turn of the loop over the subnets makes comes from the
    turn of a listed subnet, begun under the configuration of the pass. *)
Lemma stage_subnet_turn (s : St W RM) (ev : Event) :
  subnet_event ev = true ->
  remote_event ev = false ->
  In ev (trace (stage s)) ->
  exists items w1 x s0,
    List_Subnets (world s) = (Ok items, w1)
    /\ In x items
    /\ config (hub s0) = config (hub s)
    /\ In ev (trace (reconcileSubnet x s0))
    /\ forall ev', In ev' (trace (reconcileSubnet x s0)) ->
                   In ev' (trace (stage s)).
Proof.
  intros Hsub Hrem H.
  destruct (List_Subnets (world s)) as [[items | e] w1] eqn:L.
  2: { rewrite (stage_list_failed s e w1 L) in H. cbn [trace In] in H.
       destruct H as [H | []]. subst ev. discriminate. }
  exists items, w1.
  rewrite (stage_listed s items w1 L) in H |- *.
  set (r1 := forEach reconcileSubnet items (afterReset s w1)) in *.
  assert (In ev (trace r1)) as Hin.
  { destruct (res r1); cbn [trace In] in H.
    - destruct H as [H | [H | [H | H]]]; try (subst ev; discriminate).
      apply in_app_or in H. destruct H as [H | H]; [assumption | ].
      pose proof (reconcileRemoteSubnets_events (post r1)) as He.
      rewrite Forall_forall in He. specialize (He _ H). congruence.
    - destruct H as [H | [H | [H | H]]]; try (subst ev; discriminate).
      assumption. }
  destruct (forEach_event_origin_inv
              (fun s0 : St W RM => config (hub s0) = config (hub s))
              reconcileSubnet ev
              (fun x s0 Hs0 =>
                 eq_trans (reconcileSubnet_keeps_config x s0) Hs0)
              items (afterReset s w1))
    as (x & s0 & Hx & Hc & Hev & Hup).
  - unfold afterReset. cbn [hub]. rewrite !set_manager_config. reflexivity.
  - assumption.
  - exists x, s0. split; [reflexivity | ]. split; [assumption | ].
    split; [assumption | ]. split; [assumption | ].
    intros ev' H'. specialize (Hup _ H'). fold r1 in Hup.
    destruct (res r1); cbn [trace]; right; right; right;
      [apply in_or_app; left | ]; assumption.
Qed.

Ltac pick_call Hin :=
  cbn [trace In] in Hin;
  repeat (destruct Hin as [Hin | Hin]; try discriminate);
  try contradiction.

(** X8.  A pass calls [EnsureVlanIf] only on the configured VLAN device,
    for a listed subnet whose network, as fetched in the pass, is an
    underlay network with this node in its node list, and with the NetID
    resolved for that subnet.  It calls [GenerateVxlanNetIfName] only on the
    configured VXLAN device, for a listed subnet of an overlay network, with
    the NetID resolved for it. *)
Theorem interfaces_only_for_networks_of_their_type (s : St W RM) :
  let p := Reconcile s in
  let cfg := config (hub s) in
  (forall dev netID r,
      In (CallEnsureVlanIf dev netID r) (calls p) ->
      dev = NodeVlanIfName cfg
      /\ exists items w1 subnet network,
          List_Subnets (world s) = (Ok items, w1)
          /\ In subnet items
          /\ In (CallGet_Network (Network_ (Spec subnet)) (Ok network))
                (calls p)
          /\ GetNetworkType network = NetworkTypeUnderlay
          /\ In (NodeName cfg) (NodeList (net_Status network))
          /\ netID = resolveNetID subnet network)
  /\ (forall dev netID r,
         In (CallGenerateVxlanNetIfName dev netID r) (calls p) ->
         dev = NodeVxlanIfName cfg
         /\ exists items w1 subnet network,
             List_Subnets (world s) = (Ok items, w1)
             /\ In subnet items
             /\ In (CallGet_Network (Network_ (Spec subnet)) (Ok network))
                   (calls p)
             /\ GetNetworkType network = NetworkTypeOverlay
             /\ netID = resolveNetID subnet network).
Proof.
  cbv zeta. split; intros dev netID r H.
  - apply Reconcile_event in H.
    destruct H as [[_ H] | (H & _)]; [ | discriminate].
    destruct (stage_subnet_turn s (CallEnsureVlanIf dev netID r) eq_refl
                                eq_refl H)
      as (items & w1 & x & s0 & L & Hx & Hc & Hin & Hup).
    assert (forall network,
               In (CallGet_Network (Network_ (Spec x)) (Ok network))
                  (trace (reconcileSubnet x s0)) ->
               In (CallGet_Network (Network_ (Spec x)) (Ok network))
                  (calls (Reconcile s))) as Hget
        by (intros; apply stage_calls_in_pass, Hup; assumption).
    revert Hin Hget.
    destruct (reconcileSubnet_turn x s0); intros Hin Hget; pick_call Hin;
      injection Hin as <- <- _; rewrite <- Hc;
      (split; [reflexivity | ]);
      exists items, w1, x, network;
      (split; [assumption | ]); (split; [assumption | ]);
      (split; [apply Hget; left; reflexivity | ]);
      (split; [assumption | ]);
      (split; [ | reflexivity]);
      match goal with
      | E : underlayOnHost _ _ = true |- _ =>
          apply underlayOnHost_iff in E; apply E
      end.
  - apply Reconcile_event in H.
    destruct H as [[_ H] | (H & _)]; [ | discriminate].
    destruct (stage_subnet_turn s (CallGenerateVxlanNetIfName dev netID r)
                                eq_refl eq_refl H)
      as (items & w1 & x & s0 & L & Hx & Hc & Hin & Hup).
    assert (forall network,
               In (CallGet_Network (Network_ (Spec x)) (Ok network))
                  (trace (reconcileSubnet x s0)) ->
               In (CallGet_Network (Network_ (Spec x)) (Ok network))
                  (calls (Reconcile s))) as Hget
        by (intros; apply stage_calls_in_pass, Hup; assumption).
    revert Hin Hget.
    destruct (reconcileSubnet_turn x s0); intros Hin Hget; pick_call Hin;
      injection Hin as <- <- _; rewrite <- Hc;
      (split; [reflexivity | ]);
      exists items, w1, x, network;
      (split; [assumption | ]); (split; [assumption | ]);
      (split; [apply Hget; left; reflexivity | ]);
      (split; [assumption | reflexivity]).
Qed.

End Order.

Section Order2.
Context {W RM : Type} `{C : Collaborators W RM}.

Lemma networkGets_loop (items : list Subnet) (s : St W RM) :
  let r := forEach reconcileSubnet items s in
  let names := networkGets (trace r) in
  Forall2 (fun x n => n = Network_ (Spec x))
          (firstn (length names) items) names
  /\ (forall u, res r = Next u -> length names = length items).
Proof.
  apply forEach_records.
  - apply networkGets_app.
  - reflexivity.
  - intros x s0. destruct (reconcileSubnet_turn x s0); cbn [res trace];
      try right; eexists; split; reflexivity.
Qed.

Lemma networkGets_outside_loop (t : list Event) :
  Forall (fun ev => subnet_event ev = false \/ remote_event ev = true) t ->
  networkGets t = [].
Proof.
  intros H. apply networkGets_none. revert H. apply Forall_impl.
  intros ev [H | H]; destruct ev; simpl in *; (discriminate || trivial).
Qed.

(** X9.  The networks of the listed subnets are fetched one by one in the
    order of the listing, each once, up to the first subnet whose turn
    fails; in a pass that gets to [SyncRoutes] the network of every listed
    subnet has been fetched. *)
Theorem networks_are_fetched_in_listing_order (s : St W RM)
        (items : list Subnet) (w1 : W) :
  List_Subnets (world s) = (Ok items, w1) ->
  let p := Reconcile s in
  let names := networkGets (calls p) in
  names = firstn (length names) (map (fun x => Network_ (Spec x)) items)
  /\ ((exists m r, In (CallSyncRoutes m r) (calls p)) ->
      names = map (fun x => Network_ (Spec x)) items).
Proof.
  intros L. cbv zeta.
  set (r1 := forEach reconcileSubnet items (afterReset s w1)).
  destruct (networkGets_loop items (afterReset s w1)) as (H1 & H2).
  fold r1 in H1, H2.
  assert (forall s1, networkGets (trace (reconcileRemoteSubnets s1)) = [])
    as Hrem.
  { intros s1. apply networkGets_outside_loop.
    apply (Forall_impl _ (fun ev H => or_intror H)
                       (reconcileRemoteSubnets_events s1)). }
  assert (forall s1, networkGets (trace (syncAndFinish s1)) = []) as Hsync.
  { intros s1. apply networkGets_outside_loop.
    pose proof (syncAndFinish_events s1) as He. revert He.
    apply Forall_impl. intros ev [He _]. left.
    destruct ev; simpl in *; (discriminate || reflexivity). }
  assert (networkGets (trace (stage s)) = networkGets (trace r1)
          /\ (res (stage s) = Next tt -> res r1 = Next tt)) as (Hst & Hnext).
  { rewrite (stage_listed s items w1 L). fold r1.
    destruct (res r1) as [[] | x e]; cbn [trace res networkGets].
    - rewrite networkGets_app, Hrem, app_nil_r. auto.
    - split; [reflexivity | discriminate]. }
  assert (networkGets (calls (Reconcile s)) = networkGets (trace r1)) as Hc.
  { destruct (Reconcile_cases s)
      as [(x & e & _ & ->) | (_ & x & e & _ & ->)]; cbn [calls].
    - assumption.
    - rewrite networkGets_app, Hsync, app_nil_r. assumption. }
  rewrite Hc. split.
  - apply Forall2_eq_map in H1. rewrite <- firstn_map in H1. exact H1.
  - intros (m & r & Hin). apply Reconcile_event in Hin.
    destruct Hin as [[Hin _] | (_ & E & _)]; [discriminate | ].
    specialize (H2 tt (Hnext E)).
    apply Forall2_eq_map in H1. rewrite H2, firstn_all in H1. exact H1.
Qed.

(** X10.  With no subnet listed and federation off the pass still resets
    both managers and goes on to lines 137-152 with the managers as
    [ResetInfos] left them: its first [SyncRoutes] call is made on the reset
    IPv4 manager, in the world as the listing left it. *)
Theorem nothing_listed_still_resets_and_syncs (s : St W RM) (w1 : W) :
  List_Subnets (world s) = (Ok [], w1) ->
  MultiClusterEnabled = false ->
  let p := Reconcile s in
  calls p = (CallList_Subnets (Ok []) :: CallResetInfos RouteV4
             :: CallResetInfos RouteV6
             :: trace (syncAndFinish (afterReset s w1)))%list
  /\ final p = post (syncAndFinish (afterReset s w1))
  /\ exists rest,
      trace (syncAndFinish (afterReset s w1))
      = CallSyncRoutes RouteV4
          (fst (SyncRoutes (ResetInfos (routeV4Manager (hub s))) w1))
        :: rest.
Proof.
  intros L EM. cbv zeta.
  assert (stage s
          = {| res := Next tt; post := afterReset s w1;
               trace := [CallList_Subnets (Ok []); CallResetInfos RouteV4;
                         CallResetInfos RouteV6] |}) as Hst.
  { rewrite (stage_listed s [] w1 L). cbn [forEach ret res post trace].
    rewrite (reconcileRemoteSubnets_off _ EM). reflexivity. }
  destruct (Reconcile_cases s)
    as [(x & e & E & _) | (_ & x & e & _ & ->)].
  - rewrite Hst in E. discriminate.
  - rewrite Hst. cbn [calls final post trace app].
    split; [reflexivity | ]. split; [reflexivity | ].
    destruct (syncAndFinish_run (afterReset s w1)) as
        [? ? ? E4 | ? ? ? ? E4 | ? ? ? E4 | ? ? ? ? ? ? E4 | ? ? ? ? ? E4];
      cbn [trace]; unfold afterReset in E4;
      cbn [hub world routeV4Manager set_manager] in E4; rewrite E4;
      eexists; reflexivity.
Qed.

(** X11.  Remote subnets are only looked at once every listed subnet has its
    record registered: before a call of lines 110-135 the [AddSubnetInfo]
    calls are those of all the listed subnets, in the order of the listing,
    and after it there is none. *)
Theorem remote_subnets_come_after_all_subnets (s : St W RM)
        (pre : list Event) (ev : Event) (rest : list Event) :
  let p := Reconcile s in
  calls p = (pre ++ ev :: rest)%list ->
  is_remote ev = true ->
  subnetAdds rest = []
  /\ exists items w1,
      List_Subnets (world s) = (Ok items, w1)
      /\ Forall2 subnet_record items (subnetAdds pre).
Proof.
  cbv zeta. intros Hc Hrem.
  assert (In ev (calls (Reconcile s))) as Hin
      by (rewrite Hc; apply in_or_app; right; left; reflexivity).
  apply Reconcile_event in Hin.
  destruct Hin as [[_ Hin] | (Ha & _)];
    [ | destruct ev; simpl in *; discriminate].
  assert (remote_event ev = true /\ subnet_event ev = false) as [Hr Hs]
      by (destruct ev; simpl in *; try discriminate; auto).
  destruct (stage_remote_part s ev Hr Hs Hin)
    as (items & w1 & L & E1 & _ & _ & Ht).
  set (r1 := forEach reconcileSubnet items (afterReset s w1)) in *.
  set (t2 := trace (reconcileRemoteSubnets (post r1))) in *.
  assert (exists t3,
             calls (Reconcile s)
             = ((CallList_Subnets (Ok items) :: CallResetInfos RouteV4
                 :: CallResetInfos RouteV6 :: trace r1) ++ t2 ++ t3)%list
             /\ Forall (fun e => match e with
                                 | CallAddSubnetInfo _ _ => False
                                 | _ => True
                                 end) (t2 ++ t3)) as (t3 & Hcalls & Hno).
  { assert (Forall (fun e => match e with
                             | CallAddSubnetInfo _ _ => False
                             | _ => True
                             end) t2) as H2.
    { pose proof (reconcileRemoteSubnets_events (post r1)) as He.
      revert He. apply Forall_impl.
      intros e; destruct e; simpl; (discriminate || trivial). }
    destruct (Reconcile_cases s)
      as [(x & e & _ & ->) | (_ & x & e & _ & ->)]; cbn [calls]; rewrite Ht.
    - exists []. rewrite app_nil_r. split; [reflexivity | assumption].
    - exists (trace (syncAndFinish (post (stage s)))).
      split; [cbn [app]; rewrite <- app_assoc; reflexivity | ].
      apply Forall_app. split; [assumption | ].
      pose proof (syncAndFinish_events (post (stage s))) as He.
      revert He. apply Forall_impl.
      intros e0 [He _]; destruct e0; simpl in *; (discriminate || trivial). }
  rewrite Hcalls in Hc.
  assert (existsb is_remote
                  (CallList_Subnets (Ok items) :: CallResetInfos RouteV4
                   :: CallResetInfos RouteV6 :: trace r1) = false) as Hfront.
  { cbn [existsb is_remote orb]. apply existsb_false_Forall.
    pose proof (forEach_events _ reconcileSubnet reconcileSubnet_events
                  items (afterReset s w1)) as He.
    fold r1 in He. revert He. apply Forall_impl.
    intros e; destruct e; simpl; (discriminate || trivial). }
  destruct (split_behind is_remote _ _ _ _ _ Hc Hfront Hrem)
    as (pre' & -> & Hback).
  rewrite Hback in Hno. apply Forall_suffix in Hno.
  destruct Hno as (Hpre' & _ & Hrest).
  split; [apply subnetAdds_none; assumption | ].
  exists items, w1. split; [assumption | ].
  rewrite subnetAdds_app, (subnetAdds_none pre' Hpre'), app_nil_r.
  cbn [subnetAdds].
  destruct (subnet_loop_records items (afterReset s w1)) as (H1 & H2).
  fold r1 in H1, H2.
  apply Forall2_firstn_all; [assumption | apply (H2 tt); assumption].
Qed.

End Order2.

(** ** More on one turn *)

Section Turns.
Context {W RM : Type} `{C : Collaborators W RM}.

Lemma manager_set_other (m : ManagerRef) (x : RM) (h : CtrlHub RM) :
  manager (other_manager m) (set_manager m x h) = manager (other_manager m) h.
Proof. destruct m; reflexivity. Qed.

Lemma manager_set_same (m : ManagerRef) (x : RM) (h : CtrlHub RM) :
  manager m (set_manager m x h) = x.
Proof. destruct m; reflexivity. Qed.

Ltac pick_add Hin :=
  cbn [trace In] in Hin;
  repeat (destruct Hin as [Hin | Hin]; try discriminate);
  try contradiction.

(** X12.  The [switch] over the network type has no [default]: a subnet
    whose network is of neither type is registered all the same, on the
    manager of its version, with an empty forwarding interface name and none
    of the three flags set, and neither interface helper is called. *)
Theorem a_network_of_another_type_gets_a_bare_record
        (subnet : Subnet) (s : St W RM) (network : Network) (w1 : W)
        (tag : string) (meta : RangeMeta) :
  Get_Network (Network_ (Spec subnet)) (world s) = (Ok network, w1) ->
  GetNetworkType network = NetworkTypeOther tag ->
  parseSubnetSpecRangeMeta (Range (Spec subnet)) = Ok meta ->
  res (reconcileSubnet subnet s) = Next tt
  /\ trace (reconcileSubnet subnet s)
     = [CallGet_Network (Network_ (Spec subnet)) (Ok network);
        CallParseRange (Range (Spec subnet)) (Ok meta);
        CallAddSubnetInfo (getRouterManager (Version (Range (Spec subnet))))
                          (subnetInfoOf meta "" false false false)]
  /\ world (post (reconcileSubnet subnet s)) = w1.
Proof.
  intros G T P.
  destruct (reconcileSubnet_turn subnet s);
    match goal with
    | G' : Get_Network _ _ = (_, _) |- _ =>
        rewrite G in G'; first [discriminate G' | injection G' as <- <-]
    end;
    try congruence.
  match goal with
  | P' : parseSubnetSpecRangeMeta _ = Ok _ |- _ =>
      rewrite P in P'; injection P' as <-
  end.
  cbn [res trace post world]. auto.
Qed.

(** X13.  The interface a turn has ensured is the one it registers: after a
    successful [EnsureVlanIf] the turn registers one record, whose
    forwarding interface is the name the call returned and which is marked
    as underlay on this host. *)
Theorem the_ensured_interface_is_registered
        (subnet : Subnet) (s : St W RM) (dev : string)
        (netID : option NetID) (name : string) :
  In (CallEnsureVlanIf dev netID (Ok name))
     (trace (reconcileSubnet subnet s)) ->
  res (reconcileSubnet subnet s) = Next tt
  /\ exists info,
      subnetAdds (trace (reconcileSubnet subnet s))
      = [(getRouterManager (Version (Range (Spec subnet))), info)]
      /\ forwardNodeIfName info = name
      /\ isUnderlayOnHost info = true
      /\ isOverlay info = false.
Proof.
  intros Hin.
  destruct (reconcileSubnet_turn subnet s); pick_add Hin.
  injection Hin as _ _ <-. cbn [res trace subnetAdds].
  split; [reflexivity | ]. eexists. split; [reflexivity | ].
  repeat split.
Qed.

(** X14.  A turn of the loop over the subnets leaves the configuration and
    the manager of the other family alone.  A turn that leaves the function
    has registered nothing and leaves the whole hub as it was; a turn that
    goes on has made one [AddSubnetInfo] call, and the manager of the
    subnet's version is what that call made of it. *)
Theorem a_subnet_turn_touches_one_manager (subnet : Subnet) (s : St W RM) :
  let r := reconcileSubnet subnet s in
  let m := getRouterManager (Version (Range (Spec subnet))) in
  config (hub (post r)) = config (hub s)
  /\ manager (other_manager m) (hub (post r))
     = manager (other_manager m) (hub s)
  /\ (forall x e,
         res r = Return x e ->
         hub (post r) = hub s /\ subnetAdds (trace r) = [])
  /\ (res r = Next tt ->
      exists info,
        subnetAdds (trace r) = [(m, info)]
        /\ manager m (hub (post r)) = AddSubnetInfo info (manager m (hub s))).
Proof.
  cbv zeta. split; [apply reconcileSubnet_keeps_config | ].
  destruct (reconcileSubnet_turn subnet s); cbn [res post hub trace subnetAdds];
    rewrite ?manager_set_other, ?manager_set_same;
    (split; [reflexivity | ]);
    (split; [intros x0 e0 E; try discriminate E; auto | ]);
    intros E; try discriminate E;
    eexists; split; reflexivity.
Qed.

(** X15.  A turn of the loop over the remote subnets makes no call but the
    parse and [AddRemoteSubnetInfo]; it leaves the world, the configuration
    and the manager of the other family alone, and the hub as it was when
    the range does not parse.  The record it hands over is marked overlay
    exactly when the type of the remote subnet is Overlay. *)
Theorem a_remote_turn_stays_in_its_manager
        (remoteSubnet : RemoteSubnet) (s : St W RM) :
  let r := reconcileRemoteSubnet remoteSubnet s in
  let m := getRouterManager (Version (rs_Range (rs_Spec remoteSubnet))) in
  world (post r) = world s
  /\ config (hub (post r)) = config (hub s)
  /\ manager (other_manager m) (hub (post r))
     = manager (other_manager m) (hub s)
  /\ (forall ev, In ev (trace r) ->
                 match ev with
                 | CallParseRange _ _ | CallAddRemoteSubnetInfo _ _ _ => True
                 | _ => False
                 end)
  /\ (forall e,
         parseSubnetSpecRangeMeta (rs_Range (rs_Spec remoteSubnet)) = Err e ->
         hub (post r) = hub s /\ remoteAdds (trace r) = [])
  /\ (forall m' info a,
         In (CallAddRemoteSubnetInfo m' info a) (trace r) ->
         m' = m
         /\ (rsi_isOverlay info = true <->
             GetRemoteSubnetType remoteSubnet = NetworkTypeOverlay)).
Proof.
  cbv zeta.
  assert (forall t, NetworkType_is_overlay t = true <->
                    t = NetworkTypeOverlay) as Hov.
  { intros t. destruct t; simpl; split; congruence. }
  destruct (reconcileRemoteSubnet_turn remoteSubnet s);
    cbn [res post hub world trace remoteAdds];
    rewrite ?manager_set_other, ?set_manager_config;
    (split; [reflexivity | ]); (split; [reflexivity | ]);
    (split; [reflexivity | ]);
    (split; [intros ev Hev; cbn [In] in Hev;
             repeat (destruct Hev as [<- | Hev]; [exact I | ]);
             contradiction | ]);
    (split; [intros e0 E; try congruence; auto | ]);
    intros m' info0 a Hin; pick_add Hin;
    injection Hin as <- <- _; (split; [reflexivity | apply Hov]).
Qed.

End Turns.

(** ** Annotation keys *)

(** X16.  The annotation keys are pairwise different, and each lies in the
    [networking.alibaba.com/] name space with a non-empty name behind it. *)
Theorem annotation_keys_are_distinct_and_namespaced :
  NoDup Annotations.keys
  /\ Forall (fun k => String.prefix "networking.alibaba.com/" k = true
                      /\ String.length "networking.alibaba.com/"
                         < String.length k)
            Annotations.keys.
Proof.
  split.
  - unfold Annotations.keys.
    repeat (constructor;
            [cbn [In]; intros H;
             repeat (destruct H as [H | H]; [discriminate H | ]);
             exact H | ]).
    constructor.
  - unfold Annotations.keys. repeat constructor.
Qed.

(** ** The further properties, run *)

Module MoreRuns.
Import Sample Scenario Scenario2.

Ltac found := cbn [In]; repeat (first [left; reflexivity | right]).

Lemma requeue_iff_error_trigger_iff_success_witness :
  let p := Reconcile (C := single) (node "node-1" underlayOnly) in
  err p = None
  /\ In CallIptablesSyncTrigger (calls p)
  /\ existsb failed_call (calls p) = false.
Proof.
  cbv zeta.
  assert (err (Reconcile (C := single) (node "node-1" underlayOnly)) = None)
    as H by (vm_compute; reflexivity).
  destruct (requeue_iff_error_trigger_iff_success
              (C := single) (node "node-1" underlayOnly))
    as (_ & H1 & H2 & _).
  split; [exact H | ].
  split; [exact (proj1 H2 H) | exact (proj1 H1 H)].
Defined.

Lemma a_failed_call_ends_the_pass_witness :
  let p := Reconcile (C := federated) (node "node-1" malformed) in
  calls p = (firstn 8 (calls p)
             ++ CallParseRange rangeBad (Err "MalformedRange")
             :: skipn 9 (calls p))%list
  /\ skipn 9 (calls p) = []
  /\ existsb failed_call (firstn 8 (calls p)) = false
  /\ Requeue (result_ p) = true /\ err p <> None.
Proof.
  cbv zeta.
  assert (calls (Reconcile (C := federated) (node "node-1" malformed))
          = (firstn 8 (calls (Reconcile (C := federated)
                                        (node "node-1" malformed)))
             ++ CallParseRange rangeBad (Err "MalformedRange")
             :: skipn 9 (calls (Reconcile (C := federated)
                                          (node "node-1" malformed))))%list)
    as H by (vm_compute; reflexivity).
  split; [exact H | ].
  exact (proj1 (a_failed_call_ends_the_pass
                  (C := federated) (node "node-1" malformed))
               _ _ _ H eq_refl).
Defined.

Lemma a_failed_sync_is_reported_witness :
  let p := Reconcile (C := noV4Routes) (node "node-1" (clusterOf [subnetA])) in
  In (CallSyncRoutes RouteV4 (Err "EPERM")) (calls p)
  /\ err p = Some ("failed to sync ipv4 routes: " ++ "EPERM")
  /\ forall r, ~ In (CallSyncRoutes RouteV6 r) (calls p).
Proof.
  cbv zeta.
  assert (In (CallSyncRoutes RouteV4 (Err "EPERM"))
             (calls (Reconcile (C := noV4Routes)
                               (node "node-1" (clusterOf [subnetA])))))
    as H by (vm_compute; found).
  split; [exact H | ].
  destruct (proj1 (a_failed_sync_is_reported
                     (C := noV4Routes) (node "node-1" (clusterOf [subnetA])))
                  "EPERM" H) as (_ & He & _ & H6 & _).
  split; [exact He | exact H6].
Defined.

Lemma a_failed_listing_is_reported_witness :
  let p := Reconcile (C := federated) (node "node-1" unreachable) in
  In (CallList_Subnets (Err "timeout")) (calls p)
  /\ result_ p = {| Requeue := true |}
  /\ err p = Some ("failed to list subnet " ++ "timeout")
  /\ calls p = [CallList_Subnets (Err "timeout")].
Proof.
  cbv zeta.
  assert (In (CallList_Subnets (Err "timeout"))
             (calls (Reconcile (C := federated) (node "node-1" unreachable))))
    as H by (vm_compute; found).
  split; [exact H | ].
  exact (proj1 (a_failed_listing_is_reported
                  (C := federated) (node "node-1" unreachable))
               "timeout" H).
Defined.

Lemma a_missing_network_is_reported_witness :
  let s := node "node-1" (clusterOf [subnetA; subnetOrphan; subnetO]) in
  let p := Reconcile (C := federated) s in
  In (CallGet_Network "net-gone" (Err "not found")) (calls p)
  /\ exists items w1 subnet,
      List_Subnets (Collaborators := federated) (world s) = (Ok items, w1)
      /\ In subnet items
      /\ Network_ (Spec subnet) = "net-gone"
      /\ result_ p = {| Requeue := true |}
      /\ err p = Some ("failed to get network for subnet " ++ Name subnet).
Proof.
  cbv zeta.
  assert (In (CallGet_Network "net-gone" (Err "not found"))
             (calls (Reconcile
                       (C := federated)
                       (node "node-1"
                             (clusterOf [subnetA; subnetOrphan; subnetO])))))
    as H by (vm_compute; found).
  split; [exact H | ].
  exact (a_missing_network_is_reported
           (C := federated)
           (node "node-1" (clusterOf [subnetA; subnetOrphan; subnetO]))
           "net-gone" "not found" H).
Defined.

Lemma a_malformed_range_is_reported_witness :
  let p := Reconcile (C := federated) (node "node-1" malformed) in
  In (CallParseRange rangeBad (Err "MalformedRange")) (calls p)
  /\ result_ p = {| Requeue := true |}.
Proof.
  cbv zeta.
  assert (In (CallParseRange rangeBad (Err "MalformedRange"))
             (calls (Reconcile (C := federated) (node "node-1" malformed))))
    as H by (vm_compute; found).
  split; [exact H | ].
  exact (proj1 (a_malformed_range_is_reported
                  (C := federated) (node "node-1" malformed)
                  rangeBad "MalformedRange" H)).
Defined.

Lemma a_failed_interface_is_reported_witness :
  let p := Reconcile (C := federated)
                     (node "node-1" (clusterOf [subnetU0])) in
  In (CallEnsureVlanIf "eth0" None (Err "InterfaceProvisionError")) (calls p)
  /\ result_ p = {| Requeue := true |}
  /\ err p = Some ("failed to ensure vlan forward node interface: "
                   ++ "InterfaceProvisionError").
Proof.
  cbv zeta.
  assert (In (CallEnsureVlanIf "eth0" None (Err "InterfaceProvisionError"))
             (calls (Reconcile (C := federated)
                               (node "node-1" (clusterOf [subnetU0])))))
    as H by (vm_compute; found).
  split; [exact H | ].
  exact (proj1 (a_failed_interface_is_reported
                  (C := federated) (node "node-1" (clusterOf [subnetU0])))
               "eth0" None "InterfaceProvisionError" H).
Defined.

Lemma interfaces_only_for_networks_of_their_type_witness :
  let p := Reconcile (C := federated) (node "node-1" dualStack) in
  In (CallEnsureVlanIf "eth0" (Some 10%N) (Ok "eth0.10")) (calls p)
  /\ "eth0" = NodeVlanIfName (config (hub (node "node-1" dualStack))).
Proof.
  cbv zeta.
  assert (In (CallEnsureVlanIf "eth0" (Some 10%N) (Ok "eth0.10"))
             (calls (Reconcile (C := federated) (node "node-1" dualStack))))
    as H by (vm_compute; found).
  split; [exact H | ].
  exact (proj1 (proj1 (interfaces_only_for_networks_of_their_type
                         (C := federated) (node "node-1" dualStack))
                      "eth0" (Some 10%N) (Ok "eth0.10") H)).
Defined.

Lemma networks_are_fetched_in_listing_order_witness :
  let s := node "node-1" (clusterOf [subnetA; subnetOrphan; subnetO]) in
  let p := Reconcile (C := federated) s in
  List_Subnets (Collaborators := federated) (world s)
  = (Ok [subnetA; subnetOrphan; subnetO], world s)
  /\ networkGets (calls p)
     = firstn (length (networkGets (calls p)))
              (map (fun x => Network_ (Spec x))
                   [subnetA; subnetOrphan; subnetO]).
Proof.
  cbv zeta. split; [reflexivity | ].
  exact (proj1 (networks_are_fetched_in_listing_order
                  (C := federated)
                  (node "node-1" (clusterOf [subnetA; subnetOrphan; subnetO]))
                  [subnetA; subnetOrphan; subnetO] _ eq_refl)).
Defined.

Lemma nothing_listed_still_resets_and_syncs_witness :
  let s := node "node-1" emptyCluster in
  let p := Reconcile (C := single) s in
  List_Subnets (Collaborators := single) (world s) = (Ok [], emptyCluster)
  /\ MultiClusterEnabled (Collaborators := single) = false
  /\ calls p = (CallList_Subnets (Ok []) :: CallResetInfos RouteV4
                :: CallResetInfos RouteV6
                :: trace (syncAndFinish (C := single)
                            (afterReset (C := single) s emptyCluster)))%list.
Proof.
  cbv zeta. split; [reflexivity | ]. split; [reflexivity | ].
  exact (proj1 (nothing_listed_still_resets_and_syncs
                  (C := single) (node "node-1" emptyCluster) emptyCluster
                  eq_refl eq_refl)).
Defined.

Lemma remote_subnets_come_after_all_subnets_witness :
  let s := node "node-1" (clusterOf [subnetA]) in
  let p := Reconcile (C := federated) s in
  calls p = (firstn 7 (calls p) ++ CallList_RemoteSubnets (Ok [remoteR2])
             :: skipn 8 (calls p))%list
  /\ subnetAdds (skipn 8 (calls p)) = [].
Proof.
  cbv zeta.
  assert (calls (Reconcile (C := federated)
                           (node "node-1" (clusterOf [subnetA])))
          = (firstn 7 (calls (Reconcile (C := federated)
                                        (node "node-1" (clusterOf [subnetA]))))
             ++ CallList_RemoteSubnets (Ok [remoteR2])
             :: skipn 8 (calls (Reconcile (C := federated)
                                          (node "node-1"
                                                (clusterOf [subnetA])))))%list)
    as H by (vm_compute; reflexivity).
  split; [exact H | ].
  exact (proj1 (remote_subnets_come_after_all_subnets
                  (C := federated) (node "node-1" (clusterOf [subnetA]))
                  _ _ _ H eq_refl)).
Defined.

Lemma a_network_of_another_type_gets_a_bare_record_witness :
  let s := node "node-1" (clusterOf [subnetX]) in
  Get_Network (Collaborators := federated) (Network_ (Spec subnetX)) (world s)
  = (Ok netX, world s)
  /\ GetNetworkType (Collaborators := federated) netX
     = NetworkTypeOther "GlobalBGP"
  /\ parseSubnetSpecRangeMeta (Collaborators := federated)
                              (Range (Spec subnetX)) = Ok metaR2
  /\ subnetAdds (trace (reconcileSubnet (C := federated) subnetX s))
     = [(RouteV4, infoX)].
Proof.
  cbv zeta. split; [reflexivity | ]. split; [reflexivity | ].
  split; [reflexivity | ].
  destruct (a_network_of_another_type_gets_a_bare_record
              (C := federated) subnetX (node "node-1" (clusterOf [subnetX]))
              netX _ "GlobalBGP" metaR2 eq_refl eq_refl eq_refl)
    as (_ & -> & _).
  reflexivity.
Defined.

Lemma the_ensured_interface_is_registered_witness :
  In (CallEnsureVlanIf "eth0" (Some 10%N) (Ok "eth0.10"))
     (trace (reconcileSubnet (C := single) subnetA
                             (node "node-1" underlayOnly)))
  /\ res (reconcileSubnet (C := single) subnetA (node "node-1" underlayOnly))
     = Next tt.
Proof.
  assert (In (CallEnsureVlanIf "eth0" (Some 10%N) (Ok "eth0.10"))
             (trace (reconcileSubnet (C := single) subnetA
                                     (node "node-1" underlayOnly))))
    as H by (vm_compute; found).
  split; [exact H | ].
  exact (proj1 (the_ensured_interface_is_registered
                  (C := single) subnetA (node "node-1" underlayOnly)
                  "eth0" (Some 10%N) "eth0.10" H)).
Defined.

Lemma a_subnet_turn_touches_one_manager_witness :
  let s := node "node-1" (clusterOf [subnetU0]) in
  let r := reconcileSubnet (C := federated) subnetU0 s in
  res r = Return {| Requeue := true |}
                 (Some ("failed to ensure vlan forward node interface: "
                        ++ "InterfaceProvisionError"))
  /\ hub (post r) = hub s /\ subnetAdds (trace r) = [].
Proof.
  cbv zeta.
  assert (res (reconcileSubnet (C := federated) subnetU0
                               (node "node-1" (clusterOf [subnetU0])))
          = Return {| Requeue := true |}
                   (Some ("failed to ensure vlan forward node interface: "
                          ++ "InterfaceProvisionError")))
    as H by (vm_compute; reflexivity).
  split; [exact H | ].
  destruct (a_subnet_turn_touches_one_manager
              (C := federated) subnetU0 (node "node-1" (clusterOf [subnetU0])))
    as (_ & _ & Hret & _).
  exact (Hret _ _ H).
Defined.

End MoreRuns.
